(** * Circana Sales-Out scripts: the hand-rolled spreadsheet archive codec

    A shallow embedding of [fake_excel_generator.py] (address arithmetic,
    shared-string reader, cell decoder, sheet metadata scanner, row encoder,
    sheet synthesizer, archive copy pass, synthetic dictionaries), of the
    year-from-text rule of [data_quality.py] and of the date parse and the
    column order of [transformar_weeks.py], followed by the properties
    proved about them.

    Conventions of the embedding.
    - A Python [str] is a Rocq [string]; each [ascii] is read as the Unicode
      code point of the same number (0..255).  Python built-ins are given
      their exact behaviour on that range.
    - A Python [int] is a [Z].
    - A call that may raise returns a [result]; the exception classes that
      the modelled code can raise are the constructors of [exn].
    - Dictionaries are [gmap]s, Python lists are [list]s.
    - Library code is embedded by what it is documented to do where a
      statement depends on its result ([int], [str.split], [sorted],
      [xml.sax.saxutils.escape], [datetime.date], the [%m-%d-%y] format
      of [pandas.to_datetime], the reading of XML character data) and is
      a parameter of a section otherwise ([ET.fromstring], [ET.iterparse],
      the name normalisation of [ZipFile.write], the random generator). *)

From Stdlib Require Import ZArith List String Ascii Lia Permutation Sorted.
From Stdlib Require Import DecimalString.
From Stdlib Require DecimalZ DecimalPos.
From stdpp Require Import base option list gmap strings.

Local Open Scope Z_scope.
Local Arguments String.append !_ _ /.

(** ** Exceptions and the error monad *)

Inductive exn : Type :=
| IndexError
| ValueError
| TypeError
| KeyError
| FileNotFoundError
| Hang.   (* not an exception: a loop that never returns *)

Inductive result (A : Type) : Type :=
| Ok (a : A)
| Raise (e : exn).
Arguments Ok {A} a.
Arguments Raise {A} e.

#[global] Instance result_ret : MRet result := fun A a => Ok a.
#[global] Instance result_bind : MBind result := fun A B k m =>
  match m with
  | Ok a => k a
  | Raise e => Raise e
  end.

(** ** Python built-ins used by the scripts *)

Module Py.

Definition ord (c : ascii) : Z := Z.of_N (N_of_ascii c).
Definition chr (z : Z) : ascii := ascii_of_N (Z.to_N z).

Definition dquote : string := String (chr 34) "".
Definition newline : string := String (chr 10) "".

Definition len {A} (l : list A) : Z := Z.of_nat (length l).

(** [x or ""] for an optional string. *)
Definition or_empty (x : option string) : string :=
  match x with
  | Some s => s
  | None => ""
  end.

(** [str.isspace] on one character (what [strip] and [split] test):
    TAB..CR, FS..US, SPACE, NEL, NBSP. *)
Definition isspace (c : ascii) : bool :=
  let n := ord c in
  ((9 <=? n) && (n <=? 13)) || ((28 <=? n) && (n <=? 32))
  || (n =? 133) || (n =? 160).

(** The characters [int()] skips around a number: the ASCII blanks, and
    the non-ASCII spaces, which it first rewrites to a blank. *)
Definition int_space (c : ascii) : bool :=
  let n := ord c in
  ((9 <=? n) && (n <=? 13)) || (n =? 32) || (n =? 133) || (n =? 160).

Definition digit_value (c : ascii) : option Z :=
  let n := ord c in
  if (48 <=? n) && (n <=? 57) then Some (n - 48) else None.

Definition is_digit (c : ascii) : bool := (48 <=? ord c) && (ord c <=? 57).
Definition is_upper_AZ (c : ascii) : bool := (65 <=? ord c) && (ord c <=? 90).
Definition is_lower_az (c : ascii) : bool := (97 <=? ord c) && (ord c <=? 122).

(** [ch.upper()] for a one-character string, as the sequence of code
    points of the result.  Inside 0..255: a-z and the accented lower-case
    letters move down by 32, MICRO SIGN becomes GREEK CAPITAL MU (924),
    y-diaeresis becomes 376, sharp s becomes the two letters SS. *)
Definition upper (ch : ascii) : list Z :=
  let n := ord ch in
  if is_lower_az ch then [n - 32]
  else if n =? 181 then [924]
  else if n =? 223 then [83; 83]
  else if (224 <=? n) && (n <=? 254) && negb (n =? 247) then [n - 32]
  else if n =? 255 then [376]
  else [n].

(** [ord(s)]: the code point of a one-character string, [TypeError]
    for any other length. *)
Definition ord_str (s : list Z) : result Z :=
  match s with
  | [c] => Ok c
  | _ => Raise TypeError
  end.

(** [s.lstrip()], [s.rstrip()], [s.strip()] without argument. *)
Fixpoint lstrip (s : string) : string :=
  match s with
  | String c s' => if isspace c then lstrip s' else s
  | EmptyString => EmptyString
  end.

Fixpoint rstrip (s : string) : string :=
  match s with
  | String c s' =>
      match rstrip s' with
      | EmptyString => if isspace c then EmptyString else String c EmptyString
      | r => String c r
      end
  | EmptyString => EmptyString
  end.

Definition strip (s : string) : string := rstrip (lstrip s).

(** [s.split()] without argument: the maximal runs of non-space
    characters.  [cur] is the run being read. *)
Fixpoint split_ws_from (cur : string) (s : string) : list string :=
  match s with
  | String c s' =>
      if isspace c then
        match cur with
        | EmptyString => split_ws_from EmptyString s'
        | _ => cur :: split_ws_from EmptyString s'
        end
      else split_ws_from (cur +:+ String c EmptyString) s'
  | EmptyString =>
      match cur with
      | EmptyString => []
      | _ => [cur]
      end
  end.

Definition split_ws (s : string) : list string := split_ws_from EmptyString s.

(** [s.split(sep)] for a one-character separator: always at least one
    piece.  [cur] is the piece being read. *)
Fixpoint split_from (sep : ascii) (cur : string) (s : string) : list string :=
  match s with
  | String c s' =>
      if Ascii.eqb c sep then cur :: split_from sep EmptyString s'
      else split_from sep (cur +:+ String c EmptyString) s'
  | EmptyString => [cur]
  end.

Definition split (sep : ascii) (s : string) : list string :=
  split_from sep EmptyString s.

(** [sep in s] for a one-character [sep]. *)
Fixpoint contains (sep : ascii) (s : string) : bool :=
  match s with
  | String c s' => Ascii.eqb c sep || contains sep s'
  | EmptyString => false
  end.

(** [l[i]] with Python's indexing: a negative index counts from the end,
    anything outside [-len, len) raises [IndexError]. *)
Definition index {A} (l : list A) (i : Z) : result A :=
  let j := if i <? 0 then i + len l else i in
  if (0 <=? j) && (j <? len l) then
    match nth_error l (Z.to_nat j) with
    | Some a => Ok a
    | None => Raise IndexError
    end
  else Raise IndexError.

(** [str(n)] for an int: decimal, a minus sign for negatives. *)
Definition str_of_int (n : Z) : string := NilZero.string_of_int (Z.to_int n).

(** [int(s)] for a string, base 10: optional blanks, an optional sign,
    digits that may be separated by single underscores, optional blanks;
    [ValueError] otherwise, and [ValueError] as well when the number is
    written with more digits than [sys.int_max_str_digits] allows.  The
    limit is the one CPython has by default since 3.11 (and in the
    security releases of 3.7 to 3.10): 4300 digits, leading zeros
    counted, underscores and the sign not. *)
Definition int_max_str_digits : Z := 4300.

Fixpoint count_digits (s : string) : Z :=
  match s with
  | String c s' => (if is_digit c then 1 else 0) + count_digits s'
  | EmptyString => 0
  end.

Fixpoint skip_int_space (s : string) : string :=
  match s with
  | String c s' => if int_space c then skip_int_space s' else s
  | EmptyString => EmptyString
  end.

(** Reads the digits that follow a digit already read. *)
Fixpoint int_digits (acc : Z) (s : string) : option (Z * string) :=
  match s with
  | String c s' =>
      match digit_value c with
      | Some d => int_digits (acc * 10 + d) s'
      | None =>
          if Ascii.eqb c "_" then
            match s' with
            | String c2 s'' =>
                match digit_value c2 with
                | Some d => int_digits (acc * 10 + d) s''
                | None => None
                end
            | EmptyString => None
            end
          else Some (acc, s)
      end
  | EmptyString => Some (acc, EmptyString)
  end.

Definition int_unsigned (s : string) : result Z :=
  match s with
  | String c s' =>
      match digit_value c with
      | Some d =>
          match int_digits d s' with
          | Some (n, rest) =>
              match skip_int_space rest with
              | EmptyString =>
                  if int_max_str_digits <? count_digits s then Raise ValueError
                  else Ok n
              | _ => Raise ValueError
              end
          | None => Raise ValueError
          end
      | None => Raise ValueError
      end
  | EmptyString => Raise ValueError
  end.

Definition int_of_str (s : string) : result Z :=
  match skip_int_space s with
  | String c s' =>
      if Ascii.eqb c "-" then n ← int_unsigned s'; Ok (- n)
      else if Ascii.eqb c "+" then int_unsigned s'
      else int_unsigned (String c s')
  | EmptyString => Raise ValueError
  end.

(** [int(x)] where [x] is the text of an XML node, [None] when the node
    is empty: [int(None)] raises [TypeError]. *)
Definition int_of_text (x : option string) : result Z :=
  match x with
  | Some s => int_of_str s
  | None => Raise TypeError
  end.

(** [zip(a, b, c)]: stops with the shortest. *)
Fixpoint zip3 {A B C} (a : list A) (b : list B) (c : list C)
  : list (A * B * C) :=
  match a, b, c with
  | x :: a', y :: b', z :: c' => (x, y, z) :: zip3 a' b' c'
  | _, _, _ => []
  end.

(** [s.replace(c, by)] for a one-character [c]. *)
Fixpoint replace (c : ascii) (by_ : string) (s : string) : string :=
  match s with
  | String x s' =>
      if Ascii.eqb x c then by_ +:+ replace c by_ s'
      else String x (replace c by_ s')
  | EmptyString => EmptyString
  end.

(** [s.replace(old, new)] for a non-empty [old]: the occurrences of
    [old] are replaced from the left, none overlapping another.  [skip]
    counts the characters of an occurrence that are still to be passed. *)
Fixpoint replace_str_from (skip : nat) (old new : string) (s : string) : string :=
  match s with
  | String c s' =>
      match skip with
      | S k => replace_str_from k old new s'
      | O =>
          if String.prefix old s
          then new +:+ replace_str_from (String.length old - 1) old new s'
          else String c (replace_str_from O old new s')
      end
  | EmptyString => EmptyString
  end.

Definition replace_str (old new : string) (s : string) : string :=
  replace_str_from 0 old new s.

(** [sorted(l, key=key)]: the keys are computed first, one per element,
    then the elements are put in ascending key order, equal keys keeping
    their input order (the sort is stable). *)
Fixpoint insert_by_key {A} (k : Z) (a : A) (l : list (Z * A)) : list (Z * A) :=
  match l with
  | [] => [(k, a)]
  | (k', a') :: l' =>
      if k <=? k' then (k, a) :: l
      else (k', a') :: insert_by_key k a l'
  end.

Fixpoint sort_keyed {A} (l : list (Z * A)) : list (Z * A) :=
  match l with
  | [] => []
  | (k, a) :: l' => insert_by_key k a (sort_keyed l')
  end.

Definition sorted {A} (key : A -> result Z) (l : list A) : result (list A) :=
  ks ← mapM (fun a => k ← key a; Ok (k, a)) l;
  Ok (map snd (sort_keyed ks)).

End Py.

(** ** Address arithmetic ([fake_excel_generator.py], lines 23-35) *)

(** One test of the [while idx:] loop of [col_index_to_letter] followed by
    its body: [None] when the loop exits, the next state otherwise. *)
Definition col_index_to_letter_step (st : Z * string) : option (Z * string) :=
  let '(idx, letters) := st in
  if idx =? 0 then None
  else
    let '(q, rem) := Z.div_eucl (idx - 1) 26 in
    Some (q, String (Py.chr (65 + rem)) letters).

(** The loop run for at most [fuel] iterations: [Some letters] when it
    exits within them, [None] when it is still running. *)
Fixpoint col_index_to_letter_loop (fuel : nat) (st : Z * string) : option string :=
  match col_index_to_letter_step st with
  | None => Some (snd st)
  | Some st' =>
      match fuel with
      | O => None
      | S fuel' => col_index_to_letter_loop fuel' st'
      end
  end.

(** [col_index_to_letter(idx)].  The index itself bounds the number of
    iterations when it is not negative; a negative index never leaves the
    loop, which shows as [None] for every amount of fuel. *)
Definition col_index_to_letter (idx : Z) : option string :=
  col_index_to_letter_loop (Z.to_nat idx) (idx, EmptyString).

(** The [for ch in letter] loop of [col_letter_to_index], from the running
    value [idx]. *)
Fixpoint col_letter_to_index_loop (idx : Z) (letter : string) : result Z :=
  match letter with
  | String ch rest =>
      o ← Py.ord_str (Py.upper ch);
      col_letter_to_index_loop (idx * 26 + (o - 64)) rest
  | EmptyString => Ok idx
  end.

Definition col_letter_to_index (letter : string) : result Z :=
  col_letter_to_index_loop 0 letter.

(** ** XML elements as [xml.etree.ElementTree] presents them *)

(** An element: its tag in the [{namespace}local] form, its attributes,
    the text before its first child ([None] when there is none) and its
    children in document order. *)
#[warnings="-register-all"]
Inductive Element : Type :=
| Elem (tag : string) (attrib : gmap string string)
       (text : option string) (children : list Element).

Definition tag (e : Element) : string := let 'Elem t _ _ _ := e in t.
Definition attrib (e : Element) : gmap string string := let 'Elem _ a _ _ := e in a.
Definition text (e : Element) : option string := let 'Elem _ _ x _ := e in x.
Definition children (e : Element) : list Element := let 'Elem _ _ _ c := e in c.

Definition NS_MAIN : string :=
  "http://schemas.openxmlformats.org/spreadsheetml/2006/main".
Definition NS_REL : string :=
  "http://schemas.openxmlformats.org/officeDocument/2006/relationships".

(** The tag that the path step [main:name] selects. *)
Definition main (name : string) : string := "{" +:+ NS_MAIN +:+ "}" +:+ name.

Module ET.

(** The element and everything below it, in document order. *)
Fixpoint iter (e : Element) : list Element :=
  match e with
  | Elem _ _ _ cs =>
      e :: (fix iter_all (l : list Element) : list Element :=
              match l with
              | [] => []
              | c :: l' => iter c ++ iter_all l'
              end) cs
  end.

Definition descendants (e : Element) : list Element :=
  flat_map iter (children e).

Definition has_tag (t : string) (e : Element) : bool := String.eqb (tag e) t.

(** [e.findall("main:x", NS)]: the children with that tag. *)
Definition findall (e : Element) (t : string) : list Element :=
  List.filter (has_tag t) (children e).

(** [e.find("main:x", NS)]: the first such child. *)
Definition find (e : Element) (t : string) : option Element :=
  head (findall e t).

(** [e.findall(".//main:x", NS)]: every element below [e] with that tag. *)
Definition findall_below (e : Element) (t : string) : list Element :=
  List.filter (has_tag t) (descendants e).

(** [e.find(".//main:x", NS)]. *)
Definition find_below (e : Element) (t : string) : option Element :=
  head (findall_below e t).

End ET.

(** ** Archives as [zipfile.ZipFile] presents them *)

Definition bytes : Type := list Byte.byte.

Record ZipMember : Type := { filename : string; data : bytes }.

Module Zip.

(** An open archive: its members in directory order. *)
Definition t : Type := list ZipMember.

Definition infolist (zf : t) : list ZipMember := zf.
Definition namelist (zf : t) : list string := map filename zf.

(** [zf.read(name)]: the directory maps a name to the last member that
    carries it; [KeyError] when there is none. *)
Fixpoint read (zf : t) (name : string) : result bytes :=
  match zf with
  | [] => Raise KeyError
  | m :: zf' =>
      match read zf' name with
      | Ok d => Ok d
      | Raise _ => if String.eqb (filename m) name then Ok (data m) else Raise KeyError
      end
  end.

(** [out.writestr(item, data)]: appends a member named as [item]. *)
Definition writestr (out : t) (item : ZipMember) (d : bytes) : t :=
  out ++ [{| filename := filename item; data := d |}].

End Zip.

(** [name in names]. *)
Definition name_in (name : string) (names : list string) : bool :=
  existsb (String.eqb name) names.

(** ** Shared strings and cells ([fake_excel_generator.py], lines 38-62) *)

Section Reader.

(** [ET.fromstring]: the XML parser of the standard library. *)
Variable fromstring : bytes -> result Element.

Definition parse_shared_strings (zf : Zip.t) : result (list string) :=
  if negb (name_in "xl/sharedStrings.xml" (Zip.namelist zf)) then Ok []
  else
    raw ← Zip.read zf "xl/sharedStrings.xml";
    root ← fromstring raw;
    Ok (map (fun si =>
               String.concat ""
                 (map (fun t => Py.or_empty (text t))
                      (ET.findall_below si (main "t"))))
            (ET.findall root (main "si"))).

End Reader.

Definition decode_cell (cell : Element) (shared_strings : list string) : result string :=
  let t := attrib cell !! "t" in
  let v := ET.find cell (main "v") in
  match (if bool_decide (t = Some "s") then v else None) with
  | Some v' =>
      idx ← Py.int_of_text (text v');
      if idx <? Py.len shared_strings then Py.index shared_strings idx else Ok ""
  | None =>
      if bool_decide (t = Some "inlineStr") then
        match ET.find_below cell (main "t") with
        | Some t_node => Ok (Py.or_empty (text t_node))
        | None => Ok ""
        end
      else
        match v with
        | Some v' => Ok (Py.or_empty (text v'))
        | None => Ok ""
        end
  end.

(** ** Sheet metadata scanner ([fake_excel_generator.py], lines 65-101) *)

(** The longest prefix of [s] whose characters satisfy [p], and the rest. *)
Fixpoint span (p : ascii -> bool) (s : string) : string * string :=
  match s with
  | String c s' =>
      if p c then let '(a, b) := span p s' in (String c a, b)
      else (EmptyString, s)
  | EmptyString => (EmptyString, EmptyString)
  end.

(** [re.match(r"([A-Z]+)", s)]: group 1 when the pattern matches. *)
Definition match_letters (s : string) : option string :=
  match fst (span Py.is_upper_AZ s) with
  | EmptyString => None
  | g => Some g
  end.

(** [re.match(r"([A-Z]+)([0-9]+)", s)]: groups 1 and 2 when it matches.
    The two classes are disjoint, so group 1 is the whole run of letters. *)
Definition match_letters_digits (s : string) : option (string * string) :=
  let '(g1, rest) := span Py.is_upper_AZ s in
  let g2 := fst (span Py.is_digit rest) in
  match g1, g2 with
  | EmptyString, _ => None
  | _, EmptyString => None
  | _, _ => Some (g1, g2)
  end.

(** The sort key of a header cell: the column of the letters that start
    its own [r] attribute, the column of [A] when there are none. *)
Definition cell_column_key (c : Element) : result Z :=
  col_letter_to_index
    (match match_letters (default "" (attrib c !! "r")) with
     | Some g => g
     | None => "A"
     end).

Inductive event_kind : Type := Start | End.

(** [tag.split("}")[-1]]: the tag without its namespace. *)
Definition local_name (t : string) : string := List.last (Py.split "}" t) "".

(** The state of the scan loop. *)
Record scan : Type := {
  headers : list string;
  max_row : Z;
  dimension_ref : option string
}.

(** The body of the [for event, elem in context] loop: the next state and
    whether the loop breaks. *)
Definition scan_event (shared_strings : list string)
    (st : scan) (ev : event_kind * Element) : result (scan * bool) :=
  let '(event, elem) := ev in
  let tag_ := local_name (tag elem) in
  let st1 :=
    match event with
    | Start =>
        if String.eqb tag_ "dimension"
        then {| headers := headers st; max_row := max_row st;
                dimension_ref := attrib elem !! "ref" |}
        else st
    | End => st
    end in
  match event with
  | End =>
      if String.eqb tag_ "row" then
        r_idx ← match attrib elem !! "r" with
                 | Some r => Py.int_of_str r
                 | None => Ok (Py.len (headers st1) + 1)
                 end;
        hs ← (if r_idx =? 1 then
                 sorted_cells ← Py.sorted cell_column_key (ET.findall elem (main "c"));
                 mapM (fun c => decode_cell c shared_strings) sorted_cells
               else Ok (headers st1));
        Ok ({| headers := hs; max_row := Z.max (max_row st1) r_idx;
               dimension_ref := dimension_ref st1 |},
            2 <=? r_idx)
      else Ok (st1, false)
  | Start => Ok (st1, false)
  end.

(** The loop over the events that [ET.iterparse] produces; an item of the
    stream is an error when the parser stops there. *)
Fixpoint scan_events (shared_strings : list string)
    (st : scan) (events : list (result (event_kind * Element))) : result scan :=
  match events with
  | [] => Ok st
  | Raise e :: _ => Raise e
  | Ok ev :: events' =>
      '(st', stop) ← scan_event shared_strings st ev;
      if (stop : bool) then Ok st' else scan_events shared_strings st' events'
  end.

(** The truth value of an optional string: [None] and the empty string
    are false. *)
Definition truthy (x : option string) : bool :=
  match x with
  | None | Some EmptyString => false
  | Some _ => true
  end.

Definition is_nil {A} (l : list A) : bool :=
  match l with
  | [] => true
  | _ => false
  end.

(** The part of [parse_sheet_meta] after the loop: the extent of the
    sheet, from the dimension declaration when it can be read, from the
    rows seen otherwise. *)
Definition sheet_extent (st : scan) : result (list string * Z * string) :=
  dim ← match dimension_ref st with
         | Some ref =>
             if negb (truthy (Some ref)) then Ok (None, max_row st) else
             end_ref ← (if Py.contains ":" ref then Py.index (Py.split ":" ref) 1
                         else Ok ref);
             match match_letters_digits end_ref with
             | Some (g1, g2) => n ← Py.int_of_str g2; Ok (Some g1, n)
             | None => Ok (None, max_row st)
             end
         | None => Ok (None, max_row st)
         end;
  let '(max_col_letter, max_row_) := dim in
  max_col_letter' ←
    (if negb (truthy max_col_letter) && negb (is_nil (headers st)) then
       match col_index_to_letter (Py.len (headers st)) with
       | Some s => Ok (Some s)
       | None => Raise Hang
       end
     else Ok max_col_letter);
  Ok (headers st, max_row_,
      if truthy max_col_letter' then Py.or_empty max_col_letter' else "A").

(** [parse_sheet_meta], from the event stream of the sheet. *)
Definition parse_sheet_meta_events
    (events : list (result (event_kind * Element)))
    (shared_strings : list string) : result (list string * Z * string) :=
  st ← scan_events shared_strings
         {| headers := []; max_row := 1; dimension_ref := None |} events;
  sheet_extent st.

Section Scanner.

(** [ET.iterparse] over an archive member opened with [zf.open]. *)
Variable iterparse : bytes -> list (result (event_kind * Element)).

Definition parse_sheet_meta (zf : Zip.t) (sheet_path : string)
    (shared_strings : list string) : result (list string * Z * string) :=
  raw ← Zip.read zf sheet_path;
  parse_sheet_meta_events (iterparse raw) shared_strings.

End Scanner.

(** ** Row encoder ([fake_excel_generator.py], lines 104-116) *)

(** The values a row holds. A float is carried by the text [str] gives it. *)
Inductive value : Type :=
| VNone
| VStr (s : string)
| VInt (n : Z)
| VFloat (repr : string).

(** [str(val)], which is also what [f"{val}"] prints. *)
Definition str (val : value) : string :=
  match val with
  | VNone => "None"
  | VStr s => s
  | VInt n => Py.str_of_int n
  | VFloat r => r
  end.

(** [xml.sax.saxutils.escape] with its default (empty) entity table. *)
Definition escape (data : string) : string :=
  let data := Py.replace "&" "&amp;" data in
  let data := Py.replace ">" "&gt;" data in
  let data := Py.replace "<" "&lt;" data in
  data.

(** The element appended for one column. *)
Definition cell_xml (row_idx : Z) (col_letter : string) (val : value)
    (is_num : bool) : string :=
  let ref := col_letter +:+ Py.str_of_int row_idx in
  if is_num then
    "<c r=" +:+ Py.dquote +:+ ref +:+ Py.dquote +:+ "><v>" +:+ str val +:+ "</v></c>"
  else
    let text := escape (match val with VNone => "" | _ => str val end) in
    "<c r=" +:+ Py.dquote +:+ ref +:+ Py.dquote +:+ " t=" +:+ Py.dquote +:+ "inlineStr"
      +:+ Py.dquote +:+ "><is><t>" +:+ text +:+ "</t></is></c>".

(** The list [parts] when [build_row_xml] joins it. *)
Definition row_parts (row_idx : Z) (values : list value) (num_flags : list bool)
    (col_letters : list string) : list string :=
  ["<row r=" +:+ Py.dquote +:+ Py.str_of_int row_idx +:+ Py.dquote +:+ ">"]
  ++ map (fun '(col_letter, val, is_num) => cell_xml row_idx col_letter val is_num)
         (Py.zip3 col_letters values num_flags)
  ++ ["</row>" +:+ Py.newline].

Definition build_row_xml (row_idx : Z) (values : list value) (num_flags : list bool)
    (col_letters : list string) : string :=
  String.concat "" (row_parts row_idx values num_flags col_letters).

(** ** Sheet synthesizer ([fake_excel_generator.py], lines 308-326) *)

(** [s.encode("utf-8")] on code points 0..255. *)
Definition utf8_char (c : ascii) : bytes :=
  let n := N_of_ascii c in
  if (n <? 128)%N then [byte_of_ascii c]
  else [byte_of_ascii (ascii_of_N (192 + n / 64));
        byte_of_ascii (ascii_of_N (128 + n mod 64))].

Fixpoint utf8 (s : string) : bytes :=
  match s with
  | String c s' => utf8_char c ++ utf8 s'
  | EmptyString => []
  end.

(** [[col_index_to_letter(i + 1) for i in range(n)]]. *)
Definition col_letters_for (n : nat) : result (list string) :=
  mapM (fun i : nat =>
          match col_index_to_letter (Z.of_nat i + 1) with
          | Some s => Ok s
          | None => Raise Hang
          end) (seq 0 n).

(** [enumerate(rows, start)] mapped through [build_row_xml]. *)
Fixpoint data_rows_xml (idx : Z) (rows : list (list value)) (num_flags : list bool)
    (col_letters : list string) : list string :=
  match rows with
  | [] => []
  | row :: rows' =>
      build_row_xml idx row num_flags col_letters
        :: data_rows_xml (idx + 1) rows' num_flags col_letters
  end.

(** The strings passed to [f.write], in order, and how the body of the
    [with] block ends. *)
Definition table_sheet_writes (headers : list string) (rows : list (list value))
    (num_flags : list bool) (col_letters : list string) : list string * result unit :=
  let total_rows := 1 + Py.len rows in
  let w1 := "<?xml version=" +:+ Py.dquote +:+ "1.0" +:+ Py.dquote +:+ " encoding="
            +:+ Py.dquote +:+ "UTF-8" +:+ Py.dquote +:+ "?>" +:+ Py.newline in
  let w2 := "<worksheet xmlns=" +:+ Py.dquote +:+ NS_MAIN +:+ Py.dquote +:+ " xmlns:r="
            +:+ Py.dquote +:+ NS_REL +:+ Py.dquote +:+ ">" in
  match Py.index col_letters (-1) with
  | Raise e => ([w1; w2], Raise e)
  | Ok last_letter =>
      let w3 := "<dimension ref=" +:+ Py.dquote +:+ "A1:" +:+ last_letter
                +:+ Py.str_of_int total_rows +:+ Py.dquote +:+ "/>" in
      ([w1; w2; w3; "<sheetData>";
        build_row_xml 1 (map VStr headers) (map (fun _ => false) headers) col_letters]
       ++ data_rows_xml 2 rows num_flags col_letters
       ++ ["</sheetData></worksheet>"],
       Ok tt)
  end.

(** [write_table_sheet]: the file system after the call (the file at
    [out_path] holds what was written when the block was left) and the
    outcome of the call. *)
Definition write_table_sheet (fs : gmap string bytes) (out_path : string)
    (headers : list string) (rows : list (list value)) (num_flags : list bool)
    : gmap string bytes * result unit :=
  match col_letters_for (length headers) with
  | Raise e => (fs, Raise e)
  | Ok col_letters =>
      let '(writes, r) := table_sheet_writes headers rows num_flags col_letters in
      (<[out_path := utf8 (String.concat "" writes)]> fs, r)
  end.

(** ** Archive copy pass ([fake_excel_generator.py], lines 468-475) *)

Section Patcher.

(** The name under which [ZipFile.write] stores the [arcname] it is
    given: the platform's path normalisation, code of the standard
    library. *)
Variable arcname_of : string -> string.

(** [out.write(path, arcname=arcname)]. *)
Definition zip_write (fs : gmap string bytes) (out : Zip.t)
    (path arcname : string) : result Zip.t :=
  match fs !! path with
  | Some d => Ok (out ++ [{| filename := arcname_of arcname; data := d |}])
  | None => Raise FileNotFoundError
  end.

(** The body of the [for item in src_zip.infolist()] loop. *)
Definition copy_member (fs : gmap string bytes) (src_zip : Zip.t)
    (replacements : gmap string string) (out_zip : Zip.t) (item : ZipMember)
    : result Zip.t :=
  match replacements !! filename item with
  | Some path => zip_write fs out_zip path (filename item)
  | None =>
      d ← Zip.read src_zip (filename item);
      Ok (Zip.writestr out_zip item d)
  end.

Fixpoint copy_members (fs : gmap string bytes) (src_zip : Zip.t)
    (replacements : gmap string string) (items : list ZipMember)
    (out_zip : Zip.t) : result Zip.t :=
  match items with
  | [] => Ok out_zip
  | item :: items' =>
      out' ← copy_member fs src_zip replacements out_zip item;
      copy_members fs src_zip replacements items' out'
  end.

Definition copy_pass (fs : gmap string bytes) (src_zip : Zip.t)
    (replacements : gmap string string) : result Zip.t :=
  copy_members fs src_zip replacements (Zip.infolist src_zip) [].

End Patcher.

(** ** Year from the [Time] text ([data_quality.py], lines 299-323) *)

Module DataQuality.

(** The body of the [for val in time_col] loop: the value appended to
    [year_from_time], [None] for [np.nan]. *)
Definition year_from_time (val : string) : option Z :=
  let parts := Py.split_ws (Py.strip val) in
  match List.find (Py.contains "-") (rev parts) with
  | Some candidate =>
      let yy := List.last (Py.split "-" candidate) "" in
      match Py.int_of_str yy with
      | Ok yy_int =>
          Some (if yy_int <? 50 then 2000 + yy_int else 1900 + yy_int)
      | Raise _ => None
      end
  | None => None
  end.

End DataQuality.

(** ** Vocabulary of the statements about letters *)

Fixpoint map_string (f : ascii -> ascii) (s : string) : string :=
  match s with
  | String c s' => String (f c) (map_string f s')
  | EmptyString => EmptyString
  end.

Fixpoint all_chars (p : ascii -> bool) (s : string) : bool :=
  match s with
  | String c s' => p c && all_chars p s'
  | EmptyString => true
  end.

(** The two spellings of an ASCII letter. *)
Definition to_upper (c : ascii) : ascii :=
  if Py.is_lower_az c then Py.chr (Py.ord c - 32) else c.
Definition to_lower (c : ascii) : ascii :=
  if Py.is_upper_AZ c then Py.chr (Py.ord c + 32) else c.

Definition is_alpha (c : ascii) : bool := Py.is_upper_AZ c || Py.is_lower_az c.

(** LATIN SMALL LETTER SHARP S, whose upper-case form has two letters. *)
Definition sharp_s : ascii := Py.chr 223.

(** The code point of the upper-case form of a character, for the
    characters whose upper-case form is one character. *)
Definition upper_code (c : ascii) : Z :=
  match Py.upper c with
  | [o] => o
  | _ => 0
  end.

(** The number a string writes in base 26 when each character counts for
    the code point of its upper-case form less 64: the sum, over the
    characters, of that count times 26 to the number of characters that
    follow. *)
Fixpoint positional_value (s : string) : Z :=
  match s with
  | String c s' =>
      (upper_code c - 64) * 26 ^ Z.of_nat (String.length s') + positional_value s'
  | EmptyString => 0
  end.

(** ** Vocabulary of the statements about shared strings *)

(** The text fragments inside an entry: the texts of the [t] elements
    below it, in document order. *)
Fixpoint fragments (e : Element) : list string :=
  match e with
  | Elem _ _ _ cs =>
      (fix fragments_all (l : list Element) : list string :=
         match l with
         | [] => []
         | c :: l' =>
             (if ET.has_tag (main "t") c then [Py.or_empty (text c)] else [])
               ++ fragments c ++ fragments_all l'
         end) cs
  end.

(** A rich-text entry: one [r] element per run, each holding its run
    properties and its text. *)
Definition rich_run (fragment : string) : Element :=
  Elem (main "r") ∅ None
    [Elem (main "rPr") ∅ None []; Elem (main "t") ∅ (Some fragment) []].

Definition rich_entry (runs : list string) : Element :=
  Elem (main "si") ∅ None (map rich_run runs).

(** ** Vocabulary of the statements about header order *)

(** The value of a string of letters in bijective base 26 ([A] is 1),
    continuing from [acc]. *)
Fixpoint letters_value_from (acc : Z) (letters : string) : Z :=
  match letters with
  | String c s' => letters_value_from (acc * 26 + (Py.ord c - 64)) s'
  | EmptyString => acc
  end.

Definition letters_value (letters : string) : Z := letters_value_from 0 letters.

(** The column a cell names in its own address: the value of the letters
    its [r] attribute starts with, column 1 when it starts with none. *)
Definition column_of_ref (c : Element) : Z :=
  match fst (span Py.is_upper_AZ (default "" (attrib c !! "r"))) with
  | EmptyString => 1
  | letters => letters_value letters
  end.

(** The events that close a row. *)
Definition is_row_end (ev : event_kind * Element) : bool :=
  match ev with
  | (End, e) => String.eqb (local_name (tag e)) "row"
  | (Start, _) => false
  end.

(** The events that open a dimension declaration. *)
Definition is_dimension_start (ev : event_kind * Element) : bool :=
  match ev with
  | (Start, e) => String.eqb (local_name (tag e)) "dimension"
  | (End, _) => false
  end.

(** A dimension reference of at most 4300 characters: whatever row
    number it writes, [int] reads it. *)
Definition short_ref (d : option string) : bool :=
  match d with
  | Some ref => (String.length ref <=? 4300)%nat
  | None => true
  end.

(** The events that open no dimension declaration with a longer
    reference. *)
Definition short_dimension (ev : event_kind * Element) : bool :=
  negb (is_dimension_start ev) || short_ref (attrib (snd ev) !! "ref").

(** What may come before the header row: events that close no row and
    open no dimension declaration with a longer reference. *)
Definition before_header (ev : event_kind * Element) : bool :=
  negb (is_row_end ev) && short_dimension ev.

(** What may follow a header row of [n] cells in the stream: events that
    close no row, then the end of the stream or the end of a row that the
    loop numbers 2 or more, which is a row with such an [r] or, when the
    header row has a cell, a row without [r] (the loop numbers it
    [n + 1]). *)
Fixpoint ends_header (n : Z) (post : list (result (event_kind * Element))) : bool :=
  match post with
  | [] => true
  | Raise _ :: _ => false
  | Ok ev :: rest =>
      if is_row_end ev then
        match attrib (snd ev) !! "r" with
        | Some r =>
            match Py.int_of_str r with
            | Ok k => 2 <=? k
            | Raise _ => false
            end
        | None => 2 <=? n + 1
        end
      else short_dimension ev && ends_header n rest
  end.

(** The order [sorted] puts decorated elements in. *)
Definition key_le {A} (p q : Z * A) : Prop := fst p <= fst q.

(** The cell [<c r=ref t="inlineStr"><is><t>text</t></is></c>]. *)
Definition inline_cell (ref text_ : string) : Element :=
  Elem (main "c") (<["r" := ref]> {["t" := "inlineStr"]}) None
    [Elem (main "is") ∅ None [Elem (main "t") ∅ (Some text_) []]].

(** The cell [<c r=ref t="s"><v>index</v></c>]. *)
Definition shared_cell (ref index : string) : Element :=
  Elem (main "c") (<["r" := ref]> {["t" := "s"]}) None
    [Elem (main "v") ∅ (Some index) []].

(** A header row written out of column order: column B before column A. *)
Definition unordered_row : Element :=
  Elem (main "row") {["r" := "1"]} None
    [inline_cell "B1" "Week"; inline_cell "A1" "Time"].

(** Whether a cell decodes, and its text when it does (the empty text
    otherwise). *)
Definition decodes (shared_strings : list string) (c : Element) : bool :=
  match decode_cell c shared_strings with
  | Ok _ => true
  | Raise _ => false
  end.

Definition text_of (shared_strings : list string) (c : Element) : string :=
  match decode_cell c shared_strings with
  | Ok s => s
  | Raise _ => ""
  end.

(** The display text of a cell as the specification words it (section
    4.3), by storage form.  Shared-string form ([t] is [s]): the table
    entry at the index the cell holds, the empty text for an index from
    the table length on and for a cell that holds no value node.
    Inline-string form ([t] is [inlineStr]): the text of the first text
    run inside the cell.  Any other or no [t]: the text of the value
    node.  Missing nodes and texts give the empty text.  A shared-string
    cell whose index is absent, not a number or negative has no display
    text. *)
Definition display_text (shared_strings : list string) (c : Element) : option string :=
  let form := default "" (attrib c !! "t") in
  if String.eqb form "s" then
    match ET.find c (main "v") with
    | Some v =>
        match Py.int_of_text (text v) with
        | Ok idx =>
            if idx <? 0 then None else Some (nth (Z.to_nat idx) shared_strings "")
        | Raise _ => None
        end
    | None => Some ""
    end
  else if String.eqb form "inlineStr" then
    match ET.find_below c (main "t") with
    | Some run => Some (Py.or_empty (text run))
    | None => Some ""
    end
  else
    match ET.find c (main "v") with
    | Some v => Some (Py.or_empty (text v))
    | None => Some ""
    end.

Definition has_display_text (shared_strings : list string) (c : Element) : bool :=
  match display_text shared_strings c with
  | Some _ => true
  | None => false
  end.

(** The element [<dimension ref=.../>]. *)
Definition dimension_elem (ref : string) : Element :=
  Elem (main "dimension") {["ref" := ref]} None [].

(** A data row without a number. *)
Definition unnumbered_row : Element :=
  Elem (main "row") ∅ None [inline_cell "A2" "Week Ending 01-05-25"].

(** ** Vocabulary of the statements about escaping *)

(** What [escape] makes of one character. *)
Definition escape_char (c : ascii) : string :=
  if Ascii.eqb c "&" then "&amp;"
  else if Ascii.eqb c "<" then "&lt;"
  else if Ascii.eqb c ">" then "&gt;"
  else String c "".

Fixpoint escape_chars (s : string) : string :=
  match s with
  | String c s' => escape_char c +:+ escape_chars s'
  | EmptyString => EmptyString
  end.

(** The five predefined entity references put back as their characters:
    a left inverse of [escape], by which [escape] loses nothing.  (How a
    text is read back from a sheet is [read_char_data], below.) *)
Fixpoint unescape (s : string) : string :=
  match s with
  | String "&" (String "a" (String "m" (String "p" (String ";" r)))) =>
      String "&" (unescape r)
  | String "&" (String "l" (String "t" (String ";" r))) => String "<" (unescape r)
  | String "&" (String "g" (String "t" (String ";" r))) => String ">" (unescape r)
  | String "&" (String "q" (String "u" (String "o" (String "t" (String ";" r))))) =>
      String (Py.chr 34) (unescape r)
  | String "&" (String "a" (String "p" (String "o" (String "s" (String ";" r))))) =>
      String "'" (unescape r)
  | String c r => String c (unescape r)
  | EmptyString => EmptyString
  end.

(** *** Reading character data back

    What an XML 1.0 processor makes of the content of an element that
    holds character data only, which is how a text written by the row
    encoder is read again.  The text comes back as the list of its code
    points, [None] when the content is not well-formed. *)

Definition CR : ascii := "013"%char.
Definition LF : ascii := "010"%char.

(** The characters a document may hold (XML 1.0, section 2.2), among the
    code points 0..255: TAB, LF, CR and everything from SPACE on. *)
Definition xml_char (c : ascii) : bool :=
  let n := Py.ord c in
  (n =? 9) || (n =? 10) || (n =? 13) || (32 <=? n).

(** The character numbers a character reference may give. *)
Definition xml_code (z : Z) : bool :=
  (z =? 9) || (z =? 10) || (z =? 13) || ((32 <=? z) && (z <=? 55295))
  || ((57344 <=? z) && (z <=? 65533)) || ((65536 <=? z) && (z <=? 1114111)).

(** Line ends are normalised before anything else (section 2.11): CR LF
    and a CR that no LF follows become one LF.  [after_cr] tells that the
    character just read was a CR. *)
Fixpoint newlines_from (after_cr : bool) (s : string) : string :=
  match s with
  | String c s' =>
      if Ascii.eqb c CR then String LF (newlines_from true s')
      else if Ascii.eqb c LF && after_cr then newlines_from false s'
      else String c (newlines_from false s')
  | EmptyString => EmptyString
  end.

Definition newlines (s : string) : string := newlines_from false s.

(** The sequence []]>], which character data may not hold (section 2.4). *)
Fixpoint has_cdata_end (s : string) : bool :=
  match s with
  | String _ s' => String.prefix "]]>" s || has_cdata_end s'
  | EmptyString => false
  end.

Definition hex_value (c : ascii) : option Z :=
  let n := Py.ord c in
  if (48 <=? n) && (n <=? 57) then Some (n - 48)
  else if (65 <=? n) && (n <=? 70) then Some (n - 55)
  else if (97 <=? n) && (n <=? 102) then Some (n - 87)
  else None.

(** The number that a non-empty string of digits writes in [base]. *)
Fixpoint number_from (base : Z) (digit_of : ascii -> option Z) (acc : Z) (s : string)
    : option Z :=
  match s with
  | String c s' =>
      match digit_of c with
      | Some d => number_from base digit_of (acc * base + d) s'
      | None => None
      end
  | EmptyString => Some acc
  end.

Definition char_number (base : Z) (digit_of : ascii -> option Z) (s : string)
    : option Z :=
  match s with
  | EmptyString => None
  | _ =>
      match number_from base digit_of 0 s with
      | Some z => if xml_code z then Some z else None
      | None => None
      end
  end.

(** What stands between [&] and [;] (sections 4.1 and 4.6): the name of
    one of the five predefined entities, or [#] and a decimal number, or
    [#x] and a hexadecimal number, of a character a document may hold. *)
Definition reference_value (name : string) : option Z :=
  if String.eqb name "amp" then Some 38
  else if String.eqb name "lt" then Some 60
  else if String.eqb name "gt" then Some 62
  else if String.eqb name "quot" then Some 34
  else if String.eqb name "apos" then Some 39
  else
    match name with
    | String "#" (String "x" h) => char_number 16 hex_value h
    | String "#" d => char_number 10 Py.digit_value d
    | _ => None
    end.

(** The characters and the references in turn.  [ref] is the part of a
    reference read so far, [None] outside references. *)
Fixpoint decode_references (ref : option string) (s : string) : option (list Z) :=
  match s with
  | String c s' =>
      match ref with
      | None =>
          if Ascii.eqb c "&" then decode_references (Some "") s'
          else
            match decode_references None s' with
            | Some r => Some (Py.ord c :: r)
            | None => None
            end
      | Some name =>
          if Ascii.eqb c ";" then
            match reference_value name, decode_references None s' with
            | Some z, Some r => Some (z :: r)
            | _, _ => None
            end
          else decode_references (Some (name +:+ String c "")) s'
      end
  | EmptyString =>
      match ref with
      | None => Some []
      | Some _ => None
      end
  end.

(** What is read from [content] as the character data of an element:
    [None] when [content] is not character data, because [<] occurs in
    it, and when it is not well-formed, because it holds a character that
    a document may not hold, the end of a CDATA section, or a reference
    that stands for nothing. *)
Definition read_char_data (content : string) : option (list Z) :=
  if all_chars xml_char content
     && negb (Py.contains "<" content)
     && negb (has_cdata_end content)
  then decode_references None (newlines content)
  else None.

(** The code points of a string. *)
Definition codes (s : string) : list Z := map Py.ord (list_ascii_of_string s).

(** The string of [n] times the character [c]. *)
Definition run_of (c : ascii) (n : nat) : string := string_of_list_ascii (repeat c n).

(** ** Vocabulary of the statements about the copy pass *)

(** What the copy pass makes of one member: the member itself, or the
    member's name with the bytes of its replacement file. *)
Definition patched (fs : gmap string bytes) (replacements : gmap string string)
    (m : ZipMember) : ZipMember :=
  match replacements !! filename m with
  | Some path => {| filename := filename m; data := default [] (fs !! path) |}
  | None => m
  end.

(** A replacement is ready when its file exists and the name of the member
    it replaces is one the archive writer stores unchanged. *)
Definition replacement_ready (arcname_of : string -> string)
    (fs : gmap string bytes) (replacements : gmap string string)
    (m : ZipMember) : Prop :=
  forall path, replacements !! filename m = Some path ->
               is_Some (fs !! path) /\ arcname_of (filename m) = filename m.

(** A workbook of four sheets, a replacement for the first of them, and
    the temporary file that holds it. *)
Definition four_sheets : Zip.t :=
  [ {| filename := "xl/workbook.xml"; data := utf8 "<workbook/>" |};
    {| filename := "xl/worksheets/sheet1.xml"; data := utf8 "<worksheet>weeks</worksheet>" |};
    {| filename := "xl/worksheets/sheet2.xml"; data := utf8 "<worksheet>brands</worksheet>" |};
    {| filename := "xl/worksheets/sheet3.xml"; data := utf8 "<worksheet>categories</worksheet>" |};
    {| filename := "xl/worksheets/sheet4.xml"; data := utf8 "<worksheet>source</worksheet>" |} ].

Definition week_replacement : gmap string string :=
  {[ "xl/worksheets/sheet1.xml" := "Salida/_tmp_fake_excel/week.xml" ]}.

Definition week_file : gmap string bytes :=
  {[ "Salida/_tmp_fake_excel/week.xml" := utf8 "<worksheet>fake</worksheet>" ]}.

(** ** Vocabulary of the statement about the year *)

Definition not_space (c : ascii) : bool := negb (Py.isspace c).

(** The value of a decimal digit. *)
Definition digit (c : ascii) : Z := Py.ord c - 48.

(** ** Vocabulary of the further statements about the scanner *)

(** The events that the scan loop passes over. *)
Definition plain (ev : event_kind * Element) : bool :=
  negb (is_row_end ev) && negb (is_dimension_start ev).

(** The number a string of decimal digits writes. *)
Definition decimal (digits : string) : Z :=
  fold_left (fun a c => a * 10 + (Py.ord c - 48)) (list_ascii_of_string digits) 0.

(** The literal cell [<c r=ref><v>value</v></c>]. *)
Definition literal_cell (ref value_ : string) : Element :=
  Elem (main "c") {["r" := ref]} None [Elem (main "v") ∅ (Some value_) []].

(** The dimension reference the scan holds after passing over [evs],
    having held [d] before: the [ref] of the last dimension declaration
    opened. *)
Fixpoint last_dimension (evs : list (event_kind * Element)) (d : option string)
    : option string :=
  match evs with
  | [] => d
  | ev :: evs' =>
      last_dimension evs' (if is_dimension_start ev then attrib (snd ev) !! "ref" else d)
  end.

(** A data row numbered 5. *)
Definition fifth_row : Element :=
  Elem (main "row") {["r" := "5"]} None [literal_cell "A5" "17"].

(** ** Vocabulary of the further statements about the copy pass *)

(** A member named in the replacement map whose replacement file is not
    on disk. *)
Definition replacement_missing (fs : gmap string bytes)
    (replacements : gmap string string) (m : ZipMember) : Prop :=
  exists path, replacements !! filename m = Some path /\ fs !! path = None.

(** [m] is the last member of [zf] that is named [name]. *)
Definition last_named (zf : Zip.t) (name : string) (m : ZipMember) : Prop :=
  exists before after,
    zf = before ++ m :: after
    /\ filename m = name
    /\ ~ In name (Zip.namelist after).

(** ** Sheet resolution in [main] ([fake_excel_generator.py], lines 363-370) *)

(** [s.lstrip(c)] for a one-character [c]. *)
Fixpoint lstrip_char (c : ascii) (s : string) : string :=
  match s with
  | String x s' => if Ascii.eqb x c then lstrip_char c s' else s
  | EmptyString => EmptyString
  end.

(** The member path of a sheet, from the target of its relationship:
    [target = rel_map[rId].lstrip("/")], then [xl/] put in front unless
    the target starts with it. *)
Definition sheet_path_of_target (rel_target : string) : string :=
  let target := lstrip_char "/" rel_target in
  if negb (String.prefix "xl/" target) then "xl/" +:+ target else target.

(** [rel_map[rId]] and the resolution of what it holds. *)
Definition sheet_path (rel_map : gmap string string) (rId : string) : result string :=
  match rel_map !! rId with
  | Some rel_target => Ok (sheet_path_of_target rel_target)
  | None => Raise KeyError
  end.

(** ** Dates as the standard library computes them ([datetime.date]) *)

Module Datetime.

Record date : Type := { year : Z; month : Z; day : Z }.

Definition is_leap (y : Z) : bool :=
  (y mod 4 =? 0) && (negb (y mod 100 =? 0) || (y mod 400 =? 0)).

Definition DAYS_IN_MONTH : list Z :=
  [-1; 31; 28; 31; 30; 31; 30; 31; 31; 30; 31; 30; 31].
Definition DAYS_BEFORE_MONTH : list Z :=
  [-1; 0; 31; 59; 90; 120; 151; 181; 212; 243; 273; 304; 334].

(** The number of days before January 1st of year [y]. *)
Definition days_before_year (y : Z) : Z :=
  let y := y - 1 in
  y * 365 + y / 4 - y / 100 + y / 400.

Definition days_in_month (y m : Z) : Z :=
  if (m =? 2) && is_leap y then 29 else nth (Z.to_nat m) DAYS_IN_MONTH (-1).

Definition days_before_month (y m : Z) : Z :=
  nth (Z.to_nat m) DAYS_BEFORE_MONTH (-1) + (if (2 <? m) && is_leap y then 1 else 0).

(** The ordinal of [date.max], 9999-12-31. *)
Definition MAXORDINAL : Z := 3652059.

(** [date(y, m, d)]: [None] for the [ValueError] of a date that does not
    exist. *)
Definition make (y m d : Z) : option date :=
  if (1 <=? y) && (y <=? 9999) && (1 <=? m) && (m <=? 12)
     && (1 <=? d) && (d <=? days_in_month y m)
  then Some {| year := y; month := m; day := d |}
  else None.

(** [d.toordinal()]: January 1st of year 1 is day 1. *)
Definition toordinal (d : date) : Z :=
  days_before_year (year d) + days_before_month (year d) (month d) + day d.

(** [date.fromordinal(n)], for [1 <= n <= MAXORDINAL]: the cycles of 400,
    100, 4 and 1 years are taken off in turn, then the month is estimated
    and corrected. *)
Definition fromordinal (n : Z) : date :=
  let n := n - 1 in
  let n400 := n / 146097 in
  let n := n mod 146097 in
  let y := n400 * 400 + 1 in
  let n100 := n / 36524 in
  let n := n mod 36524 in
  let n4 := n / 1461 in
  let n := n mod 1461 in
  let n1 := n / 365 in
  let n := n mod 365 in
  let y := y + n100 * 100 + n4 * 4 + n1 in
  if (n1 =? 4) || (n100 =? 4) then {| year := y - 1; month := 12; day := 31 |}
  else
    let leapyear := (n1 =? 3) && (negb (n4 =? 24) || (n100 =? 3)) in
    let m := Z.shiftr (n + 50) 5 in
    let preceding :=
      nth (Z.to_nat m) DAYS_BEFORE_MONTH (-1)
      + (if (2 <? m) && leapyear then 1 else 0) in
    if n <? preceding then
      let m := m - 1 in
      let preceding :=
        preceding - (nth (Z.to_nat m) DAYS_IN_MONTH (-1)
                     + (if (m =? 2) && leapyear then 1 else 0)) in
      {| year := y; month := m; day := n - preceding + 1 |}
    else {| year := y; month := m; day := n - preceding + 1 |}.

(** [d + timedelta(days=days)]: [None] for the [OverflowError] that the
    [timedelta] raises past 999999999 days and that the sum raises outside
    the years 1 to 9999. *)
Definition add_days (d : date) (days : Z) : option date :=
  if 999999999 <? Z.abs days then None
  else
    let o := toordinal d + days in
    if (0 <? o) && (o <=? MAXORDINAL) then Some (fromordinal o) else None.

(** A number below 100 on two digits, as [%m], [%d] and [%y] print it. *)
Definition two_digits (n : Z) : string :=
  if n <? 10 then "0" +:+ Py.str_of_int n else Py.str_of_int n.

(** [d.strftime("%m-%d-%y")]. *)
Definition strftime_mdy (d : date) : string :=
  two_digits (month d) +:+ "-" +:+ two_digits (day d) +:+ "-"
    +:+ two_digits (year d mod 100).

End Datetime.

(** ** Column order of [add_calendar_columns] ([transformar_weeks.py], lines 127-155) *)

Module TransformarWeeks.

(** The calendar columns, in the order the script lists them. *)
Definition NEW_COLS : list string := ["Week"; "Mes#"; "Mes name"; "Mes code"; "Year"].

(** The body of the first loop: [ordered_cols.append(col)], then
    [ordered_cols.extend(new_cols)] when [col] is the time column. *)
Definition place (time_col : string) (new_cols : list string)
    (ordered : list string) (col : string) : list string :=
  let ordered := ordered ++ [col] in
  if String.eqb col time_col then ordered ++ new_cols else ordered.

(** The body of the second loop: [col] is appended unless it is listed. *)
Definition keep (ordered : list string) (col : string) : list string :=
  if negb (name_in col ordered) then ordered ++ [col] else ordered.

(** The list [ordered_cols] that [add_calendar_columns] selects by, from
    the columns of the input frame and the columns of the frame with the
    calendar columns attached: every original column in turn, the calendar
    columns that exist right after each [time_col], then whatever column of
    the attached frame is not yet listed.  [KeyError] when the input frame
    has no [time_col]. *)
Definition ordered_cols (original_cols df_out_columns : list string)
    (time_col : string) : result (list string) :=
  if negb (name_in time_col original_cols) then Raise KeyError
  else
    let new_cols := List.filter (fun c => name_in c df_out_columns) NEW_COLS in
    let ordered := fold_left (place time_col new_cols) original_cols [] in
    Ok (fold_left keep df_out_columns ordered).

(** *** [parse_time_to_datetime] ([transformar_weeks.py], lines 60-65) *)

(** The number a string of decimal digits writes. *)
Definition number (digits : string) : Z :=
  fold_left (fun a c => a * 10 + (Py.ord c - 48)) (list_ascii_of_string digits) 0.

(** The fields of the format [%m-%d-%y] as [pandas.to_datetime] reads
    them, each with the regular expression of its directive:
    [1[0-2]|0[1-9]|[1-9]] for the month, which are the one or two digits
    that write 1 to 12; [3[0-1]|[1-2]\d|0[1-9]|[1-9]| [1-9]] for the day,
    which are the one or two digits that write 1 to 31 and a blank
    followed by one of 1 to 9; [\d\d] for the year.  The year of the
    century is resolved as the Open Group specifies for [%y]: 0 to 68 in
    the 2000s, 69 to 99 in the 1900s. *)
Definition field_number (lo hi : Z) (s : string) : option Z :=
  if all_chars Py.is_digit s
     && ((String.length s =? 1)%nat || (String.length s =? 2)%nat)
     && (lo <=? number s) && (number s <=? hi)
  then Some (number s)
  else None.

Definition field_m (s : string) : option Z := field_number 1 12 s.

Definition field_d (s : string) : option Z :=
  match s with
  | String " " (String c EmptyString) => field_number 1 9 (String c EmptyString)
  | _ => field_number 1 31 s
  end.

Definition field_y (s : string) : option Z :=
  if all_chars Py.is_digit s && (String.length s =? 2)%nat
  then Some (if number s <=? 68 then 2000 + number s else 1900 + number s)
  else None.

(** [pd.to_datetime(s, format="%m-%d-%y", errors="coerce")]: the date
    when the whole of [s] is a month, a hyphen, a day, a hyphen and a year
    that make a date, [None] (for [NaT]) otherwise.  No field holds a
    hyphen, so the text matches as a whole when its three pieces between
    the hyphens match. *)
Definition to_datetime_mdy (s : string) : option Datetime.date :=
  match Py.split "-" s with
  | [m; d; y] =>
      match field_m m, field_d d, field_y y with
      | Some month_, Some day_, Some year_ => Datetime.make year_ month_ day_
      | _, _, _ => None
      end
  | _ => None
  end.

(** [parse_time_to_datetime(time_str)], for a text or a missing value
    ([None], for which [pd.isna] holds). *)
Definition parse_time_to_datetime (time_str : option string) : option Datetime.date :=
  match time_str with
  | None => None
  | Some s => to_datetime_mdy (Py.strip (Py.replace_str "Week Ending" "" s))
  end.

End TransformarWeeks.

(** ** The week dictionary ([fake_excel_generator.py], lines 183-192, 380, 430-434) *)

(** A row of the week dictionary, [{"Time": ..., "Week": ...}]. *)
Record week_row : Type := { w_time : string; w_week : Z }.

(** [range(count)]. *)
Definition range (count : Z) : list Z := map Z.of_nat (seq 0 (Z.to_nat count)).

(** [base_date], and
    [(base_date + dt.timedelta(days=days)).strftime("%m-%d-%y")]: [None]
    when the sum raises [OverflowError]. *)
Definition base_date : Datetime.date :=
  {| Datetime.year := 2025; Datetime.month := 1; Datetime.day := 5 |}.

Definition week_ending (days : Z) : option string :=
  match Datetime.add_days base_date days with
  | Some d => Some (Datetime.strftime_mdy d)
  | None => None
  end.

(** [make_week_rows(count)]: [None] when a date overflows. *)
Definition make_week_rows (count : Z) : option (list week_row) :=
  mapM (fun i => d ← week_ending (7 * i);
                 Some {| w_time := "Week Ending " +:+ d; w_week := i + 1 |})
       (range count).

(** [week_rows] in [main]: the rows of the synthetic dictionary, sized by
    the [max_row] of the original sheet. *)
Definition week_rows (max_row_ : Z) : option (list (list value)) :=
  week_data ← make_week_rows (Z.max (max_row_ - 1) 0);
  Some (map (fun row => [VStr (w_time row); VInt (w_week row)]) week_data).

(** The call that writes the week sheet. *)
Definition write_week_sheet (fs : gmap string bytes) (week_sheet_path : string)
    (week_headers : list string) (max_row_ : Z)
    : option (gmap string bytes * result unit) :=
  rows ← week_rows max_row_;
  Some (write_table_sheet fs week_sheet_path week_headers rows [false; true]).

(** ** Brand and category dictionaries ([fake_excel_generator.py], lines 155-166, 195-227) *)

Definition CATEGORIES : list (string * list string) :=
  [ ("Snacks", ["Chips"; "Crackers"; "Nuts"]);
    ("Beverages", ["Sparkling Water"; "Juice"; "Energy Drinks"]);
    ("Dairy", ["Yogurt"; "Cheese"; "Butter"]);
    ("Bakery", ["Bread"; "Cookies"; "Cakes"]);
    ("Frozen", ["Frozen Meals"; "Ice Cream"; "Frozen Vegetables"]);
    ("Pantry", ["Pasta"; "Sauces"; "Rice"]);
    ("Breakfast", ["Cereal"; "Oatmeal"; "Granola"]);
    ("Protein", ["Chicken"; "Beef"; "Plant-Based"]);
    ("Produce", ["Salad Kits"; "Fresh Berries"; "Cut Fruit"]) ].

Definition SIZES : list string :=
  ["8 oz"; "12 oz"; "16 oz"; "24 oz"; "32 oz"; "48 oz"; "64 oz"].

(** The lists [names] and [suffixes] of [make_brand_rows]. *)
Definition brand_names : list string :=
  ["Evergreen"; "Solstice"; "Cascade"; "Lumen"; "Harbor"; "Mesa"; "Redwood";
   "Juniper"; "Arroyo"; "Summit"].
Definition brand_suffixes : list string := ["Foods"; "Kitchen"; "Harvest"; "Market"].

(** [{"Brand": ..., "Name": ...}] and
    [{"Product": ..., "Category": ..., "Subcategory": ...}]. *)
Record brand_row : Type := { b_brand : string; b_name : string }.
Record category_row : Type :=
  { c_product : string; c_category : string; c_subcategory : string }.

(** [CATEGORIES[category]]. *)
Fixpoint categories_get (table : list (string * list string)) (category : string)
    : result (list string) :=
  match table with
  | [] => Raise KeyError
  | (k, v) :: table' =>
      if String.eqb k category then Ok v else categories_get table' category
  end.

Section Random.

(** The state of the module-level generator of [random], and the draw
    [_randbelow(n)] that [random.choice] makes from it: the number drawn
    and the state after the draw. *)
Variable rng : Type.
Variable randbelow : rng -> Z -> Z * rng.

(** [random.choice(seq)]: [IndexError] on an empty sequence. *)
Definition choice {A} (seq : list A) (g : rng) : result (A * rng) :=
  match seq with
  | [] => Raise IndexError
  | _ =>
      let '(k, g') := randbelow g (Py.len seq) in
      a ← Py.index seq k;
      Ok (a, g')
  end.

(** The [for _ in range(count)] loop of [make_brand_rows], for the [n]
    iterations that are left.  The pools hold ASCII letters only, on
    which [str.upper] is [to_upper] letter by letter. *)
Fixpoint make_brand_rows_loop (n : nat) (g : rng) : result (list brand_row * rng) :=
  match n with
  | O => Ok ([], g)
  | S n' =>
      '(name, g1) ← choice brand_names g;
      '(suffix, g2) ← choice brand_suffixes g1;
      let brand_name := name +:+ " " +:+ suffix in
      '(rows, g3) ← make_brand_rows_loop n' g2;
      Ok ({| b_brand := map_string to_upper brand_name; b_name := brand_name |} :: rows, g3)
  end.

Definition make_brand_rows (count : Z) (g : rng) : result (list brand_row * rng) :=
  make_brand_rows_loop (Z.to_nat count) g.

(** The [for i in range(count)] loop of [make_category_rows], from
    iteration [i], for the [n] iterations that are left. *)
Fixpoint make_category_rows_loop (n : nat) (i : Z) (brands : list brand_row) (g : rng)
    : result (list category_row * rng) :=
  match n with
  | O => Ok ([], g)
  | S n' =>
      '(category, g1) ← choice (map fst CATEGORIES) g;
      subcats ← categories_get CATEGORIES category;
      '(subcat, g2) ← choice subcats g1;
      '(brand, g3) ← choice brands g2;
      '(size, g4) ← choice SIZES g3;
      let barcode := Py.str_of_int (7600000000000 + i) in
      let product :=
        b_brand brand +:+ " " +:+ subcat +:+ " " +:+ size +:+ " - " +:+ barcode in
      '(rows, g5) ← make_category_rows_loop n' (i + 1) brands g4;
      Ok ({| c_product := product; c_category := category; c_subcategory := subcat |}
            :: rows, g5)
  end.

Definition make_category_rows (count : Z) (brands : list brand_row) (g : rng)
    : result (list category_row * rng) :=
  make_category_rows_loop (Z.to_nat count) 0 brands g.

(** [brand_data] and [category_data] as [main] makes them, from the
    row counts of the two original sheets. *)
Definition make_dictionaries (brand_max_row category_max_row : Z) (g : rng)
    : result (list brand_row * list category_row * rng) :=
  '(brand_data, g1) ← make_brand_rows (Z.max (brand_max_row - 1) 0) g;
  '(category_data, g2) ← make_category_rows (Z.max (category_max_row - 1) 0) brand_data g1;
  Ok (brand_data, category_data, g2).

End Random.

Arguments choice {rng} randbelow {A} seq g.
Arguments make_brand_rows_loop {rng} randbelow n g.
Arguments make_brand_rows {rng} randbelow count g.
Arguments make_category_rows_loop {rng} randbelow n i brands g.
Arguments make_category_rows {rng} randbelow count brands g.
Arguments make_dictionaries {rng} randbelow brand_max_row category_max_row g.

(** The barcode at the end of a product name: what follows its last
    blank. *)
Definition barcode_of (product : string) : string :=
  List.last (Py.split " " product) "".

(** Every brand name that [make_brand_rows] can make: a name of
    [names], a blank, a suffix of [suffixes]. *)
Definition brand_pool : list string :=
  flat_map (fun name => map (fun suffix => name +:+ " " +:+ suffix) brand_suffixes)
           brand_names.

(** A sample generator state and draw for the examples: the state is a
    counter, the draw its remainder. *)
Definition counter_randbelow (g n : Z) : Z * Z := (g mod n, g + 1).

(** * Properties *)

(** ** The built-ins and the scripts on sample inputs *)

Example str_of_int_ex : Py.str_of_int 0 = "0" /\ Py.str_of_int 42 = "42" /\ Py.str_of_int (-7) = "-7".
Proof. repeat split; reflexivity. Qed.

Example int_of_str_ex :
  Py.int_of_str " 1_000 " = Ok 1000 /\ Py.int_of_str "-12" = Ok (-12)
  /\ Py.int_of_str "1__0" = Raise ValueError /\ Py.int_of_str "" = Raise ValueError
  /\ Py.int_of_str "+ 1" = Raise ValueError.
Proof. repeat split; reflexivity. Qed.

(** The limit on the digits of [int]: 4300 are read, 4301 are not,
    leading zeros counted and underscores not. *)
Example int_of_str_limit :
  Py.int_of_str (run_of "0" 4299 +:+ "7") = Ok 7
  /\ Py.int_of_str (run_of "0" 4300 +:+ "7") = Raise ValueError
  /\ Py.int_of_str (run_of "9" 4301) = Raise ValueError
  /\ Py.int_of_str ("0_" +:+ run_of "0" 4298 +:+ "7") = Ok 7.
Proof. repeat split; vm_compute; reflexivity. Qed.

Example split_ex :
  Py.split_ws "  Week  Ending 01-05-25 " = ["Week"; "Ending"; "01-05-25"]
  /\ Py.split "-" "01-05-25" = ["01"; "05"; "25"]
  /\ Py.split ":" "" = [""]
  /\ Py.strip "  a b  " = "a b".
Proof. repeat split; reflexivity. Qed.

Example sorted_ex :
  Py.sorted (fun x => Ok (x mod 10)) [21; 13; 11; 2] = Ok [21; 11; 2; 13].
Proof. reflexivity. Qed.

Example col_index_to_letter_ex :
  col_index_to_letter 1 = Some "A" /\ col_index_to_letter 26 = Some "Z"
  /\ col_index_to_letter 27 = Some "AA" /\ col_index_to_letter 18278 = Some "ZZZ"
  /\ col_index_to_letter 0 = Some "".
Proof. repeat split; reflexivity. Qed.

Example col_letter_to_index_ex :
  col_letter_to_index "A" = Ok 1 /\ col_letter_to_index "aa" = Ok 27
  /\ col_letter_to_index "ZZZ" = Ok 18278 /\ col_letter_to_index "" = Ok 0.
Proof. repeat split; reflexivity. Qed.

Example year_from_time_ex :
  DataQuality.year_from_time "Week Ending 01-05-25" = Some 2025
  /\ DataQuality.year_from_time "Week Ending 01-05-55" = Some 1955
  /\ DataQuality.year_from_time "Week Ending" = None.
Proof. repeat split; reflexivity. Qed.

(** ** Strings *)

Lemma append_assoc (a b c : string) : (a +:+ b) +:+ c = a +:+ (b +:+ c).
Proof. induction a as [|x a IH]; simpl; [reflexivity | now rewrite IH]. Qed.

Lemma append_nil_r (a : string) : a +:+ "" = a.
Proof. induction a as [|x a IH]; simpl; [reflexivity | now rewrite IH]. Qed.

Lemma contains_app (sep : ascii) (a b : string) :
  Py.contains sep (a +:+ b) = Py.contains sep a || Py.contains sep b.
Proof.
  induction a as [|x a IH]; cbn; [reflexivity|]. rewrite IH. apply orb_assoc.
Qed.

(** ** Address arithmetic *)

Lemma ord_bounds (c : ascii) : 0 <= Py.ord c < 256.
Proof. unfold Py.ord. pose proof (N_ascii_bounded c). lia. Qed.

Lemma ord_chr (z : Z) : 0 <= z < 256 -> Py.ord (Py.chr z) = z.
Proof.
  intros Hz. unfold Py.ord, Py.chr.
  rewrite N_ascii_embedding by lia. lia.
Qed.

Lemma chr_ord (c : ascii) : Py.chr (Py.ord c) = c.
Proof. unfold Py.ord, Py.chr. rewrite N2Z.id. apply ascii_N_embedding. Qed.

(** The letter the encoder emits for remainder [r] decodes to [r + 1]. *)
Lemma ord_upper_letter (r : Z) :
  0 <= r < 26 -> Py.ord_str (Py.upper (Py.chr (65 + r))) = Ok (65 + r).
Proof.
  intros Hr. unfold Py.upper, Py.is_lower_az.
  rewrite ord_chr by lia.
  repeat match goal with
         | |- context [?a <=? ?b] => destruct (Z.leb_spec a b); try lia
         | |- context [?a =? ?b] => destruct (Z.eqb_spec a b); try lia
         end; reflexivity.
Qed.

(** One iteration from a positive index: the index strictly decreases and
    stays non-negative, and one letter is put in front. *)
Lemma col_index_to_letter_step_pos (n : Z) (acc : string) :
  0 < n ->
  exists q r, col_index_to_letter_step (n, acc) = Some (q, String (Py.chr (65 + r)) acc)
              /\ 0 <= q < n /\ 0 <= r < 26 /\ n = 26 * q + r + 1.
Proof.
  intros Hn. unfold col_index_to_letter_step.
  destruct (Z.eqb_spec n 0) as [->|_]; [lia|].
  pose proof (Z_div_mod (n - 1) 26 eq_refl) as H.
  destruct (Z.div_eucl (n - 1) 26) as [q r]. destruct H as [Heq Hr].
  exists q, r. repeat split; try lia.
Qed.

Lemma col_index_to_letter_step_neg (n : Z) (acc : string) :
  n < 0 ->
  exists q c, col_index_to_letter_step (n, acc) = Some (q, String c acc) /\ q < 0.
Proof.
  intros Hn. unfold col_index_to_letter_step.
  destruct (Z.eqb_spec n 0) as [->|_]; [lia|].
  pose proof (Z_div_mod (n - 1) 26 eq_refl) as H.
  destruct (Z.div_eucl (n - 1) 26) as [q r]. destruct H as [Heq Hr].
  exists q, (Py.chr (65 + r)). split; [reflexivity | lia].
Qed.

(** With fuel for [n] iterations the loop exits, and what it put in front
    of the accumulator decodes, digit by digit, to [n]. *)
Lemma col_index_to_letter_loop_spec (fuel : nat) :
  forall (n : Z) (acc : string),
    0 <= n -> (Z.to_nat n <= fuel)%nat ->
    exists s w,
      col_index_to_letter_loop fuel (n, acc) = Some (s +:+ acc)
      /\ forall i k, col_letter_to_index_loop i (s +:+ k)
                     = col_letter_to_index_loop (i * w + n) k.
Proof.
  induction fuel as [|fuel IH]; intros n acc Hn Hfuel.
  - assert (n = 0) as -> by lia. exists "", 1. split; [reflexivity|].
    intros i k. simpl. f_equal. lia.
  - destruct (Z.eq_dec n 0) as [->|Hne].
    + exists "", 1. split; [reflexivity|]. intros i k. simpl. f_equal. lia.
    + destruct (col_index_to_letter_step_pos n acc) as (q & r & Hstep & Hq & Hr & Hdec);
        [lia|].
      destruct (IH q (String (Py.chr (65 + r)) acc)) as (s & w & Hloop & Hs); [lia|lia|].
      exists (s +:+ String (Py.chr (65 + r)) ""), (w * 26). split.
      * cbn [col_index_to_letter_loop]. rewrite Hstep, Hloop.
        now rewrite append_assoc.
      * intros i k. rewrite append_assoc. simpl. rewrite Hs.
        cbn [col_letter_to_index_loop]. rewrite ord_upper_letter by lia.
        simpl. f_equal. lia.
Qed.

Lemma col_index_to_letter_loop_neg (fuel : nat) :
  forall (n : Z) (acc : string),
    n < 0 -> col_index_to_letter_loop fuel (n, acc) = None.
Proof.
  induction fuel as [|fuel IH]; intros n acc Hn;
    destruct (col_index_to_letter_step_neg n acc Hn) as (q & c & Hstep & Hq);
    cbn [col_index_to_letter_loop]; rewrite Hstep; [reflexivity | now apply IH].
Qed.

(** More fuel does not change the result of a run that has exited. *)
Lemma col_index_to_letter_loop_mono (fuel : nat) :
  forall (fuel' : nat) (st : Z * string) (s : string),
    col_index_to_letter_loop fuel st = Some s -> (fuel <= fuel')%nat ->
    col_index_to_letter_loop fuel' st = Some s.
Proof.
  induction fuel as [|fuel IH]; intros fuel' st s Hrun Hle.
  - destruct fuel'; cbn [col_index_to_letter_loop] in *;
      destruct (col_index_to_letter_step st); congruence.
  - destruct fuel' as [|fuel']; [lia|].
    cbn [col_index_to_letter_loop] in *.
    destruct (col_index_to_letter_step st); [|exact Hrun].
    apply IH; [exact Hrun | lia].
Qed.

(** The round trip holds for every index from 1 on. *)
Lemma col_round_trip_all (n : Z) :
  1 <= n ->
  exists s, col_index_to_letter n = Some s /\ col_letter_to_index s = Ok n.
Proof.
  intros Hn. unfold col_index_to_letter.
  destruct (col_index_to_letter_loop_spec (Z.to_nat n) n "") as (s & w & Hloop & Hs);
    [lia|lia|].
  exists s. rewrite append_nil_r in Hloop. split; [exact Hloop|].
  unfold col_letter_to_index. specialize (Hs 0 ""). rewrite append_nil_r in Hs.
  rewrite Hs. reflexivity.
Qed.

(** C2. For every index [n] with [1 <= n <= 18278] the encoder returns a
    letter string and the decoder maps that string back to [n]:
    [col_letter_to_index(col_index_to_letter(n)) = n]. *)
Theorem col_round_trip (n : Z) :
  1 <= n <= 18278 ->
  exists s, col_index_to_letter n = Some s /\ col_letter_to_index s = Ok n.
Proof. intros [Hn _]. now apply col_round_trip_all. Qed.

Lemma col_round_trip_witness :
  exists s, col_index_to_letter 703 = Some s /\ col_letter_to_index s = Ok 703.
Proof. apply (col_round_trip 703). lia. Defined.

(** C10. [col_index_to_letter] returns for every [n >= 0]: each iteration
    of its loop replaces a positive index by a smaller non-negative one, so
    [n] iterations are enough, and for [n = 0] the result is the empty
    string.  For every negative [n] the loop is still running after any
    number of iterations. *)
Theorem col_index_to_letter_terminates (n : Z) :
  (0 <= n ->
   exists s, forall fuel, (Z.to_nat n <= fuel)%nat ->
                          col_index_to_letter_loop fuel (n, "") = Some s)
  /\ (0 < n ->
      forall acc, exists q c,
        col_index_to_letter_step (n, acc) = Some (q, String c acc) /\ 0 <= q < n)
  /\ (n = 0 -> col_index_to_letter n = Some "")
  /\ (n < 0 ->
      forall fuel acc, col_index_to_letter_loop fuel (n, acc) = None).
Proof.
  repeat split.
  - intros Hn.
    destruct (col_index_to_letter_loop_spec (Z.to_nat n) n "") as (s & w & Hloop & _);
      [lia|lia|].
    exists (s +:+ ""). intros fuel Hfuel.
    now apply (col_index_to_letter_loop_mono (Z.to_nat n)).
  - intros Hn acc.
    destruct (col_index_to_letter_step_pos n acc Hn) as (q & r & Hstep & Hq & _).
    eauto.
  - intros ->. reflexivity.
  - intros Hn fuel acc. now apply col_index_to_letter_loop_neg.
Qed.

Lemma col_index_to_letter_terminates_witness :
  (exists s, forall fuel, (Z.to_nat 28 <= fuel)%nat ->
                          col_index_to_letter_loop fuel (28, "") = Some s)
  /\ (forall fuel acc, col_index_to_letter_loop fuel (-1, acc) = None).
Proof.
  split.
  - apply (col_index_to_letter_terminates 28). lia.
  - apply (col_index_to_letter_terminates (-1)). lia.
Defined.

Lemma upper_to_upper (c : ascii) : Py.upper (to_upper c) = Py.upper c.
Proof. destruct c as [[] [] [] [] [] [] [] []]; reflexivity. Qed.

Lemma upper_to_lower (c : ascii) : Py.upper (to_lower c) = Py.upper c.
Proof. destruct c as [[] [] [] [] [] [] [] []]; reflexivity. Qed.

Lemma ord_upper_total (c : ascii) :
  if Ascii.eqb c sharp_s then Py.ord_str (Py.upper c) = Raise TypeError
  else exists o, Py.ord_str (Py.upper c) = Ok o.
Proof. destruct c as [[] [] [] [] [] [] [] []]; cbv; eauto. Qed.

Lemma col_letter_to_index_loop_spelling (f : ascii -> ascii) :
  (forall c, Py.upper (f c) = Py.upper c) ->
  forall s i, col_letter_to_index_loop i (map_string f s) = col_letter_to_index_loop i s.
Proof.
  intros Hf s. induction s as [|c s IH]; intros i; simpl; [reflexivity|].
  rewrite Hf. destruct (Py.ord_str (Py.upper c)); simpl; [apply IH | reflexivity].
Qed.

Lemma ord_upper_code (c : ascii) :
  Py.ord_str (Py.upper c)
  = if Ascii.eqb c sharp_s then Raise TypeError else Ok (upper_code c).
Proof. destruct c as [[] [] [] [] [] [] [] []]; reflexivity. Qed.

(** The loop is Horner's rule for the positional value. *)
Lemma col_letter_to_index_loop_value (s : string) :
  forall i,
    col_letter_to_index_loop i s
    = if Py.contains sharp_s s then Raise TypeError
      else Ok (i * 26 ^ Z.of_nat (String.length s) + positional_value s).
Proof.
  induction s as [|c s IH]; intros i;
    cbn [col_letter_to_index_loop Py.contains positional_value String.length].
  - cbn. f_equal. lia.
  - rewrite ord_upper_code. destruct (Ascii.eqb c sharp_s); cbn [orb mbind result_bind];
      [reflexivity|].
    rewrite IH. destruct (Py.contains sharp_s s); [reflexivity|]. f_equal.
    rewrite Nat2Z.inj_succ, Z.pow_succ_r by lia. ring.
Qed.

(** C8, as the code has it. The decoder gives the same result for the
    upper-case and the lower-case spelling of its input. It checks nothing:
    it raises only on an input that holds a sharp s (then [TypeError], from
    [ord]), and on every other input, alphabetic or not, it returns the
    number that the input writes in base 26 with each character counting
    for the code point of its upper-case form less 64. *)
Theorem col_letter_to_index_case_and_totality (s : string) :
  col_letter_to_index (map_string to_upper s) = col_letter_to_index s
  /\ col_letter_to_index (map_string to_lower s) = col_letter_to_index s
  /\ col_letter_to_index s
     = if Py.contains sharp_s s then Raise TypeError else Ok (positional_value s).
Proof.
  unfold col_letter_to_index. repeat split.
  - apply col_letter_to_index_loop_spelling, upper_to_upper.
  - apply col_letter_to_index_loop_spelling, upper_to_lower.
  - rewrite col_letter_to_index_loop_value.
    destruct (Py.contains sharp_s s); [reflexivity|]. reflexivity.
Qed.

(** C8, as stated, fails: an input with a non-alphabetic character gets a
    number, not an error. *)
Lemma col_letter_to_index_accepts_non_letters :
  all_chars is_alpha "A1" = false /\ col_letter_to_index "A1" = Ok 11
  /\ col_letter_to_index "1" = Ok (-15)
  /\ col_letter_to_index "$A" = Ok (-727)
  /\ col_letter_to_index "a-1" = Ok 167.
Proof. repeat split; reflexivity. Qed.

Example positional_value_ex :
  positional_value "A1" = 11 /\ positional_value "$A" = -727
  /\ positional_value "zz" = 702 /\ positional_value "" = 0.
Proof. repeat split; reflexivity. Qed.

(** ** Shared-string table reader *)

Lemma Element_forall_ind (P : Element -> Prop) :
  (forall t a x cs, Forall P cs -> P (Elem t a x cs)) -> forall e, P e.
Proof.
  intros H. fix IH 1. intros [t a x cs]. apply H.
  induction cs as [|c cs IHcs]; constructor; [apply IH | exact IHcs].
Qed.

Lemma iter_unfold (e : Element) : ET.iter e = e :: flat_map ET.iter (children e).
Proof.
  destruct e as [t a x cs]. reflexivity.
Qed.

Lemma fragments_unfold (e : Element) :
  fragments e
  = flat_map (fun c => (if ET.has_tag (main "t") c then [Py.or_empty (text c)] else [])
                         ++ fragments c) (children e).
Proof.
  destruct e as [t a x cs]. cbn [fragments children].
  induction cs as [|c cs IH]; [reflexivity|]. cbn [flat_map].
  rewrite IH. now rewrite <- app_assoc.
Qed.

(** What the reader joins for an entry is the list of its fragments. *)
Lemma findall_below_fragments (e : Element) :
  map (fun t => Py.or_empty (text t)) (ET.findall_below e (main "t")) = fragments e.
Proof.
  induction e as [t a x cs IH] using Element_forall_ind.
  rewrite fragments_unfold. unfold ET.findall_below, ET.descendants.
  cbn [children]. induction IH as [|c cs Hc _ IHcs]; [reflexivity|].
  cbn [flat_map]. rewrite List.filter_app, map_app, IHcs. f_equal.
  rewrite iter_unfold. cbn [List.filter].
  unfold ET.findall_below, ET.descendants in Hc.
  destruct (ET.has_tag (main "t") c); cbn [map app]; now rewrite Hc.
Qed.

Lemma fragments_rich_entry (runs : list string) : fragments (rich_entry runs) = runs.
Proof.
  rewrite fragments_unfold. cbn [rich_entry children].
  induction runs as [|r runs IH]; [reflexivity|].
  cbn [map flat_map]. rewrite IH. reflexivity.
Qed.

Lemma name_in_read (zf : Zip.t) (name : string) (raw : bytes) :
  Zip.read zf name = Ok raw -> name_in name (Zip.namelist zf) = true.
Proof.
  unfold name_in, Zip.namelist.
  induction zf as [|m zf IH]; cbn [Zip.read map existsb]; [discriminate|].
  intros H. destruct (Zip.read zf name) as [d|e].
  - rewrite (IH H). apply orb_true_r.
  - destruct (String.eqb_spec (filename m) name) as [->|]; [|discriminate].
    now rewrite String.eqb_refl.
Qed.

(** C5. When the archive has no shared-strings part the reader returns the
    empty list. When it has one, the reader returns one string per [si]
    entry of the parsed part, in order, each the concatenation of every
    text fragment inside the entry; an entry with the runs [Foo] and [Bar]
    gives [FooBar]. *)
Theorem parse_shared_strings_flattens
    (fromstring : bytes -> result Element) (zf : Zip.t) :
  (name_in "xl/sharedStrings.xml" (Zip.namelist zf) = false ->
   parse_shared_strings fromstring zf = Ok [])
  /\ (forall raw root,
        Zip.read zf "xl/sharedStrings.xml" = Ok raw ->
        fromstring raw = Ok root ->
        parse_shared_strings fromstring zf
        = Ok (map (fun si => String.concat "" (fragments si))
                  (ET.findall root (main "si"))))
  /\ (forall runs, String.concat "" (fragments (rich_entry runs)) = String.concat "" runs)
  /\ String.concat "" (fragments (rich_entry ["Foo"; "Bar"])) = "FooBar".
Proof.
  repeat split.
  - intros Habsent. unfold parse_shared_strings. now rewrite Habsent.
  - intros raw root Hread Hparse. unfold parse_shared_strings.
    rewrite (name_in_read _ _ _ Hread). cbn [negb].
    rewrite Hread. cbn. rewrite Hparse. cbn. f_equal.
    apply map_ext. intros si. now rewrite findall_below_fragments.
  - intros runs. now rewrite fragments_rich_entry.
Qed.

Lemma parse_shared_strings_flattens_witness :
  parse_shared_strings (fun _ => Ok (Elem (main "sst") ∅ None [rich_entry ["Foo"; "Bar"]]))
    [{| filename := "xl/sharedStrings.xml"; data := [] |}]
  = Ok ["FooBar"]
  /\ parse_shared_strings (fun _ => Raise ValueError)
       [{| filename := "xl/workbook.xml"; data := [] |}] = Ok [].
Proof.
  split.
  - destruct (parse_shared_strings_flattens
                (fun _ => Ok (Elem (main "sst") ∅ None [rich_entry ["Foo"; "Bar"]]))
                [{| filename := "xl/sharedStrings.xml"; data := [] |}])
      as (_ & Hpresent & _).
    rewrite (Hpresent [] _ eq_refl eq_refl). reflexivity.
  - destruct (parse_shared_strings_flattens
                (fun _ => Raise ValueError)
                [{| filename := "xl/workbook.xml"; data := [] |}])
      as (Habsent & _).
    apply Habsent. reflexivity.
Defined.

(** ** Cell decoder *)

(** The tolerant branch: an index at or past the end of the table gives
    the empty text. *)
Lemma decode_cell_index_past_end (cell v : Element) (shared_strings : list string) (idx : Z) :
  attrib cell !! "t" = Some "s" ->
  ET.find cell (main "v") = Some v ->
  Py.int_of_text (text v) = Ok idx ->
  Py.len shared_strings <= idx ->
  decode_cell cell shared_strings = Ok "".
Proof.
  intros Ht Hv Hidx Hle. unfold decode_cell. rewrite Ht, Hv.
  rewrite bool_decide_eq_true_2 by reflexivity. rewrite Hidx. cbn.
  destruct (Z.ltb_spec idx (Py.len shared_strings)); [lia | reflexivity].
Qed.

(** A negative index is not caught by the bound test: it reaches the
    list and is resolved as Python resolves it. *)
Lemma decode_cell_index_negative (cell v : Element) (shared_strings : list string) (idx : Z) :
  attrib cell !! "t" = Some "s" ->
  ET.find cell (main "v") = Some v ->
  Py.int_of_text (text v) = Ok idx ->
  idx < 0 ->
  decode_cell cell shared_strings
  = if - Py.len shared_strings <=? idx
    then Ok (nth (Z.to_nat (idx + Py.len shared_strings)) shared_strings "")
    else Raise IndexError.
Proof.
  intros Ht Hv Hidx Hneg. unfold decode_cell. rewrite Ht, Hv.
  rewrite bool_decide_eq_true_2 by reflexivity. rewrite Hidx. cbn.
  assert (0 <= Py.len shared_strings) by (unfold Py.len; lia).
  destruct (Z.ltb_spec idx (Py.len shared_strings)); [|lia].
  unfold Py.index. destruct (Z.ltb_spec idx 0); [|lia].
  destruct (Z.leb_spec (- Py.len shared_strings) idx);
    destruct (Z.leb_spec 0 (idx + Py.len shared_strings)); try lia; cbn [andb];
    [|reflexivity].
  destruct (Z.ltb_spec (idx + Py.len shared_strings) (Py.len shared_strings)); [|lia].
  destruct (nth_error shared_strings (Z.to_nat (idx + Py.len shared_strings))) as [a|] eqn:Hnth.
  - now rewrite (nth_error_nth _ _ _ Hnth).
  - apply nth_error_None in Hnth. unfold Py.len in *. lia.
Qed.

(** C6 at its failing inputs: with the table [alpha; omega], the
    shared-string cell of index [-1] decodes to [omega], not to the empty
    text, and the cell of index [-3] raises [IndexError]; the cell of
    index [2] (the table length) decodes to the empty text. *)
Theorem decode_cell_negative_index :
  decode_cell (shared_cell "A1" "-1") ["alpha"; "omega"] = Ok "omega"
  /\ decode_cell (shared_cell "A1" "-3") ["alpha"; "omega"] = Raise IndexError
  /\ decode_cell (shared_cell "A1" "2") ["alpha"; "omega"] = Ok "".
Proof. repeat split; vm_compute; reflexivity. Qed.

(** ** The stable sort behind [sorted] *)

Section StableSort.

Context {A : Type}.
Implicit Types (l : list (Z * A)) (k : Z) (a : A).

Lemma insert_by_key_perm k a l : Permutation (Py.insert_by_key k a l) ((k, a) :: l).
Proof.
  induction l as [|[k' a'] l IH]; cbn [Py.insert_by_key]; [reflexivity|].
  destruct (k <=? k'); [reflexivity|].
  rewrite IH. apply perm_swap.
Qed.

Lemma sort_keyed_perm l : Permutation (Py.sort_keyed l) l.
Proof.
  induction l as [|[k a] l IH]; cbn [Py.sort_keyed]; [reflexivity|].
  rewrite insert_by_key_perm. now constructor.
Qed.

Lemma insert_by_key_sorted k a l :
  StronglySorted key_le l -> StronglySorted key_le (Py.insert_by_key k a l).
Proof.
  induction 1 as [|[k' a'] l Hl IH Hall]; cbn [Py.insert_by_key].
  - repeat constructor.
  - destruct (Z.leb_spec k k') as [Hle|Hgt].
    + constructor; [now constructor|].
      constructor; [exact Hle|].
      eapply Forall_impl; [exact Hall|].
      unfold key_le. cbn. intros p Hp. lia.
    + constructor; [exact IH|].
      rewrite insert_by_key_perm. constructor; [unfold key_le; cbn; lia | exact Hall].
Qed.

Lemma sort_keyed_sorted l : StronglySorted key_le (Py.sort_keyed l).
Proof.
  induction l as [|[k a] l IH]; cbn [Py.sort_keyed]; [constructor|].
  now apply insert_by_key_sorted.
Qed.

(** Stability: the elements of any one key come out in their input order. *)
Lemma insert_by_key_stable k0 k a l :
  List.filter (fun p => fst p =? k0) (Py.insert_by_key k a l)
  = List.filter (fun p => fst p =? k0) ((k, a) :: l).
Proof.
  induction l as [|[k' a'] l IH]; cbn [Py.insert_by_key]; [reflexivity|].
  destruct (Z.leb_spec k k') as [Hle|Hgt]; [reflexivity|].
  cbn [List.filter fst] in *. rewrite IH.
  destruct (Z.eqb_spec k k0), (Z.eqb_spec k' k0); try reflexivity. lia.
Qed.

Lemma sort_keyed_stable k0 l :
  List.filter (fun p => fst p =? k0) (Py.sort_keyed l)
  = List.filter (fun p => fst p =? k0) l.
Proof.
  induction l as [|[k a] l IH]; cbn [Py.sort_keyed]; [reflexivity|].
  rewrite insert_by_key_stable. cbn [List.filter]. now rewrite IH.
Qed.

Lemma mapM_ok {B} (f : A -> result B) (g : A -> B) (xs : list A) :
  Forall (fun a => f a = Ok (g a)) xs -> mapM f xs = Ok (map g xs).
Proof.
  induction 1 as [|a xs Ha _ IH]; [reflexivity|].
  cbn [mapM map]. rewrite Ha. cbn. rewrite IH. reflexivity.
Qed.

Lemma undecorate_sorted (kf : A -> Z) (s : list (Z * A)) :
  StronglySorted key_le s ->
  Forall (fun p => fst p = kf (snd p)) s ->
  StronglySorted (fun a b => kf a <= kf b) (map snd s).
Proof.
  induction 1 as [|p s Hs IH Hall]; intros Hs'; cbn [map]; constructor.
  - apply IH. now inversion Hs'.
  - inversion Hs' as [|? ? Hp Hrest]; subst.
    apply List.Forall_forall. intros b Hb.
    apply in_map_iff in Hb as (q & <- & Hq).
    rewrite List.Forall_forall in Hall, Hrest.
    specialize (Hall q Hq). specialize (Hrest q Hq).
    unfold key_le in Hall. lia.
Qed.

Lemma undecorate_filter (kf : A -> Z) (k0 : Z) (s : list (Z * A)) :
  Forall (fun p => fst p = kf (snd p)) s ->
  List.filter (fun a => kf a =? k0) (map snd s)
  = map snd (List.filter (fun p => fst p =? k0) s).
Proof.
  induction 1 as [|p s Hp _ IHs]; [reflexivity|].
  cbn [map List.filter]. rewrite <- Hp.
  destruct (fst p =? k0); cbn [map]; now rewrite IHs.
Qed.

(** [sorted] with a key that never raises: a stable rearrangement of the
    input in ascending key order. *)
Lemma sorted_spec (key : A -> result Z) (kf : A -> Z) (xs : list A) :
  (forall a, key a = Ok (kf a)) ->
  exists out : list A,
    Py.sorted key xs = Ok out
    /\ Permutation out xs
    /\ StronglySorted (fun a b => kf a <= kf b) out
    /\ forall k0, List.filter (fun a => kf a =? k0) out
                  = List.filter (fun a => kf a =? k0) xs.
Proof.
  intros Hkey.
  set (dec := map (fun a => (kf a, a)) xs).
  exists (map snd (Py.sort_keyed dec)).
  assert (Hsnd : map snd dec = xs).
  { unfold dec. rewrite map_map. cbn. apply map_id. }
  assert (Hinv : Forall (fun p => fst p = kf (snd p)) (Py.sort_keyed dec)).
  { eapply Permutation_Forall; [symmetry; apply sort_keyed_perm|].
    unfold dec. apply List.Forall_forall. intros p Hp.
    apply in_map_iff in Hp as (a & <- & _). reflexivity. }
  repeat split.
  - unfold Py.sorted.
    rewrite (mapM_ok _ (fun a => (kf a, a))).
    + reflexivity.
    + apply List.Forall_forall. intros a _. rewrite Hkey. reflexivity.
  - etransitivity; [apply Permutation_map, sort_keyed_perm|].
    now rewrite Hsnd.
  - apply undecorate_sorted; [apply sort_keyed_sorted | exact Hinv].
  - intros k0.
    pose proof (undecorate_filter kf k0) as Hf.
    rewrite Hf by exact Hinv. rewrite sort_keyed_stable.
    rewrite <- Hf, Hsnd; [reflexivity|].
    unfold dec. apply List.Forall_forall. intros p Hp.
    apply in_map_iff in Hp as (a & <- & _). reflexivity.
Qed.

End StableSort.

(** ** Sheet metadata scanner *)

Lemma ord_upper_AZ (c : ascii) :
  Py.is_upper_AZ c = true -> Py.ord_str (Py.upper c) = Ok (Py.ord c).
Proof. destruct c as [[] [] [] [] [] [] [] []]; intros H; try discriminate H; reflexivity. Qed.

Lemma col_letter_to_index_loop_letters (s : string) :
  all_chars Py.is_upper_AZ s = true ->
  forall i, col_letter_to_index_loop i s = Ok (letters_value_from i s).
Proof.
  induction s as [|c s IH]; cbn [all_chars]; intros Hs i; [reflexivity|].
  apply andb_true_iff in Hs as [Hc Hs].
  cbn [col_letter_to_index_loop letters_value_from].
  rewrite (ord_upper_AZ c Hc). cbn. now apply IH.
Qed.

Lemma span_fst_all (p : ascii -> bool) (s : string) :
  all_chars p (fst (span p s)) = true.
Proof.
  induction s as [|c s IH]; cbn [span]; [reflexivity|].
  destruct (p c) eqn:Hc; [|reflexivity].
  destruct (span p s) as [a b]. cbn [fst all_chars] in *. now rewrite Hc, IH.
Qed.

(** A run of [p]-characters followed by something that starts otherwise
    is split exactly there. *)
Lemma span_app (p : ascii -> bool) (a b : string) :
  all_chars p a = true ->
  match b with String c _ => p c = false | EmptyString => True end ->
  span p (a +:+ b) = (a, b).
Proof.
  intros Ha Hb. induction a as [|x a IH]; cbn [all_chars] in *.
  - destruct b as [|c b]; cbn; [reflexivity | now rewrite Hb].
  - apply andb_true_iff in Ha as [Hx Ha]. cbn. rewrite Hx, (IH Ha). reflexivity.
Qed.

(** The sort key never raises, and it is the column that the cell's own
    address names. *)
Lemma cell_column_key_spec (c : Element) : cell_column_key c = Ok (column_of_ref c).
Proof.
  unfold cell_column_key, column_of_ref, match_letters.
  pose proof (span_fst_all Py.is_upper_AZ (default "" (attrib c !! "r"))) as Hall.
  destruct (fst (span Py.is_upper_AZ (default "" (attrib c !! "r")))) as [|x g];
    [reflexivity|].
  unfold col_letter_to_index, letters_value.
  now apply col_letter_to_index_loop_letters.
Qed.

(** For an address made of letters and a row number the key is the value
    of the letters. *)
Lemma column_of_ref_letters (c : Element) (letters digits : string) :
  attrib c !! "r" = Some (letters +:+ digits) ->
  letters <> "" ->
  all_chars Py.is_upper_AZ letters = true ->
  all_chars Py.is_digit digits = true ->
  column_of_ref c = letters_value letters.
Proof.
  intros Hr Hne Hl Hd. unfold column_of_ref. rewrite Hr.
  change (default "" (Some (letters +:+ digits))) with (letters +:+ digits).
  rewrite span_app; [| exact Hl |].
  - cbn [fst]. destruct letters; [congruence | reflexivity].
  - destruct digits as [|d digits]; [exact I|].
    cbn [all_chars] in Hd. apply andb_true_iff in Hd as [Hd _].
    revert Hd. destruct d as [[] [] [] [] [] [] [] []]; intros Hd;
      try discriminate Hd; reflexivity.
Qed.

Lemma split_from_cons (sep : ascii) (s : string) :
  forall cur, exists x xs, Py.split_from sep cur s = x :: xs.
Proof.
  induction s as [|c s IH]; intros cur; cbn [Py.split_from]; [eauto|].
  destruct (Ascii.eqb c sep); eauto.
Qed.

(** When the separator occurs, [split] gives at least two pieces, so the
    piece of index 1 exists. *)
Lemma split_index_1 (sep : ascii) (s : string) :
  Py.contains sep s = true -> exists b, Py.index (Py.split sep s) 1 = Ok b.
Proof.
  unfold Py.split. generalize EmptyString as cur.
  induction s as [|c s IH]; intros cur; cbn [Py.contains Py.split_from];
    [discriminate|].
  destruct (Ascii.eqb c sep); cbn [orb]; intros H; [|now apply IH].
  destruct (split_from_cons sep s "") as (b & rest & ->).
  exists b. unfold Py.index, Py.len. cbn [Z.ltb Z.compare].
  destruct (Z.leb_spec 0 1); [|lia].
  destruct (Z.ltb_spec 1 (Z.of_nat (length (cur :: b :: rest))));
    [reflexivity | cbn [length] in *; lia].
Qed.

Lemma digit_facts (c : ascii) :
  Py.is_digit c = true ->
  Py.digit_value c = Some (Py.ord c - 48) /\ Py.int_space c = false
  /\ Ascii.eqb c "-" = false /\ Ascii.eqb c "+" = false /\ Py.isspace c = false.
Proof.
  destruct c as [[] [] [] [] [] [] [] []]; intros H; try discriminate H;
    repeat split; reflexivity.
Qed.

Lemma int_digits_all (s : string) :
  all_chars Py.is_digit s = true ->
  forall acc,
    Py.int_digits acc s
    = Some (fold_left (fun a c => a * 10 + (Py.ord c - 48)) (list_ascii_of_string s) acc, "").
Proof.
  induction s as [|c s IH]; cbn [all_chars]; intros Hs acc; [reflexivity|].
  apply andb_true_iff in Hs as [Hc Hs].
  destruct (digit_facts c Hc) as (Hv & _).
  cbn [Py.int_digits list_ascii_of_string fold_left]. rewrite Hv. now apply IH.
Qed.

Lemma count_digits_all (s : string) :
  all_chars Py.is_digit s = true -> Py.count_digits s = Z.of_nat (String.length s).
Proof.
  induction s as [|c s IH]; cbn [all_chars Py.count_digits String.length];
    [reflexivity|].
  intros Hs. apply andb_true_iff in Hs as [-> Hs]. rewrite (IH Hs). lia.
Qed.

(** What [int] makes of a non-empty string of digits: its decimal value
    when the digits are no more than the limit, [ValueError] otherwise. *)
Lemma int_of_str_all_digits (s : string) :
  s <> "" -> all_chars Py.is_digit s = true ->
  Py.int_of_str s
  = if Py.int_max_str_digits <? Z.of_nat (String.length s) then Raise ValueError
    else Ok (fold_left (fun a c => a * 10 + (Py.ord c - 48)) (list_ascii_of_string s) 0).
Proof.
  intros Hne Hall. rewrite <- (count_digits_all s Hall).
  destruct s as [|c s]; [congruence|]. cbn [all_chars] in Hall.
  apply andb_true_iff in Hall as [Hc Hs].
  destruct (digit_facts c Hc) as (Hv & Hsp & Hm & Hp & _).
  unfold Py.int_of_str. cbn [Py.skip_int_space]. rewrite Hsp, Hm, Hp.
  unfold Py.int_unsigned. rewrite Hv, (int_digits_all s Hs).
  reflexivity.
Qed.

(** A non-empty string of at most 4300 digits is read by [int] as its
    decimal value. *)
Lemma int_of_str_digits (s : string) :
  s <> "" -> all_chars Py.is_digit s = true ->
  (String.length s <= 4300)%nat ->
  Py.int_of_str s
  = Ok (fold_left (fun a c => a * 10 + (Py.ord c - 48)) (list_ascii_of_string s) 0).
Proof.
  intros Hne Hall Hlen. rewrite (int_of_str_all_digits s Hne Hall).
  unfold Py.int_max_str_digits.
  destruct (Z.ltb_spec 4300 (Z.of_nat (String.length s))); [lia | reflexivity].
Qed.

(** A string of more than 4300 digits is refused. *)
Lemma int_of_str_too_long (s : string) :
  all_chars Py.is_digit s = true ->
  (4300 < String.length s)%nat ->
  Py.int_of_str s = Raise ValueError.
Proof.
  intros Hall Hlen. rewrite (int_of_str_all_digits s); [| | exact Hall].
  - unfold Py.int_max_str_digits.
    destruct (Z.ltb_spec 4300 (Z.of_nat (String.length s))); [reflexivity | lia].
  - intros ->. cbn in Hlen. lia.
Qed.

Lemma span_length (p : ascii -> bool) (s : string) :
  (String.length (fst (span p s)) + String.length (snd (span p s)) = String.length s)%nat.
Proof.
  induction s as [|c s IH]; cbn [span]; [reflexivity|].
  destruct (p c); [|reflexivity].
  destruct (span p s) as [a b]. cbn [fst snd String.length] in *. lia.
Qed.

Lemma length_append (a b : string) :
  String.length (a +:+ b) = (String.length a + String.length b)%nat.
Proof. induction a as [|x a IH]; cbn; [reflexivity | now rewrite IH]. Qed.

(** No piece of a split is longer than what was split. *)
Lemma split_from_length (sep : ascii) (s : string) :
  forall cur,
    Forall (fun piece => (String.length piece <= String.length cur + String.length s)%nat)
           (Py.split_from sep cur s).
Proof.
  induction s as [|c s IH]; intros cur; cbn [Py.split_from String.length].
  - constructor; [lia | constructor].
  - destruct (Ascii.eqb c sep).
    + constructor; [lia|].
      eapply List.Forall_impl; [|exact (IH "")]. cbn. intros piece Hp. lia.
    + eapply List.Forall_impl; [|exact (IH (cur +:+ String c ""))].
      cbn. intros piece Hp. rewrite length_append in Hp. cbn in Hp. lia.
Qed.

Lemma index_In {A} (l : list A) (i : Z) (a : A) : Py.index l i = Ok a -> In a l.
Proof.
  unfold Py.index.
  destruct ((0 <=? _) && _); [|discriminate].
  destruct (nth_error l _) eqn:Hn; [|discriminate].
  intros [= <-]. exact (nth_error_In _ _ Hn).
Qed.

(** The part after the loop returns, with the headers that the loop
    left, when the dimension reference it holds is not longer than the
    digits [int] accepts. *)
Lemma sheet_extent_total (st : scan) :
  short_ref (dimension_ref st) = true ->
  exists max_row_ max_col, sheet_extent st = Ok (headers st, max_row_, max_col).
Proof.
  intros Hshort. unfold sheet_extent.
  assert (Hcol : forall m : option string,
            exists m', (if negb (truthy m) && negb (is_nil (headers st))
                        then match col_index_to_letter (Py.len (headers st)) with
                             | Some s => Ok (Some s)
                             | None => Raise Hang
                             end
                        else Ok m) = Ok m').
  { intros m. destruct (negb (truthy m) && negb (is_nil (headers st))); [|eauto].
    unfold col_index_to_letter.
    destruct (col_index_to_letter_loop_spec
                (Z.to_nat (Py.len (headers st))) (Py.len (headers st)) "")
      as (s & w & -> & _); [unfold Py.len; lia | lia | eauto]. }
  assert (Hdim : exists m r,
            match dimension_ref st with
            | Some ref =>
                if negb (truthy (Some ref)) then Ok (None, max_row st) else
                end_ref ← (if Py.contains ":" ref then Py.index (Py.split ":" ref) 1
                            else Ok ref);
                match match_letters_digits end_ref with
                | Some (g1, g2) => n ← Py.int_of_str g2; Ok (Some g1, n)
                | None => Ok (None, max_row st)
                end
            | None => Ok (None, max_row st)
            end = Ok (m, r)).
  { destruct (dimension_ref st) as [ref|]; [|eauto].
    cbn [short_ref] in Hshort. apply Nat.leb_le in Hshort.
    destruct (negb (truthy (Some ref))); [eauto|].
    assert (exists e, (if Py.contains ":" ref then Py.index (Py.split ":" ref) 1
                       else Ok ref) = Ok e
                      /\ (String.length e <= 4300)%nat) as (e & -> & He).
    { destruct (Py.contains ":" ref) eqn:Hc; [|eauto].
      destruct (split_index_1 ":" ref Hc) as (b & Hb). exists b. split; [exact Hb|].
      apply index_In in Hb. pose proof (split_from_length ":" ref "") as Hall.
      rewrite List.Forall_forall in Hall. specialize (Hall b Hb). cbn in Hall. lia. }
    cbn. unfold match_letters_digits.
    pose proof (span_length Py.is_upper_AZ e) as Hl1.
    destruct (span Py.is_upper_AZ e) as [g1 rest]. cbn [fst snd] in Hl1.
    pose proof (span_fst_all Py.is_digit rest) as Hd.
    pose proof (span_length Py.is_digit rest) as Hl2.
    destruct g1 as [|x g1]; [eauto|].
    destruct (fst (span Py.is_digit rest)) as [|d g2] eqn:Hg2; [eauto|].
    rewrite int_of_str_digits; [cbn; eauto | congruence | exact Hd | lia]. }
  destruct Hdim as (m & r & ->). cbn.
  destruct (Hcol m) as (m' & ->). cbn. eauto.
Qed.

(** An event that closes no row leaves the headers and the row count as
    they are, does not end the loop, and changes the dimension reference
    only by opening a dimension declaration. *)
Lemma scan_event_quiet (shared_strings : list string) (st : scan)
    (ev : event_kind * Element) :
  is_row_end ev = false ->
  exists st', scan_event shared_strings st ev = Ok (st', false)
              /\ headers st' = headers st /\ max_row st' = max_row st
              /\ dimension_ref st'
                 = if is_dimension_start ev then attrib (snd ev) !! "ref"
                   else dimension_ref st.
Proof.
  destruct ev as [[|] e]; cbn [is_row_end is_dimension_start snd]; intros Hq;
    unfold scan_event.
  - destruct (String.eqb (local_name (tag e)) "dimension"); eauto 6.
  - rewrite Hq. eauto 6.
Qed.

Lemma scan_event_quiet_short (shared_strings : list string) (st : scan)
    (ev : event_kind * Element) :
  is_row_end ev = false -> short_dimension ev = true ->
  short_ref (dimension_ref st) = true ->
  exists st', scan_event shared_strings st ev = Ok (st', false)
              /\ headers st' = headers st /\ max_row st' = max_row st
              /\ short_ref (dimension_ref st') = true.
Proof.
  intros Hq Hshort Hst.
  destruct (scan_event_quiet shared_strings st ev Hq) as (st' & Hrun & Hh & Hm & Hd).
  exists st'. repeat split; try assumption. rewrite Hd.
  unfold short_dimension in Hshort. now destruct (is_dimension_start ev).
Qed.

Lemma scan_events_quiet (shared_strings : list string)
    (pre : list (event_kind * Element)) :
  forallb before_header pre = true ->
  forall st, short_ref (dimension_ref st) = true ->
  exists st',
    (forall rest, scan_events shared_strings st (map Ok pre ++ rest)
                  = scan_events shared_strings st' rest)
    /\ headers st' = headers st /\ max_row st' = max_row st
    /\ short_ref (dimension_ref st') = true.
Proof.
  induction pre as [|ev pre IH]; cbn [forallb]; intros Hq st Hst; [eauto 6|].
  apply andb_true_iff in Hq as [Hev Hq]. unfold before_header in Hev.
  apply andb_true_iff in Hev as [Hev Hshort]. apply negb_true_iff in Hev.
  destruct (scan_event_quiet_short shared_strings st ev Hev Hshort Hst)
    as (st1 & Hst1 & Hh1 & Hm1 & Hd1).
  destruct (IH Hq st1 Hd1) as (st' & Hrest & Hh & Hm & Hd).
  exists st'. repeat split; [|congruence|congruence|exact Hd].
  intros rest. cbn [map app scan_events]. rewrite Hst1. cbn. apply Hrest.
Qed.

Lemma scan_events_after_header (shared_strings : list string) (n : Z)
    (post : list (result (event_kind * Element))) :
  ends_header n post = true ->
  forall st, Py.len (headers st) = n -> short_ref (dimension_ref st) = true ->
  exists st',
    scan_events shared_strings st post = Ok st' /\ headers st' = headers st
    /\ short_ref (dimension_ref st') = true.
Proof.
  induction post as [|[ev|e] post IH]; cbn [ends_header]; intros Hp st Hn Hst;
    [eauto | | discriminate].
  destruct (is_row_end ev) eqn:Hev.
  - destruct ev as [[|] e]; [discriminate|]. cbn [is_row_end snd] in *.
    cbn [scan_events]. unfold scan_event. rewrite Hev.
    destruct (attrib e !! "r") as [r|] eqn:Hr.
    + destruct (Py.int_of_str r) as [k|] eqn:Hk; [|discriminate]. cbn.
      destruct (Z.eqb_spec k 1) as [->|_]; [discriminate|].
      cbn. rewrite Hp. eauto.
    + rewrite Hn. cbn.
      destruct (Z.eqb_spec (n + 1) 1) as [Heq|_]; [rewrite Heq in Hp; discriminate|].
      cbn. rewrite Hp. eauto.
  - apply andb_true_iff in Hp as [Hshort Hp].
    destruct (scan_event_quiet_short shared_strings st ev Hev Hshort Hst)
      as (st1 & Hst1 & Hh1 & _ & Hd1).
    destruct (IH Hp st1) as (st' & Hrun & Hh & Hd); [congruence | exact Hd1 |].
    exists st'. split; [|split; [congruence | exact Hd]].
    cbn [scan_events]. rewrite Hst1. cbn. exact Hrun.
Qed.

(** The decoder gives a cell the display text the specification
    describes, whenever the cell has one. *)
Lemma decode_cell_display_text (shared_strings : list string) (c : Element) (s : string) :
  display_text shared_strings c = Some s -> decode_cell c shared_strings = Ok s.
Proof.
  unfold display_text, decode_cell.
  destruct (attrib c !! "t") as [form|] eqn:Hform; cbn [default from_option id].
  - destruct (String.eqb_spec form "s") as [->|Hs].
    + rewrite bool_decide_eq_true_2 by reflexivity.
      destruct (ET.find c (main "v")) as [v|].
      * destruct (Py.int_of_text (text v)) as [idx|]; [|discriminate].
        cbn [mbind result_bind].
        destruct (Z.ltb_spec idx 0) as [|Hidx]; [discriminate|]. intros [= <-].
        destruct (Z.ltb_spec idx (Py.len shared_strings)) as [Hlt|Hge].
        -- unfold Py.index. destruct (Z.ltb_spec idx 0); [lia|].
           destruct (Z.leb_spec 0 idx); [|lia].
           destruct (Z.ltb_spec idx (Py.len shared_strings)); [|lia]. cbn [andb].
           destruct (nth_error shared_strings (Z.to_nat idx)) as [a|] eqn:Hnth.
           ++ now rewrite (nth_error_nth _ _ _ Hnth).
           ++ apply nth_error_None in Hnth. unfold Py.len in *. lia.
        -- rewrite nth_overflow by (unfold Py.len in *; lia). reflexivity.
      * rewrite bool_decide_eq_false_2 by discriminate. cbv iota. congruence.
    + rewrite (bool_decide_eq_false_2 (Some form = Some "s")) by congruence.
      destruct (String.eqb_spec form "inlineStr") as [->|Hi].
      * rewrite bool_decide_eq_true_2 by reflexivity. cbv iota.
        destruct (ET.find_below c (main "t")); congruence.
      * rewrite (bool_decide_eq_false_2 (Some form = Some "inlineStr")) by congruence.
        cbv iota. destruct (ET.find c (main "v")); congruence.
  - rewrite (bool_decide_eq_false_2 (None = Some "s")) by discriminate.
    rewrite (bool_decide_eq_false_2 (None = Some "inlineStr")) by discriminate.
    cbv iota. cbn [String.eqb]. destruct (ET.find c (main "v")); congruence.
Qed.

Lemma mapM_decode_display (shared_strings : list string) (cells : list Element) :
  forallb (has_display_text shared_strings) cells = true ->
  exists hs,
    mapM (fun c => decode_cell c shared_strings) cells = Ok hs
    /\ map (display_text shared_strings) cells = map Some hs.
Proof.
  induction cells as [|c cells IH]; cbn [forallb]; intros Hall.
  - exists []. split; reflexivity.
  - apply andb_true_iff in Hall as [Hc Hall]. unfold has_display_text in Hc.
    destruct (display_text shared_strings c) as [h|] eqn:Hh; [|discriminate].
    destruct (IH Hall) as (hs & Hrun & Hmap).
    exists (h :: hs). split.
    + cbn [mapM]. rewrite (decode_cell_display_text _ _ _ Hh). cbn.
      rewrite Hrun. reflexivity.
    + cbn [map]. now rewrite Hh, Hmap.
Qed.

(** C4. Take a sheet whose event stream closes its first row after events
    that close no row, the row being numbered 1 or not numbered at all;
    let every cell of the row have a display text, let no dimension
    reference of the sheet be longer than 4300 characters, and let the
    row be followed by events that close no row and then by the end of
    the stream or by a row that the loop numbers 2 or more (a row without
    number counts as such when the header row has a cell).  Then the
    scanner returns, and the headers it returns are the display texts of
    the row's cells rearranged by the column that each cell names in its
    own [r] attribute (column 1 for a cell without letters there):
    ascending in that column, every cell once, cells of the same column in
    document order. *)
Theorem parse_sheet_meta_header_order
    (shared_strings : list string) (pre : list (event_kind * Element))
    (row : Element) (post : list (result (event_kind * Element))) :
  forallb before_header pre = true ->
  local_name (tag row) = "row" ->
  match attrib row !! "r" with
  | Some r => Py.int_of_str r = Ok 1
  | None => True
  end ->
  forallb (has_display_text shared_strings) (ET.findall row (main "c")) = true ->
  ends_header (Py.len (ET.findall row (main "c"))) post = true ->
  exists cells hs max_row_ max_col,
    parse_sheet_meta_events (map Ok pre ++ Ok (End, row) :: post) shared_strings
    = Ok (hs, max_row_, max_col)
    /\ map (display_text shared_strings) cells = map Some hs
    /\ Permutation cells (ET.findall row (main "c"))
    /\ StronglySorted (fun a b => column_of_ref a <= column_of_ref b) cells
    /\ forall k, List.filter (fun c => column_of_ref c =? k) cells
                 = List.filter (fun c => column_of_ref c =? k)
                               (ET.findall row (main "c")).
Proof.
  intros Hpre Hrow Hr Hdec Hpost.
  destruct (sorted_spec cell_column_key column_of_ref (ET.findall row (main "c"))
              cell_column_key_spec) as (cells & Hsorted & Hperm & Hord & Hstable).
  assert (Hdec' : forallb (has_display_text shared_strings) cells = true).
  { rewrite forallb_forall in *. intros c Hc. apply Hdec.
    exact (Permutation_in _ Hperm Hc). }
  destruct (mapM_decode_display shared_strings cells Hdec') as (hs & Hrun & Htexts).
  set (st0 := {| headers := []; max_row := 1; dimension_ref := None |}).
  destruct (scan_events_quiet shared_strings pre Hpre st0 eq_refl)
    as (st1 & Hrun1 & Hh1 & Hm1 & Hd1).
  assert (Hrow1 :
    scan_event shared_strings st1 (End, row)
    = Ok ({| headers := hs; max_row := Z.max (max_row st1) 1;
             dimension_ref := dimension_ref st1 |}, false)).
  { unfold scan_event. rewrite Hrow. cbn [String.eqb Ascii.eqb Bool.eqb].
    assert (Hidx : match attrib row !! "r" with
                   | Some r => Py.int_of_str r
                   | None => Ok (Py.len (headers st1) + 1)
                   end = Ok 1).
    { destruct (attrib row !! "r"); [exact Hr|]. rewrite Hh1. reflexivity. }
    rewrite Hidx. cbn [mbind result_bind Z.eqb Pos.eqb].
    rewrite Hsorted. cbn [mbind result_bind]. rewrite Hrun. reflexivity. }
  assert (Hlen : Py.len hs = Py.len (ET.findall row (main "c"))).
  { unfold Py.len. f_equal.
    rewrite <- (Permutation_length Hperm), <- (length_map (display_text shared_strings) cells).
    now rewrite Htexts, length_map. }
  destruct (scan_events_after_header shared_strings _ post Hpost
              {| headers := hs; max_row := Z.max (max_row st1) 1;
                 dimension_ref := dimension_ref st1 |} Hlen Hd1)
    as (st2 & Hrun2 & Hh2 & Hd2).
  destruct (sheet_extent_total st2 Hd2) as (mr & mc & Hext).
  exists cells, hs, mr, mc. repeat split;
    [|exact Htexts|exact Hperm|exact Hord|exact Hstable].
  unfold parse_sheet_meta_events. fold st0. rewrite Hrun1.
  cbn [scan_events]. rewrite Hrow1. cbn. rewrite Hrun2. cbn.
  rewrite Hext. cbn [headers] in Hh2. now rewrite Hh2.
Qed.

Lemma parse_sheet_meta_header_order_witness :
  exists cells hs max_row_ max_col,
    parse_sheet_meta_events
      (map Ok [(Start, dimension_elem "A1:B3"); (Start, unordered_row)]
         ++ Ok (End, unordered_row)
         :: [Ok (Start, unnumbered_row); Ok (End, unnumbered_row); Raise ValueError]) []
    = Ok (hs, max_row_, max_col)
    /\ map (display_text []) cells = map Some hs
    /\ Permutation cells (ET.findall unordered_row (main "c"))
    /\ StronglySorted (fun a b => column_of_ref a <= column_of_ref b) cells
    /\ forall k, List.filter (fun c => column_of_ref c =? k) cells
                 = List.filter (fun c => column_of_ref c =? k)
                               (ET.findall unordered_row (main "c")).
Proof.
  apply (parse_sheet_meta_header_order []
           [(Start, dimension_elem "A1:B3"); (Start, unordered_row)] unordered_row
           [Ok (Start, unnumbered_row); Ok (End, unnumbered_row); Raise ValueError]).
  - vm_compute. reflexivity.
  - reflexivity.
  - reflexivity.
  - vm_compute. reflexivity.
  - vm_compute. reflexivity.
Defined.

(** The header row written out of column order, in a sheet that declares
    its dimension and goes on with a row without number: the headers come
    back in column order, with their texts. *)
Example parse_sheet_meta_unnumbered_second_row :
  parse_sheet_meta_events
    [Ok (Start, dimension_elem "A1:B3"); Ok (Start, unordered_row);
     Ok (End, unordered_row); Ok (Start, unnumbered_row); Ok (End, unnumbered_row);
     Raise ValueError] []
  = Ok (["Time"; "Week"], 3, "B").
Proof. vm_compute. reflexivity. Qed.

Example parse_sheet_meta_unordered :
  parse_sheet_meta_events [Ok (Start, unordered_row); Ok (End, unordered_row)] []
  = Ok (["Time"; "Week"], 1, "B").
Proof. vm_compute. reflexivity. Qed.

(** ** Row encoder *)

Lemma all_chars_app (p : ascii -> bool) (a b : string) :
  all_chars p (a +:+ b) = all_chars p a && all_chars p b.
Proof.
  induction a as [|x a IH]; cbn; [reflexivity|]. rewrite IH. apply andb_assoc.
Qed.

Lemma escape_cons (x : ascii) (s : string) :
  escape (String x s) = escape_char x +:+ escape s.
Proof. destruct x as [[] [] [] [] [] [] [] []]; reflexivity. Qed.

(** [escape] works character by character: [&], [<] and [>] become
    entity references, every other character stays. *)
Lemma escape_spec (s : string) : escape s = escape_chars s.
Proof.
  induction s as [|x s IH]; [reflexivity|].
  rewrite escape_cons, IH. reflexivity.
Qed.

Lemma unescape_escape_char (c : ascii) (t : string) :
  unescape (escape_char c +:+ t) = String c (unescape t).
Proof. destruct c as [[] [] [] [] [] [] [] []]; reflexivity. Qed.

Lemma unescape_escape_chars (s : string) : unescape (escape_chars s) = s.
Proof.
  induction s as [|c s IH]; [reflexivity|].
  cbn [escape_chars]. now rewrite unescape_escape_char, IH.
Qed.

Lemma escape_char_no_tag (c : ascii) :
  all_chars (fun x => negb (Ascii.eqb x "<")) (escape_char c) = true.
Proof. destruct c as [[] [] [] [] [] [] [] []]; reflexivity. Qed.

Lemma escape_chars_no_tag (s : string) :
  all_chars (fun x => negb (Ascii.eqb x "<")) (escape_chars s) = true.
Proof.
  induction s as [|c s IH]; [reflexivity|].
  cbn [escape_chars]. now rewrite all_chars_app, escape_char_no_tag, IH.
Qed.

(** The text a text cell is given. *)
Lemma cell_xml_text (row_idx : Z) (col_letter : string) (val : value) :
  cell_xml row_idx col_letter val false
  = ("<c r=" +:+ Py.dquote +:+ (col_letter +:+ Py.str_of_int row_idx) +:+ Py.dquote
       +:+ " t=" +:+ Py.dquote +:+ "inlineStr" +:+ Py.dquote +:+ "><is><t>")
      +:+ escape (match val with VNone => "" | _ => str val end)
      +:+ "</t></is></c>".
Proof. unfold cell_xml. now rewrite !append_assoc. Qed.

Lemma escape_char_xml (c : ascii) :
  all_chars xml_char (escape_char c) = xml_char c.
Proof. destruct c as [[] [] [] [] [] [] [] []]; reflexivity. Qed.

Lemma escape_chars_xml (s : string) :
  all_chars xml_char (escape_chars s) = all_chars xml_char s.
Proof.
  induction s as [|c s IH]; [reflexivity|].
  cbn [escape_chars all_chars]. now rewrite all_chars_app, escape_char_xml, IH.
Qed.

Lemma escape_char_no_markup (c : ascii) :
  Py.contains "<" (escape_char c) = false /\ Py.contains ">" (escape_char c) = false.
Proof. destruct c as [[] [] [] [] [] [] [] []]; split; reflexivity. Qed.

Lemma escape_chars_no_markup (s : string) :
  Py.contains "<" (escape_chars s) = false /\ Py.contains ">" (escape_chars s) = false.
Proof.
  induction s as [|c s [IH1 IH2]]; [split; reflexivity|].
  cbn [escape_chars]. rewrite !contains_app, IH1, IH2.
  destruct (escape_char_no_markup c) as [-> ->]. split; reflexivity.
Qed.

Lemma prefix_cdata_end (s : string) :
  Py.contains ">" s = false -> String.prefix "]]>" s = false.
Proof.
  destruct s as [|a [|b [|c s]]]; cbn [String.prefix]; intros H; try reflexivity;
    repeat match goal with
           | |- context [ascii_dec ?x ?y] => destruct (ascii_dec x y); subst
           end; try reflexivity.
  cbn in H. discriminate H.
Qed.

Lemma has_cdata_end_contains (s : string) :
  Py.contains ">" s = false -> has_cdata_end s = false.
Proof.
  induction s as [|c s IH]; [reflexivity|]. intros H.
  cbn [has_cdata_end]. rewrite (prefix_cdata_end _ H).
  cbn [Py.contains] in H. apply orb_false_iff in H as [_ Hs]. now apply IH.
Qed.

(** Escaping and line-end normalisation do not see each other. *)
Lemma newlines_escape_chars (s : string) :
  forall after_cr,
    newlines_from after_cr (escape_chars s) = escape_chars (newlines_from after_cr s).
Proof.
  induction s as [|c s IH]; intros after_cr; [reflexivity|].
  cbn [escape_chars newlines_from].
  destruct c as [[] [] [] [] [] [] [] []];
    cbn [escape_char Ascii.eqb Bool.eqb CR LF andb String.append newlines_from escape_chars];
    rewrite ?IH; try reflexivity;
    destruct after_cr;
    cbn [escape_char Ascii.eqb Bool.eqb andb String.append newlines_from escape_chars];
    now rewrite ?IH.
Qed.

Lemma decode_escape_chars (s : string) :
  decode_references None (escape_chars s) = Some (codes s).
Proof.
  induction s as [|c s IH]; [reflexivity|].
  cbn [escape_chars]. unfold escape_char.
  destruct (Ascii.eqb_spec c "&") as [->|Hamp];
    [cbn; now rewrite IH|].
  destruct (Ascii.eqb_spec c "<") as [->|Hlt];
    [cbn; now rewrite IH|].
  destruct (Ascii.eqb_spec c ">") as [->|Hgt];
    [cbn; now rewrite IH|].
  cbn [String.append decode_references].
  destruct (Ascii.eqb_spec c "&"); [congruence|]. now rewrite IH.
Qed.

Lemma newlines_from_no_cr (s : string) :
  Py.contains CR s = false -> newlines_from false s = s.
Proof.
  induction s as [|c s IH]; [reflexivity|].
  cbn [Py.contains newlines_from]. intros H. apply orb_false_iff in H as [-> Hs].
  rewrite andb_false_r. now rewrite IH.
Qed.

Lemma newlines_from_has_no_cr (s : string) :
  forall after_cr, Py.contains CR (newlines_from after_cr s) = false.
Proof.
  induction s as [|c s IH]; intros after_cr; [reflexivity|].
  cbn [newlines_from].
  destruct (Ascii.eqb_spec c CR) as [->|Hc]; [cbn; apply IH|].
  destruct (Ascii.eqb c LF && after_cr); [apply IH|].
  cbn [Py.contains]. rewrite IH, orb_false_r. now apply Ascii.eqb_neq.
Qed.

Lemma codes_inj (a b : string) : codes a = codes b -> a = b.
Proof.
  unfold codes. revert b.
  induction a as [|x a IH]; intros [|y b]; cbn; try discriminate; [reflexivity|].
  intros [= Hxy Hab]. rewrite (IH b Hab). f_equal.
  rewrite <- (chr_ord x), <- (chr_ord y). now rewrite Hxy.
Qed.

(** What is read back from the content of a text cell. *)
Lemma read_char_data_escape (s : string) :
  read_char_data (escape s)
  = if all_chars xml_char s then Some (codes (newlines s)) else None.
Proof.
  rewrite escape_spec. unfold read_char_data, newlines.
  rewrite escape_chars_xml.
  destruct (escape_chars_no_markup s) as [Hlt Hgt].
  rewrite Hlt, (has_cdata_end_contains _ Hgt). cbn [negb]. rewrite !andb_true_r.
  destruct (all_chars xml_char s); [|reflexivity].
  rewrite newlines_escape_chars. apply decode_escape_chars.
Qed.

(** C3, as the code has it. A text cell holds, between [<t>] and [</t>],
    the text of the value with [&], [<] and [>] replaced by [&amp;], [&lt;]
    and [&gt;] and every other character, the two quotes included, left as
    it is.  That content holds no [<], so it is character data up to the
    closing tag, and reading it back gives the text of the value with its
    line ends normalised when the text holds only characters that XML
    allows, and nothing otherwise.  So the exact text comes back if and
    only if it holds only such characters and no carriage return. *)
Theorem row_encoder_escapes_markup (row_idx : Z) (col_letter : string) (val : value) :
  let text_ := match val with VNone => "" | _ => str val end in
  (exists opening,
      cell_xml row_idx col_letter val false
      = opening +:+ "<is><t>" +:+ escape text_ +:+ "</t></is></c>")
  /\ escape text_ = escape_chars text_
  /\ Py.contains "<" (escape text_) = false
  /\ read_char_data (escape text_)
     = (if all_chars xml_char text_ then Some (codes (newlines text_)) else None)
  /\ (read_char_data (escape text_) = Some (codes text_)
      <-> all_chars xml_char text_ = true /\ Py.contains CR text_ = false).
Proof.
  intros text_. split; [|split; [|split; [|split]]].
  - exists ("<c r=" +:+ Py.dquote +:+ (col_letter +:+ Py.str_of_int row_idx) +:+ Py.dquote
            +:+ " t=" +:+ Py.dquote +:+ "inlineStr" +:+ Py.dquote +:+ ">").
    rewrite cell_xml_text. fold text_. now rewrite !append_assoc.
  - apply escape_spec.
  - rewrite escape_spec. apply escape_chars_no_markup.
  - apply read_char_data_escape.
  - rewrite read_char_data_escape. split.
    + destruct (all_chars xml_char text_); [|discriminate].
      intros [= H]. apply codes_inj in H. split; [reflexivity|].
      rewrite <- H. apply newlines_from_has_no_cr.
    + intros [-> Hcr]. unfold newlines. now rewrite newlines_from_no_cr.
Qed.

(** C3, as stated, fails.  The two quote characters are emitted as they
    are, not escaped; and a text is not always recovered: a carriage
    return is emitted as it is and read back as a line feed, and a
    character that XML does not allow is emitted as it is, which leaves a
    cell that cannot be read. *)
Lemma row_encoder_keeps_quotes :
  escape (Py.dquote +:+ "'") = Py.dquote +:+ "'"
  /\ cell_xml 2 "A" (VStr (Py.dquote +:+ "'")) false
     = "<c r=" +:+ Py.dquote +:+ "A2" +:+ Py.dquote +:+ " t=" +:+ Py.dquote
         +:+ "inlineStr" +:+ Py.dquote +:+ "><is><t>" +:+ Py.dquote +:+ "'"
         +:+ "</t></is></c>"
  /\ escape ("a" +:+ String CR "b") = "a" +:+ String CR "b"
  /\ read_char_data (escape ("a" +:+ String CR "b")) = Some (codes ("a" +:+ String LF "b"))
  /\ codes ("a" +:+ String LF "b") <> codes ("a" +:+ String CR "b")
  /\ read_char_data (escape (String (Py.chr 1) "")) = None.
Proof. repeat split; try reflexivity. discriminate. Qed.

Example read_char_data_ex :
  read_char_data "a &lt; b &amp;&amp; c" = Some (codes "a < b && c")
  /\ read_char_data "&#65;&#x42;&quot;" = Some [65; 66; 34]
  /\ read_char_data "&#x20AC;" = Some [8364]
  /\ read_char_data ("x" +:+ String CR (String LF "y")) = Some (codes ("x" +:+ String LF "y"))
  /\ read_char_data "AT&T" = None
  /\ read_char_data "&nbsp;" = None
  /\ read_char_data "&#0;" = None
  /\ read_char_data "a]]>b" = None
  /\ read_char_data "a<b" = None.
Proof. repeat split; reflexivity. Qed.

(** ** Sheet synthesizer *)

Lemma zip3_length {A B C} (a : list A) (b : list B) (c : list C) :
  length (Py.zip3 a b c) = Nat.min (length a) (Nat.min (length b) (length c)).
Proof.
  revert b c. induction a as [|x a IH]; intros [|y b] [|z c]; cbn; try reflexivity.
  now rewrite IH.
Qed.

(** A row has one part per column that has a letter, a value and a flag,
    between its opening and closing parts. *)
Lemma row_parts_length (row_idx : Z) (values : list value) (num_flags : list bool)
    (col_letters : list string) :
  length (row_parts row_idx values num_flags col_letters)
  = (2 + Nat.min (length col_letters) (Nat.min (length values) (length num_flags)))%nat.
Proof.
  unfold row_parts. cbn [app length]. rewrite length_app, length_map, zip3_length.
  cbn [length]. lia.
Qed.

Lemma col_letters_for_total (n : nat) :
  exists col_letters,
    col_letters_for n = Ok col_letters /\ length col_letters = n.
Proof.
  exists (map (fun i : nat => default "" (col_index_to_letter (Z.of_nat i + 1))) (seq 0 n)).
  split; [|now rewrite length_map, length_seq].
  unfold col_letters_for. apply mapM_ok.
  apply List.Forall_forall. intros i _.
  destruct (col_round_trip_all (Z.of_nat i + 1)) as (s & -> & _); [lia | reflexivity].
Qed.

Lemma index_last_total {A} (l : list A) :
  l <> [] -> exists a, Py.index l (-1) = Ok a.
Proof.
  intros Hne. unfold Py.index, Py.len. cbn [Z.ltb Z.compare].
  assert (0 < length l)%nat by (destruct l; [congruence | cbn; lia]).
  destruct (Z.leb_spec 0 (-1 + Z.of_nat (length l))); [|lia].
  destruct (Z.ltb_spec (-1 + Z.of_nat (length l)) (Z.of_nat (length l))); [|lia].
  cbn [andb].
  destruct (nth_error l (Z.to_nat (-1 + Z.of_nat (length l)))) as [a|] eqn:Hnth; [eauto|].
  apply nth_error_None in Hnth. lia.
Qed.

Lemma col_letters_for_nth (n i : nat) :
  (i < n)%nat ->
  exists col_letters letter,
    col_letters_for n = Ok col_letters
    /\ col_index_to_letter (Z.of_nat i + 1) = Some letter
    /\ nth_error col_letters i = Some letter.
Proof.
  intros Hi.
  set (g := fun i : nat => default "" (col_index_to_letter (Z.of_nat i + 1))).
  assert (Hcl : col_letters_for n = Ok (map g (seq 0 n))).
  { unfold col_letters_for. apply mapM_ok.
    apply List.Forall_forall. intros j _. unfold g.
    destruct (col_round_trip_all (Z.of_nat j + 1)) as (s & -> & _); [lia | reflexivity]. }
  destruct (col_round_trip_all (Z.of_nat i + 1)) as (letter & Hletter & _); [lia|].
  exists (map g (seq 0 n)), letter. repeat split; [exact Hcl | exact Hletter |].
  rewrite nth_error_map, nth_error_seq.
  destruct (Nat.ltb_spec i n); [|lia]. cbn. unfold g. now rewrite Hletter.
Qed.

Lemma data_rows_xml_length (rows : list (list value)) :
  forall idx num_flags col_letters,
    length (data_rows_xml idx rows num_flags col_letters) = length rows.
Proof.
  induction rows as [|row rows IH]; intros idx num_flags col_letters; cbn;
    [reflexivity | now rewrite IH].
Qed.

Lemma data_rows_xml_nth (rows : list (list value)) :
  forall idx num_flags col_letters (i : nat) row,
    nth_error rows i = Some row ->
    nth_error (data_rows_xml idx rows num_flags col_letters) i
    = Some (build_row_xml (idx + Z.of_nat i) row num_flags col_letters).
Proof.
  induction rows as [|r rows IH]; intros idx num_flags col_letters [|i] row;
    cbn [nth_error data_rows_xml]; try discriminate.
  - intros [= ->]. now rewrite Z.add_0_r.
  - intros Hrow. rewrite (IH _ _ _ _ _ Hrow). do 2 f_equal. lia.
Qed.

Lemma write_table_sheet_structure
    (fs : gmap string bytes) (out_path : string)
    (headers : list string) (rows : list (list value)) (num_flags : list bool) :
  headers <> [] ->
  exists col_letters last_letter writes,
    col_letters_for (length headers) = Ok col_letters
    /\ col_index_to_letter (Py.len headers) = Some last_letter
    /\ write_table_sheet fs out_path headers rows num_flags
       = (<[out_path := utf8 (String.concat "" writes)]> fs, Ok tt)
    /\ nth_error writes 2
       = Some ("<dimension ref=" +:+ Py.dquote +:+ "A1:" +:+ last_letter
                 +:+ Py.str_of_int (1 + Py.len rows) +:+ Py.dquote +:+ "/>")
    /\ nth_error writes 4
       = Some (build_row_xml 1 (map VStr headers) (map (fun _ => false) headers)
                 col_letters)
    /\ length writes = (6 + length rows)%nat
    /\ forall (i : nat) row,
         nth_error rows i = Some row ->
         nth_error writes (5 + i)
         = Some (build_row_xml (2 + Z.of_nat i) row num_flags col_letters).
Proof.
  intros Hne.
  assert (Hpos : (length headers - 1 < length headers)%nat).
  { destruct headers; [congruence | cbn; lia]. }
  destruct (col_letters_for_nth (length headers) (length headers - 1) Hpos)
    as (col_letters & last_letter & Hcl & Hletter & Hnth).
  assert (Hlen : length col_letters = length headers).
  { destruct (col_letters_for_total (length headers)) as (l & Hl & Hll). congruence. }
  replace (Z.of_nat (length headers - 1) + 1) with (Py.len headers) in Hletter
    by (unfold Py.len; lia).
  assert (Hlast : Py.index col_letters (-1) = Ok last_letter).
  { unfold Py.index, Py.len. cbn [Z.ltb Z.compare]. rewrite Hlen.
    destruct (Z.leb_spec 0 (-1 + Z.of_nat (length headers))); [|lia].
    destruct (Z.ltb_spec (-1 + Z.of_nat (length headers)) (Z.of_nat (length headers)));
      [|lia].
    cbn [andb].
    replace (Z.to_nat (-1 + Z.of_nat (length headers))) with (length headers - 1)%nat
      by lia.
    now rewrite Hnth. }
  eexists col_letters, last_letter, _. split; [exact Hcl|]. split; [exact Hletter|].
  split; [unfold write_table_sheet; rewrite Hcl; unfold table_sheet_writes;
          rewrite Hlast; reflexivity|].
  split; [reflexivity|]. split; [reflexivity|]. split.
  - cbn [length app]. rewrite length_app, data_rows_xml_length. cbn [length]. lia.
  - intros i row Hrow. cbn [app nth_error Nat.add].
    rewrite nth_error_app1 by (rewrite data_rows_xml_length; apply nth_error_Some; congruence).
    now apply data_rows_xml_nth.
Qed.

(** C7, as the code has it. Sheet synthesis has no check of the flags
    against the header: for every non-empty header, whatever the length of
    the flags, [write_table_sheet] completes and writes the file, and in
    what it writes each data row is there, the [i]-th as row [i + 2], with
    as many cells as the shortest of the column letters (one per header),
    the row's values and the flags. *)
Theorem write_table_sheet_no_schema_check
    (fs : gmap string bytes) (out_path : string) (headers : list string)
    (rows : list (list value)) (num_flags : list bool) :
  headers <> [] ->
  exists col_letters writes,
    col_letters_for (length headers) = Ok col_letters
    /\ length col_letters = length headers
    /\ write_table_sheet fs out_path headers rows num_flags
       = (<[out_path := utf8 (String.concat "" writes)]> fs, Ok tt)
    /\ length writes = (6 + length rows)%nat
    /\ forall (i : nat) row,
         nth_error rows i = Some row ->
         exists cells,
           nth_error writes (5 + i)
           = Some (String.concat ""
                     (["<row r=" +:+ Py.dquote +:+ Py.str_of_int (2 + Z.of_nat i)
                         +:+ Py.dquote +:+ ">"]
                        ++ cells ++ ["</row>" +:+ Py.newline]))
           /\ cells = map (fun '(col_letter, val, is_num) =>
                             cell_xml (2 + Z.of_nat i) col_letter val is_num)
                          (Py.zip3 col_letters row num_flags)
           /\ length cells
              = Nat.min (length headers) (Nat.min (length row) (length num_flags)).
Proof.
  intros Hne.
  destruct (write_table_sheet_structure fs out_path headers rows num_flags Hne)
    as (col_letters & last_letter & writes & Hcl & _ & Hrun & _ & _ & Hlen & Hrows).
  assert (Hcols : length col_letters = length headers).
  { destruct (col_letters_for_total (length headers)) as (l & Hl & Hll). congruence. }
  exists col_letters, writes. split; [exact Hcl|]. split; [exact Hcols|].
  split; [exact Hrun|]. split; [exact Hlen|].
  intros i row Hrow. eexists. split; [|split; [reflexivity|]].
  - rewrite (Hrows i row Hrow). reflexivity.
  - now rewrite length_map, zip3_length, Hcols.
Qed.

Lemma write_table_sheet_no_schema_check_witness :
  exists col_letters writes,
    col_letters_for (length ["Time"; "Week"]) = Ok col_letters
    /\ length col_letters = length ["Time"; "Week"]
    /\ write_table_sheet ∅ "week.xml" ["Time"; "Week"] [[VStr "W1"; VInt 1]] [false]
       = (<["week.xml" := utf8 (String.concat "" writes)]> ∅, Ok tt)
    /\ length writes = (6 + length [[VStr "W1"; VInt 1]])%nat
    /\ forall (i : nat) row,
         nth_error [[VStr "W1"; VInt 1]] i = Some row ->
         exists cells,
           nth_error writes (5 + i)
           = Some (String.concat ""
                     (["<row r=" +:+ Py.dquote +:+ Py.str_of_int (2 + Z.of_nat i)
                         +:+ Py.dquote +:+ ">"]
                        ++ cells ++ ["</row>" +:+ Py.newline]))
           /\ cells = map (fun '(col_letter, val, is_num) =>
                             cell_xml (2 + Z.of_nat i) col_letter val is_num)
                          (Py.zip3 col_letters row [false])
           /\ length cells
              = Nat.min (length ["Time"; "Week"]) (Nat.min (length row) (length [false])).
Proof.
  apply (write_table_sheet_no_schema_check ∅ "week.xml" ["Time"; "Week"]
           [[VStr "W1"; VInt 1]] [false]).
  discriminate.
Defined.

(** C7, as stated, fails: with two headers and one flag the call completes,
    the file is written, and the data row in it has lost its second cell. *)
Lemma write_table_sheet_truncates_row :
  length [false] <> length ["Time"; "Week"]
  /\ snd (write_table_sheet ∅ "week.xml" ["Time"; "Week"] [[VStr "W1"; VInt 1]] [false])
     = Ok tt
  /\ is_Some (fst (write_table_sheet ∅ "week.xml" ["Time"; "Week"]
                     [[VStr "W1"; VInt 1]] [false]) !! "week.xml")
  /\ build_row_xml 2 [VStr "W1"; VInt 1] [false] ["A"; "B"]
     = "<row r=" +:+ Py.dquote +:+ "2" +:+ Py.dquote +:+ "><c r=" +:+ Py.dquote
         +:+ "A2" +:+ Py.dquote +:+ " t=" +:+ Py.dquote +:+ "inlineStr" +:+ Py.dquote
         +:+ "><is><t>W1</t></is></c></row>" +:+ Py.newline
  /\ In (build_row_xml 2 [VStr "W1"; VInt 1] [false] ["A"; "B"])
        (fst (table_sheet_writes ["Time"; "Week"] [[VStr "W1"; VInt 1]] [false]
                ["A"; "B"])).
Proof.
  split; [cbn; lia|]. split; [vm_compute; reflexivity|].
  split; [vm_compute; eauto|]. split; [vm_compute; reflexivity|].
  vm_compute. do 5 right. left. reflexivity.
Qed.

(** ** Archive copy pass *)

Lemma read_absent (zf : Zip.t) (name : string) :
  ~ In name (Zip.namelist zf) -> Zip.read zf name = Raise KeyError.
Proof.
  induction zf as [|m zf IH]; cbn [Zip.read Zip.namelist map In]; [reflexivity|].
  intros Hnot. rewrite IH by tauto.
  destruct (String.eqb_spec (filename m) name); [tauto | reflexivity].
Qed.

(** In an archive without duplicate names, reading a member's name gives
    that member's bytes. *)
Lemma read_member (zf : Zip.t) (m : ZipMember) :
  NoDup (Zip.namelist zf) -> In m zf -> Zip.read zf (filename m) = Ok (data m).
Proof.
  induction zf as [|m0 zf IH]; cbn [Zip.read Zip.namelist map In]; [tauto|].
  intros Hnd [->|Hin]; inversion Hnd as [|? ? Hnotin Hnd']; subst.
  - rewrite read_absent by (rewrite <- list_elem_of_In; exact Hnotin).
    now rewrite String.eqb_refl.
  - now rewrite IH.
Qed.

Lemma lookup_map {A B} (f : A -> B) (l : list A) (i : nat) :
  map f l !! i = f <$> (l !! i).
Proof. revert i. induction l as [|a l IH]; intros [|i]; cbn; auto. Qed.

Section PatcherProofs.

Variable arcname_of : string -> string.
Variable fs : gmap string bytes.
Variable src_zip : Zip.t.
Variable replacements : gmap string string.

Lemma copy_members_spec (items : list ZipMember) :
  (forall m, In m items -> Zip.read src_zip (filename m) = Ok (data m)) ->
  Forall (replacement_ready arcname_of fs replacements) items ->
  forall out_zip,
    copy_members arcname_of fs src_zip replacements items out_zip
    = Ok (out_zip ++ map (patched fs replacements) items).
Proof.
  induction items as [|m items IH]; intros Hread Hready out_zip; cbn [copy_members map].
  - now rewrite app_nil_r.
  - inversion Hready as [|? ? Hm Hrest]; subst.
    assert (Hstep : copy_member arcname_of fs src_zip replacements out_zip m
                    = Ok (out_zip ++ [patched fs replacements m])).
    { unfold copy_member, patched, zip_write.
      destruct (replacements !! filename m) as [path|] eqn:Hrep.
      - destruct (Hm path Hrep) as [[d Hd] Hname]. unfold bytes in *.
        rewrite Hd, Hname. reflexivity.
      - rewrite Hread by (left; reflexivity). cbn. unfold Zip.writestr.
        destruct m; reflexivity. }
    rewrite Hstep. cbn [mbind result_bind].
    rewrite IH; [| intros m' Hm'; apply Hread; now right | exact Hrest].
    now rewrite <- app_assoc.
Qed.

End PatcherProofs.

(** C1. Let the source archive have no two members of the same name, and
    let every member named in the replacement map have its replacement
    file on disk and a name that the archive writer stores unchanged.
    Then the copy pass completes; the output has the names of the source,
    in the same order; a member not named in the map is in the output at
    its source position with its source bytes; a member named in the map
    is there with the bytes of its replacement file. *)
Theorem copy_pass_preserves_unreplaced
    (arcname_of : string -> string) (fs : gmap string bytes)
    (src_zip : Zip.t) (replacements : gmap string string) :
  NoDup (Zip.namelist src_zip) ->
  Forall (replacement_ready arcname_of fs replacements) src_zip ->
  exists out_zip,
    copy_pass arcname_of fs src_zip replacements = Ok out_zip
    /\ Zip.namelist out_zip = Zip.namelist src_zip
    /\ (forall i m, src_zip !! i = Some m ->
                    replacements !! filename m = None ->
                    out_zip !! i = Some m)
    /\ (forall i m path d, src_zip !! i = Some m ->
                           replacements !! filename m = Some path ->
                           fs !! path = Some d ->
                           out_zip !! i = Some {| filename := filename m; data := d |}).
Proof.
  intros Hnd Hready.
  exists (map (patched fs replacements) src_zip). repeat split.
  - unfold copy_pass, Zip.infolist.
    rewrite copy_members_spec; [reflexivity | | exact Hready].
    intros m Hm. now apply read_member.
  - unfold Zip.namelist. rewrite map_map. apply map_ext.
    intros m. unfold patched. now destruct (replacements !! filename m).
  - intros i m Hi Hnone. unfold Zip.t in *. rewrite lookup_map, Hi. cbn.
    unfold patched. now rewrite Hnone.
  - intros i m path d Hi Hsome Hd. unfold Zip.t in *. rewrite lookup_map, Hi. cbn.
    unfold patched, bytes in *. now rewrite Hsome, Hd.
Qed.

Lemma copy_pass_preserves_unreplaced_witness :
  exists out_zip,
    copy_pass (fun name => name) week_file four_sheets week_replacement = Ok out_zip
    /\ Zip.namelist out_zip = Zip.namelist four_sheets
    /\ (forall i m, four_sheets !! i = Some m ->
                    week_replacement !! filename m = None ->
                    out_zip !! i = Some m)
    /\ (forall i m path d, four_sheets !! i = Some m ->
                           week_replacement !! filename m = Some path ->
                           week_file !! path = Some d ->
                           out_zip !! i = Some {| filename := filename m; data := d |}).
Proof.
  apply (copy_pass_preserves_unreplaced (fun name => name) week_file four_sheets
           week_replacement).
  - apply (bool_decide_unpack _). vm_compute. exact I.
  - repeat (constructor;
            [ intros path Hpath; vm_compute in Hpath;
              first [ discriminate Hpath
                    | injection Hpath as <-; split;
                      [eexists; vm_compute; reflexivity | reflexivity] ]
            | ]).
    constructor.
Defined.

Example copy_pass_four_sheets :
  copy_pass (fun name => name) week_file four_sheets week_replacement
  = Ok [ {| filename := "xl/workbook.xml"; data := utf8 "<workbook/>" |};
         {| filename := "xl/worksheets/sheet1.xml"; data := utf8 "<worksheet>fake</worksheet>" |};
         {| filename := "xl/worksheets/sheet2.xml"; data := utf8 "<worksheet>brands</worksheet>" |};
         {| filename := "xl/worksheets/sheet3.xml"; data := utf8 "<worksheet>categories</worksheet>" |};
         {| filename := "xl/worksheets/sheet4.xml"; data := utf8 "<worksheet>source</worksheet>" |} ].
Proof. vm_compute. reflexivity. Qed.

(** Without the invariant that names are unique the bytes of a copied
    member are those of the last member of that name. *)
Example copy_pass_duplicate_names :
  copy_pass (fun name => name) ∅
    [ {| filename := "a"; data := utf8 "1" |}; {| filename := "a"; data := utf8 "2" |} ] ∅
  = Ok [ {| filename := "a"; data := utf8 "2" |}; {| filename := "a"; data := utf8 "2" |} ].
Proof. vm_compute. reflexivity. Qed.

(** ** Year from the [Time] text *)

Lemma rstrip_not_space (s : string) :
  all_chars not_space s = true -> Py.rstrip s = s.
Proof.
  induction s as [|c s IH]; cbn [all_chars Py.rstrip]; [reflexivity|].
  intros Hs. apply andb_true_iff in Hs as [Hc Hs]. rewrite (IH Hs).
  unfold not_space in Hc. apply negb_true_iff in Hc. rewrite Hc.
  now destruct s.
Qed.

Lemma rstrip_app (a b : string) :
  b <> "" -> Py.rstrip b = b -> Py.rstrip (a +:+ b) = a +:+ b.
Proof.
  intros Hne Hb. induction a as [|x a IH]; cbn; [exact Hb|].
  rewrite IH. destruct (a +:+ b) eqn:Hab; [|reflexivity].
  destruct a; cbn in Hab; congruence.
Qed.

Lemma split_ws_from_not_space (w : string) :
  all_chars not_space w = true ->
  forall cur, cur +:+ w <> "" -> Py.split_ws_from cur w = [cur +:+ w].
Proof.
  induction w as [|c w IH]; cbn [all_chars Py.split_ws_from]; intros Hw cur Hne.
  - rewrite append_nil_r in *. now destruct cur.
  - apply andb_true_iff in Hw as [Hc Hw].
    unfold not_space in Hc. apply negb_true_iff in Hc. rewrite Hc.
    rewrite IH; [| exact Hw |].
    + now rewrite append_assoc.
    + destruct cur; cbn; congruence.
Qed.

(** The last piece of a split is the last piece of what follows any
    separator. *)
Lemma split_from_last_app (sep : ascii) (a b : string) :
  forall cur,
    List.last (Py.split_from sep cur (a +:+ String sep b)) ""
    = List.last (Py.split_from sep "" b) "".
Proof.
  induction a as [|x a IH]; intros cur; cbn [String.append Py.split_from].
  - rewrite Ascii.eqb_refl.
    destruct (split_from_cons sep b "") as (y & ys & ->). reflexivity.
  - destruct (Ascii.eqb x sep); [|apply IH].
    rewrite <- (IH ""). 
    destruct (split_from_cons sep (a +:+ String sep b) "") as (y & ys & ->).
    reflexivity.
Qed.

Lemma digit_not_space_dash (c : ascii) :
  Py.is_digit c = true -> not_space c = true /\ Ascii.eqb c "-" = false.
Proof.
  destruct c as [[] [] [] [] [] [] [] []]; intros H; try discriminate H;
    split; reflexivity.
Qed.

Lemma digits_not_space (s : string) :
  all_chars Py.is_digit s = true -> all_chars not_space s = true.
Proof.
  induction s as [|c s IH]; cbn [all_chars]; [reflexivity|].
  intros Hs. apply andb_true_iff in Hs as [Hc Hs].
  destruct (digit_not_space_dash c Hc) as [-> _]. now apply IH.
Qed.

(** The rule of [data_quality.py]: for a text [Week Ending MM-DD-YY]
    whose month, day and two-digit year are written in decimal digits,
    the year taken from the text is [2000 + yy] when [yy < 50] and
    [1900 + yy] otherwise. *)
Lemma year_from_time_pivot_50 (mm dd : string) (d1 d2 : ascii) :
  all_chars Py.is_digit mm = true ->
  all_chars Py.is_digit dd = true ->
  Py.is_digit d1 = true ->
  Py.is_digit d2 = true ->
  let yy := 10 * digit d1 + digit d2 in
  DataQuality.year_from_time
    ("Week Ending " +:+ mm +:+ "-" +:+ dd +:+ "-" +:+ String d1 (String d2 ""))
  = Some (if yy <? 50 then 2000 + yy else 1900 + yy).
Proof.
  intros Hmm Hdd Hd1 Hd2 yy.
  set (year := String d1 (String d2 "")).
  set (date := mm +:+ "-" +:+ dd +:+ "-" +:+ year).
  destruct (digit_not_space_dash d1 Hd1) as [Hs1 Hm1].
  destruct (digit_not_space_dash d2 Hd2) as [Hs2 Hm2].
  assert (Hdate : all_chars not_space date = true).
  { unfold date, year. rewrite !all_chars_app.
    rewrite (digits_not_space mm Hmm), (digits_not_space dd Hdd).
    cbn. now rewrite Hs1, Hs2. }
  assert (Hne : date <> "").
  { unfold date. destruct mm; cbn; congruence. }
  unfold DataQuality.year_from_time.
  assert (Hstrip : Py.strip ("Week Ending " +:+ date) = "Week Ending " +:+ date).
  { unfold Py.strip. cbn [String.append Py.lstrip].
    change (Py.isspace "W") with false. cbn iota.
    apply (rstrip_app "Week Ending " date Hne), rstrip_not_space, Hdate. }
  rewrite Hstrip.
  assert (Hsplit : Py.split_ws ("Week Ending " +:+ date) = ["Week"; "Ending"; date]).
  { unfold Py.split_ws. cbn.
    now rewrite (split_ws_from_not_space date Hdate "" Hne). }
  rewrite Hsplit. cbn [rev app List.find].
  assert (Hdash : Py.contains "-" date = true).
  { unfold date. rewrite contains_app. cbn. apply orb_true_r. }
  rewrite Hdash.
  assert (Hlast : List.last (Py.split "-" date) "" = year).
  { unfold Py.split, date. cbn [String.append].
    rewrite !split_from_last_app. unfold year. cbn. now rewrite Hm1, Hm2. }
  rewrite Hlast. unfold year.
  rewrite int_of_str_digits; [| congruence | cbn; now rewrite Hd1, Hd2 | cbn; lia].
  cbn [list_ascii_of_string fold_left]. unfold yy, digit.
  replace ((0 * 10 + (Py.ord d1 - 48)) * 10 + (Py.ord d2 - 48))
    with (10 * (Py.ord d1 - 48) + (Py.ord d2 - 48)) by lia.
  reflexivity.
Qed.

Lemma year_from_time_pivot_50_witness :
  DataQuality.year_from_time
    ("Week Ending " +:+ "01" +:+ "-" +:+ "05" +:+ "-" +:+ String "5" (String "5" ""))
  = Some (if 10 * digit "5" + digit "5" <? 50
          then 2000 + (10 * digit "5" + digit "5")
          else 1900 + (10 * digit "5" + digit "5")).
Proof. apply (year_from_time_pivot_50 "01" "05" "5" "5"); reflexivity. Defined.

Example year_from_time_boundary :
  DataQuality.year_from_time "Week Ending 12-28-49" = Some 2049
  /\ DataQuality.year_from_time "Week Ending 01-01-50" = Some 1950
  /\ DataQuality.year_from_time "Week Ending 01-05-55" = Some 1955.
Proof. repeat split; reflexivity. Qed.

(** ** The two readings of the year *)

Lemma split_from_no_sep (sep : ascii) (w : string) :
  Py.contains sep w = false -> forall cur, Py.split_from sep cur w = [cur +:+ w].
Proof.
  induction w as [|c w IH]; cbn [Py.contains Py.split_from]; intros Hw cur.
  - now rewrite append_nil_r.
  - apply orb_false_iff in Hw as [Hc Hw]. rewrite Hc, IH by exact Hw.
    now rewrite append_assoc.
Qed.

Lemma replace_str_no_first (c0 : ascii) (old new : string) (s : string) :
  Py.contains c0 s = false ->
  Py.replace_str_from 0 (String c0 old) new s = s.
Proof.
  induction s as [|c s IH]; [reflexivity|].
  cbn [Py.contains Py.replace_str_from String.prefix]. intros H.
  apply orb_false_iff in H as [Hc Hs].
  destruct (ascii_dec c0 c) as [->|_]; [now rewrite Ascii.eqb_refl in Hc|].
  now rewrite (IH Hs).
Qed.

Lemma prefix_app (p t : string) : String.prefix p (p +:+ t) = true.
Proof.
  induction p as [|c p IH]; cbn [String.append String.prefix]; [now destruct t|].
  destruct (ascii_dec c c); [exact IH | congruence].
Qed.

Lemma replace_str_skip (old new a t : string) :
  Py.replace_str_from (String.length a) old new (a +:+ t)
  = Py.replace_str_from 0 old new t.
Proof.
  induction a as [|c a IH]; cbn [String.length String.append]; [reflexivity|].
  cbn [Py.replace_str_from]. exact IH.
Qed.

(** Taking [Week Ending] off a text that starts with it and holds no
    other capital W leaves the rest. *)
Lemma replace_week_ending (t : string) :
  Py.contains "W" t = false ->
  Py.replace_str "Week Ending" "" ("Week Ending" +:+ t) = t.
Proof.
  intros Ht. unfold Py.replace_str.
  change ("Week Ending" +:+ t) with (String "W" ("eek Ending" +:+ t)).
  cbn [Py.replace_str_from].
  change (String "W" ("eek Ending" +:+ t)) with ("Week Ending" +:+ t).
  rewrite prefix_app.
  change (String.length "Week Ending" - 1)%nat with (String.length "eek Ending").
  rewrite replace_str_skip. cbn [String.append].
  now apply replace_str_no_first.
Qed.

Lemma split_from_app (sep : ascii) (a b : string) :
  Py.contains sep a = false ->
  forall cur,
    Py.split_from sep cur (a +:+ String sep b) = (cur +:+ a) :: Py.split_from sep "" b.
Proof.
  intros Ha. induction a as [|x a IH]; intros cur; cbn [String.append Py.split_from].
  - now rewrite Ascii.eqb_refl, append_nil_r.
  - cbn [Py.contains] in Ha. apply orb_false_iff in Ha as [Hx Ha].
    rewrite Hx, IH by exact Ha. now rewrite append_assoc.
Qed.

Lemma digits_no_char (c0 : ascii) (s : string) :
  Py.is_digit c0 = false ->
  all_chars Py.is_digit s = true -> Py.contains c0 s = false.
Proof.
  intros Hc0. induction s as [|c s IH]; cbn [all_chars Py.contains]; [reflexivity|].
  intros Hs. apply andb_true_iff in Hs as [Hc Hs]. rewrite (IH Hs), orb_false_r.
  apply Ascii.eqb_neq. intros ->. congruence.
Qed.

Lemma field_number_range (lo hi : Z) (s : string) (v : Z) :
  TransformarWeeks.field_number lo hi s = Some v -> lo <= v <= hi.
Proof.
  unfold TransformarWeeks.field_number.
  destruct (all_chars Py.is_digit s && _); cbn [andb]; [|discriminate].
  destruct (Z.leb_spec lo (TransformarWeeks.number s)); cbn [andb]; [|discriminate].
  destruct (Z.leb_spec (TransformarWeeks.number s) hi); [|discriminate].
  intros [= <-]. lia.
Qed.

Lemma field_d_range (s : string) (v : Z) :
  TransformarWeeks.field_d s = Some v -> 1 <= v <= 31.
Proof.
  unfold TransformarWeeks.field_d. intros H.
  assert (Hcases : TransformarWeeks.field_number 1 31 s = Some v
                   \/ exists t, TransformarWeeks.field_number 1 9 t = Some v).
  { repeat case_match; eauto. }
  destruct Hcases as [H1|[t H9]].
  - exact (field_number_range _ _ _ _ H1).
  - pose proof (field_number_range _ _ _ _ H9). lia.
Qed.

Lemma digit_range (c : ascii) : Py.is_digit c = true -> 0 <= digit c <= 9.
Proof.
  unfold Py.is_digit, digit. intros H. apply andb_true_iff in H as [H1 H2].
  apply Z.leb_le in H1, H2. lia.
Qed.

(** The text that [parse_time_to_datetime] hands to [to_datetime]. *)
Lemma date_part_week_ending (date : string) :
  date <> "" -> all_chars not_space date = true -> Py.contains "W" date = false ->
  Py.strip (Py.replace_str "Week Ending" "" ("Week Ending " +:+ date)) = date.
Proof.
  intros Hne Hns HW.
  change ("Week Ending " +:+ date) with ("Week Ending" +:+ String " " date).
  rewrite replace_week_ending by (cbn [Py.contains]; exact HW).
  unfold Py.strip. cbn [Py.lstrip]. change (Py.isspace " ") with true. cbv iota.
  destruct date as [|c date]; [congruence|].
  cbn [all_chars] in Hns. pose proof Hns as Hns'.
  apply andb_true_iff in Hns as [Hc _]. unfold not_space in Hc.
  apply negb_true_iff in Hc. cbn [Py.lstrip]. rewrite Hc.
  now apply rstrip_not_space.
Qed.

Section YearOfText.

Variables (mm dd : string) (d1 d2 : ascii).
Hypothesis mm_digits : all_chars Py.is_digit mm = true.
Hypothesis dd_digits : all_chars Py.is_digit dd = true.
Hypothesis d1_digit : Py.is_digit d1 = true.
Hypothesis d2_digit : Py.is_digit d2 = true.

Abbreviation yy := (10 * digit d1 + digit d2).
Abbreviation time_text :=
  ("Week Ending " +:+ mm +:+ "-" +:+ dd +:+ "-" +:+ String d1 (String d2 "")).

(** What [parse_time_to_datetime] makes of the text, in terms of its
    fields. *)
Lemma parse_time_to_datetime_fields :
  TransformarWeeks.parse_time_to_datetime (Some time_text)
  = match TransformarWeeks.field_m mm, TransformarWeeks.field_d dd with
    | Some m, Some d =>
        Datetime.make (if yy <=? 68 then 2000 + yy else 1900 + yy) m d
    | _, _ => None
    end.
Proof.
  set (year_ := String d1 (String d2 "")).
  set (date := mm +:+ "-" +:+ dd +:+ "-" +:+ year_).
  assert (Hyear : all_chars Py.is_digit year_ = true).
  { unfold year_. cbn. now rewrite d1_digit, d2_digit. }
  assert (Hns : all_chars not_space date = true).
  { unfold date. rewrite !all_chars_app.
    now rewrite (digits_not_space mm mm_digits), (digits_not_space dd dd_digits),
      (digits_not_space year_ Hyear). }
  assert (HW : Py.contains "W" date = false).
  { unfold date. rewrite !contains_app.
    now rewrite (digits_no_char "W" mm eq_refl mm_digits),
      (digits_no_char "W" dd eq_refl dd_digits),
      (digits_no_char "W" year_ eq_refl Hyear). }
  assert (Hne : date <> "").
  { unfold date. destruct mm; discriminate. }
  unfold TransformarWeeks.parse_time_to_datetime.
  fold year_. change ("Week Ending " +:+ mm +:+ "-" +:+ dd +:+ "-" +:+ year_)
    with ("Week Ending " +:+ date).
  rewrite (date_part_week_ending date Hne Hns HW).
  unfold TransformarWeeks.to_datetime_mdy, Py.split, date.
  change (mm +:+ "-" +:+ dd +:+ "-" +:+ year_)
    with (mm +:+ String "-" (dd +:+ String "-" year_)).
  rewrite (split_from_app "-" mm _ (digits_no_char "-" mm eq_refl mm_digits)).
  rewrite (split_from_app "-" dd _ (digits_no_char "-" dd eq_refl dd_digits)).
  rewrite (split_from_no_sep "-" year_ (digits_no_char "-" year_ eq_refl Hyear)).
  cbn [String.append].
  assert (Hy : TransformarWeeks.field_y year_
               = Some (if yy <=? 68 then 2000 + yy else 1900 + yy)).
  { unfold TransformarWeeks.field_y. rewrite Hyear. unfold year_.
    cbn [String.length Nat.eqb andb].
    replace (TransformarWeeks.number (String d1 (String d2 ""))) with yy
      by (unfold TransformarWeeks.number, digit; cbn; lia).
    reflexivity. }
  rewrite Hy.
  destruct (TransformarWeeks.field_m mm), (TransformarWeeks.field_d dd); reflexivity.
Qed.

End YearOfText.

(** C9, as the code has it. For a text [Week Ending MM-DD-YY] whose month,
    day and two-digit year are written in decimal digits, the two scripts
    read the year with different pivots.  The rule of [data_quality.py]
    that compares Year and Time takes [2000 + yy] when [yy < 50] and
    [1900 + yy] otherwise.  [parse_time_to_datetime] of
    [transformar_weeks.py] hands the year to the [%y] of pandas: whenever
    it gives a date the year is [2000 + yy] for [yy <= 68] and [1900 + yy]
    otherwise, and it gives a date whenever the month and the day make
    one in that year. *)
Theorem year_of_text_two_pivots (mm dd : string) (d1 d2 : ascii) :
  all_chars Py.is_digit mm = true ->
  all_chars Py.is_digit dd = true ->
  Py.is_digit d1 = true ->
  Py.is_digit d2 = true ->
  let yy := 10 * digit d1 + digit d2 in
  let text_ := "Week Ending " +:+ mm +:+ "-" +:+ dd +:+ "-" +:+ String d1 (String d2 "") in
  DataQuality.year_from_time text_ = Some (if yy <? 50 then 2000 + yy else 1900 + yy)
  /\ (forall date,
        TransformarWeeks.parse_time_to_datetime (Some text_) = Some date ->
        Datetime.year date = if yy <=? 68 then 2000 + yy else 1900 + yy)
  /\ (forall m d,
        TransformarWeeks.field_m mm = Some m ->
        TransformarWeeks.field_d dd = Some d ->
        d <= Datetime.days_in_month (if yy <=? 68 then 2000 + yy else 1900 + yy) m ->
        TransformarWeeks.parse_time_to_datetime (Some text_)
        = Some {| Datetime.year := if yy <=? 68 then 2000 + yy else 1900 + yy;
                  Datetime.month := m; Datetime.day := d |}).
Proof.
  intros Hmm Hdd Hd1 Hd2 yy text_.
  split; [exact (year_from_time_pivot_50 mm dd d1 d2 Hmm Hdd Hd1 Hd2)|].
  assert (Hfields :
            TransformarWeeks.parse_time_to_datetime (Some text_)
            = match TransformarWeeks.field_m mm, TransformarWeeks.field_d dd with
              | Some m, Some d =>
                  Datetime.make (if yy <=? 68 then 2000 + yy else 1900 + yy) m d
              | _, _ => None
              end)
    by exact (parse_time_to_datetime_fields mm dd d1 d2 Hmm Hdd Hd1 Hd2).
  split.
  - intros date Hdate. rewrite Hfields in Hdate.
    destruct (TransformarWeeks.field_m mm) as [m|]; [|discriminate].
    destruct (TransformarWeeks.field_d dd) as [d|]; [|discriminate].
    unfold Datetime.make in Hdate.
    destruct (_ && _) in Hdate; [|discriminate].
    now injection Hdate as <-.
  - intros m d Hm Hd Hday. rewrite Hfields, Hm, Hd.
    pose proof (field_number_range _ _ _ _ Hm) as Hmr.
    pose proof (field_d_range _ _ Hd) as Hdr.
    pose proof (digit_range d1 Hd1). pose proof (digit_range d2 Hd2).
    unfold Datetime.make.
    assert (Hy : 1969 <= (if yy <=? 68 then 2000 + yy else 1900 + yy) <= 2068).
    { unfold yy. destruct (Z.leb_spec (10 * digit d1 + digit d2) 68); lia. }
    destruct (Z.leb_spec 1 (if yy <=? 68 then 2000 + yy else 1900 + yy)); [|lia].
    destruct (Z.leb_spec (if yy <=? 68 then 2000 + yy else 1900 + yy) 9999); [|lia].
    destruct (Z.leb_spec 1 m); [|lia]. destruct (Z.leb_spec m 12); [|lia].
    destruct (Z.leb_spec 1 d); [|lia].
    destruct (Z.leb_spec d
                (Datetime.days_in_month (if yy <=? 68 then 2000 + yy else 1900 + yy) m));
      [reflexivity | lia].
Qed.

Lemma year_of_text_two_pivots_witness :
  let yy := 10 * digit "5" + digit "5" in
  let text_ := "Week Ending " +:+ "01" +:+ "-" +:+ "05" +:+ "-" +:+ String "5" (String "5" "") in
  DataQuality.year_from_time text_ = Some (if yy <? 50 then 2000 + yy else 1900 + yy)
  /\ (forall date,
        TransformarWeeks.parse_time_to_datetime (Some text_) = Some date ->
        Datetime.year date = if yy <=? 68 then 2000 + yy else 1900 + yy)
  /\ (forall m d,
        TransformarWeeks.field_m "01" = Some m ->
        TransformarWeeks.field_d "05" = Some d ->
        d <= Datetime.days_in_month (if yy <=? 68 then 2000 + yy else 1900 + yy) m ->
        TransformarWeeks.parse_time_to_datetime (Some text_)
        = Some {| Datetime.year := if yy <=? 68 then 2000 + yy else 1900 + yy;
                  Datetime.month := m; Datetime.day := d |}).
Proof. apply (year_of_text_two_pivots "01" "05" "5" "5"); reflexivity. Defined.

(** C9, as stated, fails on the function it points to: the year 55 is
    1955 for the rule of [data_quality.py] and 2055 for
    [parse_time_to_datetime]; the two agree below 50 and from 69 on. *)
Lemma parse_time_to_datetime_pivot_69 :
  TransformarWeeks.parse_time_to_datetime (Some "Week Ending 01-05-55")
  = Some {| Datetime.year := 2055; Datetime.month := 1; Datetime.day := 5 |}
  /\ DataQuality.year_from_time "Week Ending 01-05-55" = Some 1955
  /\ TransformarWeeks.parse_time_to_datetime (Some "Week Ending 12-31-68")
     = Some {| Datetime.year := 2068; Datetime.month := 12; Datetime.day := 31 |}
  /\ TransformarWeeks.parse_time_to_datetime (Some "Week Ending 01-01-69")
     = Some {| Datetime.year := 1969; Datetime.month := 1; Datetime.day := 1 |}
  /\ TransformarWeeks.parse_time_to_datetime (Some "Week Ending 01-05-25")
     = Some {| Datetime.year := 2025; Datetime.month := 1; Datetime.day := 5 |}.
Proof. repeat split; vm_compute; reflexivity. Qed.

Example parse_time_to_datetime_ex :
  TransformarWeeks.parse_time_to_datetime (Some "Week Ending 02-29-24")
  = Some {| Datetime.year := 2024; Datetime.month := 2; Datetime.day := 29 |}
  /\ TransformarWeeks.parse_time_to_datetime (Some "Week Ending 02-29-25") = None
  /\ TransformarWeeks.parse_time_to_datetime (Some "Week Ending 1-5-25")
     = Some {| Datetime.year := 2025; Datetime.month := 1; Datetime.day := 5 |}
  /\ TransformarWeeks.parse_time_to_datetime (Some "Week Ending 01-05-2025") = None
  /\ TransformarWeeks.parse_time_to_datetime (Some "Week Ending 13-05-25") = None
  /\ TransformarWeeks.parse_time_to_datetime (Some "01-05-25")
     = Some {| Datetime.year := 2025; Datetime.month := 1; Datetime.day := 5 |}
  /\ TransformarWeeks.parse_time_to_datetime (Some "Week Ending") = None
  /\ TransformarWeeks.parse_time_to_datetime None = None.
Proof. repeat split; vm_compute; reflexivity. Qed.

(** * Further properties *)

(** ** Address arithmetic: the shape of the letters *)

Lemma is_upper_chr (r : Z) : 0 <= r < 26 -> Py.is_upper_AZ (Py.chr (65 + r)) = true.
Proof.
  intros Hr. unfold Py.is_upper_AZ. rewrite ord_chr by lia.
  apply andb_true_iff. split; apply Z.leb_le; lia.
Qed.

Lemma col_index_to_letter_loop_upper (fuel : nat) :
  forall (n : Z) (acc : string),
    0 <= n -> (Z.to_nat n <= fuel)%nat ->
    exists s,
      col_index_to_letter_loop fuel (n, acc) = Some (s +:+ acc)
      /\ all_chars Py.is_upper_AZ s = true
      /\ (s = "" <-> n = 0).
Proof.
  induction fuel as [|fuel IH]; intros n acc Hn Hfuel.
  - assert (n = 0) as -> by lia. exists "". repeat split; reflexivity.
  - destruct (Z.eq_dec n 0) as [->|Hne].
    + exists "". repeat split; reflexivity.
    + destruct (col_index_to_letter_step_pos n acc) as (q & r & Hstep & Hq & Hr & Hdec);
        [lia|].
      destruct (IH q (String (Py.chr (65 + r)) acc)) as (s & Hloop & Hup & _); [lia|lia|].
      exists (s +:+ String (Py.chr (65 + r)) ""). repeat split.
      * cbn [col_index_to_letter_loop]. rewrite Hstep, Hloop.
        now rewrite append_assoc.
      * rewrite all_chars_app, Hup. cbn. now rewrite is_upper_chr.
      * intros Hs. destruct s; discriminate Hs.
      * intros ->. congruence.
Qed.

(** The encoder writes capital letters only: for every [n >= 0] its result
    is a string of the letters A to Z, empty exactly when [n = 0]. *)
Theorem col_index_to_letter_capital_letters (n : Z) :
  0 <= n ->
  exists s, col_index_to_letter n = Some s
            /\ all_chars Py.is_upper_AZ s = true
            /\ (s = "" <-> n = 0).
Proof.
  intros Hn. unfold col_index_to_letter.
  destruct (col_index_to_letter_loop_upper (Z.to_nat n) n "") as (s & Hloop & Hup & Hs);
    [lia|lia|].
  exists s. rewrite append_nil_r in Hloop. auto.
Qed.

Lemma col_index_to_letter_capital_letters_witness :
  exists s, col_index_to_letter 731 = Some s
            /\ all_chars Py.is_upper_AZ s = true
            /\ (s = "" <-> 731 = 0).
Proof. apply (col_index_to_letter_capital_letters 731). lia. Defined.

(** Different column numbers never get the same letters. *)
Theorem col_index_to_letter_injective (n m : Z) (s : string) :
  0 <= n -> 0 <= m ->
  col_index_to_letter n = Some s -> col_index_to_letter m = Some s ->
  n = m.
Proof.
  intros Hn Hm Hns Hms.
  assert (Hval : forall k, 0 <= k -> col_index_to_letter k = Some s ->
                           col_letter_to_index s = Ok k).
  { intros k Hk Hks. destruct (Z.eq_dec k 0) as [->|Hne].
    - cbv in Hks. injection Hks as <-. reflexivity.
    - destruct (col_round_trip_all k) as (s' & Hs' & Hback); [lia|]. congruence. }
  pose proof (Hval n Hn Hns) as H1. pose proof (Hval m Hm Hms) as H2. congruence.
Qed.

Lemma col_index_to_letter_injective_witness :
  col_index_to_letter 28 = Some "AB" /\ 28 = 28.
Proof.
  split; [reflexivity|].
  apply (col_index_to_letter_injective 28 28 "AB"); [lia | lia | reflexivity | reflexivity].
Defined.

(** ** Address arithmetic: from letters back to letters *)

Lemma string_of_list_ascii_app (l : list ascii) (c : ascii) :
  string_of_list_ascii (l ++ [c]) = string_of_list_ascii l +:+ String c "".
Proof. induction l as [|x l IH]; cbn; [reflexivity | now rewrite IH]. Qed.

Lemma string_rev_ind (P : string -> Prop) :
  P "" -> (forall s c, P s -> P (s +:+ String c "")) -> forall s, P s.
Proof.
  intros Hnil Hsnoc s. rewrite <- (string_of_list_ascii_of_string s).
  induction (list_ascii_of_string s) as [|c l IH] using rev_ind; [exact Hnil|].
  rewrite string_of_list_ascii_app. now apply Hsnoc.
Qed.

Lemma letters_value_from_app (s : string) (c : ascii) :
  forall acc,
    letters_value_from acc (s +:+ String c "")
    = letters_value_from acc s * 26 + (Py.ord c - 64).
Proof. induction s as [|x s IH]; intros acc; cbn; [reflexivity | apply IH]. Qed.

Lemma letters_value_from_nonneg (s : string) :
  all_chars Py.is_upper_AZ s = true ->
  forall acc, 0 <= acc -> 0 <= letters_value_from acc s.
Proof.
  induction s as [|x s IH]; cbn [all_chars letters_value_from]; intros Hs acc Hacc;
    [exact Hacc|].
  apply andb_true_iff in Hs as [Hx Hs]. apply IH; [exact Hs|].
  unfold Py.is_upper_AZ in Hx. apply andb_true_iff in Hx as [Hlo _].
  apply Z.leb_le in Hlo. lia.
Qed.

Lemma col_index_to_letter_loop_letters (s : string) :
  all_chars Py.is_upper_AZ s = true ->
  forall acc fuel,
    (Z.to_nat (letters_value s) <= fuel)%nat ->
    col_index_to_letter_loop fuel (letters_value s, acc) = Some (s +:+ acc).
Proof.
  induction s as [|s c IH] using string_rev_ind; intros Hs acc fuel Hfuel.
  - destruct fuel; reflexivity.
  - rewrite all_chars_app in Hs. apply andb_true_iff in Hs as [Hs Hc].
    cbn [all_chars] in Hc. rewrite andb_true_r in Hc.
    pose proof (letters_value_from_nonneg s Hs 0 (Z.le_refl 0)) as Hv.
    fold (letters_value s) in Hv.
    unfold letters_value in Hfuel |- *. rewrite letters_value_from_app in Hfuel |- *.
    fold (letters_value s) in Hfuel |- *.
    unfold Py.is_upper_AZ in Hc. apply andb_true_iff in Hc as [Hlo Hhi].
    apply Z.leb_le in Hlo, Hhi.
    set (n := letters_value s * 26 + (Py.ord c - 64)) in *.
    destruct (col_index_to_letter_step_pos n acc) as (q & r & Hstep & Hq & Hr & Hdec);
      [unfold n; lia|].
    assert (q = letters_value s /\ r = Py.ord c - 65) as [-> ->] by (unfold n in Hdec; lia).
    destruct fuel as [|fuel]; [unfold n in Hfuel; lia|].
    cbn [col_index_to_letter_loop]. rewrite Hstep.
    replace (65 + (Py.ord c - 65)) with (Py.ord c) by lia. rewrite chr_ord.
    rewrite IH; [now rewrite append_assoc | exact Hs | unfold n in Hfuel; lia].
Qed.

(** The other round trip: a string of capital letters decodes to a column
    number, and that number encodes to the same string. *)
Theorem col_letters_round_trip (s : string) :
  all_chars Py.is_upper_AZ s = true ->
  exists n, col_letter_to_index s = Ok n /\ col_index_to_letter n = Some s.
Proof.
  intros Hs. exists (letters_value s). split.
  - unfold col_letter_to_index, letters_value.
    now apply col_letter_to_index_loop_letters.
  - unfold col_index_to_letter.
    rewrite col_index_to_letter_loop_letters; [now rewrite append_nil_r | exact Hs | lia].
Qed.

Lemma col_letters_round_trip_witness :
  exists n, col_letter_to_index "XFD" = Ok n /\ col_index_to_letter n = Some "XFD".
Proof. apply (col_letters_round_trip "XFD"). reflexivity. Defined.

(** ** Address arithmetic: how many letters *)

(** The number of letters [k] written for [n] is fixed by
    [26^k <= 25 n + 1] and [25 n + 26 <= 26^(k+1)]. *)
Lemma col_index_to_letter_loop_length (fuel : nat) :
  forall (n : Z) (acc : string),
    0 <= n -> (Z.to_nat n <= fuel)%nat ->
    exists s,
      col_index_to_letter_loop fuel (n, acc) = Some (s +:+ acc)
      /\ 26 ^ Z.of_nat (String.length s) <= 25 * n + 1
      /\ 25 * n + 26 <= 26 ^ (Z.of_nat (String.length s) + 1).
Proof.
  induction fuel as [|fuel IH]; intros n acc Hn Hfuel.
  - assert (n = 0) as -> by lia. exists "". repeat split; cbn; lia.
  - destruct (Z.eq_dec n 0) as [->|Hne].
    + exists "". repeat split; cbn; lia.
    + destruct (col_index_to_letter_step_pos n acc) as (q & r & Hstep & Hq & Hr & Hdec);
        [lia|].
      destruct (IH q (String (Py.chr (65 + r)) acc)) as (s & Hloop & Hlo & Hhi); [lia|lia|].
      exists (s +:+ String (Py.chr (65 + r)) "").
      assert (Hlen : Z.of_nat (String.length (s +:+ String (Py.chr (65 + r)) ""))
                     = Z.of_nat (String.length s) + 1).
      { clear. induction s as [|x s IHs]; cbn [String.append String.length] in *; lia. }
      rewrite Hlen. repeat split.
      * cbn [col_index_to_letter_loop]. rewrite Hstep, Hloop.
        now rewrite append_assoc.
      * rewrite Z.pow_add_r by lia. change (26 ^ 1) with 26. lia.
      * rewrite (Z.pow_add_r 26 (Z.of_nat (String.length s) + 1) 1) by lia.
        change (26 ^ 1) with 26. lia.
Qed.

(** Columns 1 to 26 get one letter, 27 to 702 two, 703 to 18278 three,
    and every column from 18279 on at least four. *)
Theorem col_index_to_letter_length (n : Z) :
  1 <= n ->
  exists s,
    col_index_to_letter n = Some s
    /\ (n <= 26 -> String.length s = 1%nat)
    /\ (27 <= n <= 702 -> String.length s = 2%nat)
    /\ (703 <= n <= 18278 -> String.length s = 3%nat)
    /\ (18279 <= n -> (4 <= String.length s)%nat).
Proof.
  intros Hn. unfold col_index_to_letter.
  destruct (col_index_to_letter_loop_length (Z.to_nat n) n "") as (s & Hloop & Hlo & Hhi);
    [lia|lia|].
  exists s. rewrite append_nil_r in Hloop. split; [exact Hloop|].
  assert (Hbig : forall k : nat, (4 <= k)%nat -> 26 ^ 4 <= 26 ^ Z.of_nat k).
  { intros k Hk. apply Z.pow_le_mono_r; lia. }
  destruct (String.length s) as [|[|[|[|k]]]] eqn:Hlen.
  - cbn in Hhi. lia.
  - change (26 ^ Z.of_nat 1) with 26 in Hlo. change (26 ^ (Z.of_nat 1 + 1)) with 676 in Hhi.
    repeat split; intros; lia.
  - change (26 ^ Z.of_nat 2) with 676 in Hlo.
    change (26 ^ (Z.of_nat 2 + 1)) with 17576 in Hhi.
    repeat split; intros; lia.
  - change (26 ^ Z.of_nat 3) with 17576 in Hlo.
    change (26 ^ (Z.of_nat 3 + 1)) with 456976 in Hhi.
    repeat split; intros; lia.
  - specialize (Hbig (S (S (S (S k)))) ltac:(lia)).
    change (26 ^ 4) with 456976 in Hbig.
    repeat split; intros; lia.
Qed.

Lemma col_index_to_letter_length_witness :
  exists s,
    col_index_to_letter 18278 = Some s
    /\ (18278 <= 26 -> String.length s = 1%nat)
    /\ (27 <= 18278 <= 702 -> String.length s = 2%nat)
    /\ (703 <= 18278 <= 18278 -> String.length s = 3%nat)
    /\ (18279 <= 18278 -> (4 <= String.length s)%nat).
Proof. apply (col_index_to_letter_length 18278). lia. Defined.

(** ** Cell decoder: the three storage forms *)

(** A shared-string cell whose index is inside the table decodes to the
    table entry at that index. *)
Theorem decode_cell_shared_lookup (cell v : Element) (shared_strings : list string)
    (idx : Z) (s : string) :
  attrib cell !! "t" = Some "s" ->
  ET.find cell (main "v") = Some v ->
  Py.int_of_text (text v) = Ok idx ->
  0 <= idx ->
  nth_error shared_strings (Z.to_nat idx) = Some s ->
  decode_cell cell shared_strings = Ok s.
Proof.
  intros Ht Hv Hidx Hpos Hlook. unfold decode_cell. rewrite Ht, Hv.
  rewrite bool_decide_eq_true_2 by reflexivity. rewrite Hidx. cbn [mbind result_bind].
  assert (Hlt : (Z.to_nat idx < length shared_strings)%nat).
  { apply nth_error_Some. congruence. }
  unfold Py.index, Py.len.
  destruct (Z.ltb_spec idx (Z.of_nat (length shared_strings))); [|lia].
  destruct (Z.ltb_spec idx 0); [lia|].
  destruct (Z.leb_spec 0 idx); [|lia]. cbn [andb].
  destruct (Z.ltb_spec idx (Z.of_nat (length shared_strings))); [|lia].
  now rewrite Hlook.
Qed.

Lemma decode_cell_shared_lookup_witness :
  decode_cell (shared_cell "B1" "1") ["alpha"; "omega"] = Ok "omega".
Proof.
  apply (decode_cell_shared_lookup (shared_cell "B1" "1")
           (Elem (main "v") ∅ (Some "1") []) ["alpha"; "omega"] 1 "omega");
    [reflexivity | reflexivity | reflexivity | lia | reflexivity].
Defined.

(** A cell that is not of the shared-string form always decodes, and to
    the same text whatever the shared-string table is. *)
Theorem decode_cell_not_shared (cell : Element) (shared_strings other : list string) :
  attrib cell !! "t" <> Some "s" ->
  (exists s, decode_cell cell shared_strings = Ok s)
  /\ decode_cell cell shared_strings = decode_cell cell other.
Proof.
  intros Ht. unfold decode_cell.
  rewrite bool_decide_eq_false_2 by exact Ht.
  destruct (bool_decide (attrib cell !! "t" = Some "inlineStr")).
  - destruct (ET.find_below cell (main "t")); eauto.
  - destruct (ET.find cell (main "v")); eauto.
Qed.

Lemma decode_cell_not_shared_witness :
  (exists s, decode_cell (inline_cell "A1" "Time") [] = Ok s)
  /\ decode_cell (inline_cell "A1" "Time") [] = decode_cell (inline_cell "A1" "Time") ["x"].
Proof. apply (decode_cell_not_shared (inline_cell "A1" "Time") [] ["x"]). discriminate. Defined.

Lemma int_of_str_raises (s : string) (e : exn) :
  Py.int_of_str s = Raise e -> e = ValueError.
Proof.
  assert (Hu : forall t e', Py.int_unsigned t = Raise e' -> e' = ValueError).
  { intros t e'. unfold Py.int_unsigned.
    destruct t as [|c t]; [congruence|].
    destruct (Py.digit_value c); [|congruence].
    destruct (Py.int_digits z t) as [[n rest]|]; [|congruence].
    destruct (Py.skip_int_space rest); [|congruence].
    destruct (Py.int_max_str_digits <? Py.count_digits (String c t)); congruence. }
  unfold Py.int_of_str. destruct (Py.skip_int_space s) as [|c t]; [congruence|].
  destruct (Ascii.eqb c "-").
  - destruct (Py.int_unsigned t) as [n|e'] eqn:Hn; cbn; [congruence|].
    intros [= <-]. eauto.
  - destruct (Ascii.eqb c "+"); apply Hu.
Qed.

(** A shared-string cell without a value node decodes to the empty text,
    but one whose value node is empty raises [TypeError], and one whose
    value is not an integer raises [ValueError]. *)
Theorem decode_cell_shared_value_node (cell : Element) (shared_strings : list string) :
  attrib cell !! "t" = Some "s" ->
  (ET.find cell (main "v") = None -> decode_cell cell shared_strings = Ok "")
  /\ (forall v, ET.find cell (main "v") = Some v -> text v = None ->
                decode_cell cell shared_strings = Raise TypeError)
  /\ (forall v x e, ET.find cell (main "v") = Some v -> text v = Some x ->
                    Py.int_of_str x = Raise e ->
                    decode_cell cell shared_strings = Raise ValueError).
Proof.
  intros Ht. unfold decode_cell. rewrite Ht.
  rewrite bool_decide_eq_true_2 by reflexivity. repeat split.
  - intros ->. rewrite bool_decide_eq_false_2 by discriminate. reflexivity.
  - intros v -> Hx. now rewrite Hx.
  - intros v x e -> Hx Hraise. rewrite Hx. cbn [Py.int_of_text].
    rewrite Hraise. now rewrite (int_of_str_raises x e Hraise).
Qed.

Lemma decode_cell_shared_value_node_witness :
  decode_cell (Elem (main "c") {["t" := "s"]} None []) ["alpha"] = Ok ""
  /\ decode_cell (Elem (main "c") {["t" := "s"]} None [Elem (main "v") ∅ None []])
       ["alpha"] = Raise TypeError
  /\ decode_cell (shared_cell "A1" "one") ["alpha"] = Raise ValueError.
Proof.
  split; [|split].
  - apply (decode_cell_shared_value_node (Elem (main "c") {["t" := "s"]} None [])
             ["alpha"]); reflexivity.
  - destruct (decode_cell_shared_value_node
                (Elem (main "c") {["t" := "s"]} None [Elem (main "v") ∅ None []])
                ["alpha"]) as (_ & Hempty & _); [reflexivity|].
    apply (Hempty (Elem (main "v") ∅ None [])); reflexivity.
  - destruct (decode_cell_shared_value_node (shared_cell "A1" "one") ["alpha"])
      as (_ & _ & Htext); [reflexivity|].
    apply (Htext (Elem (main "v") ∅ (Some "one") []) "one" ValueError); reflexivity.
Defined.

(** ** Sheet metadata scanner: the extent of the sheet *)

(** Events that close no row only move the dimension reference. *)
Lemma scan_events_passed (shared_strings : list string)
    (evs : list (event_kind * Element)) :
  forallb (fun ev => negb (is_row_end ev)) evs = true ->
  forall st rest,
    scan_events shared_strings st (map Ok evs ++ rest)
    = scan_events shared_strings
        {| headers := headers st; max_row := max_row st;
           dimension_ref := last_dimension evs (dimension_ref st) |} rest.
Proof.
  induction evs as [|ev evs IH]; cbn [forallb]; intros Hq st rest.
  - cbn. now destruct st.
  - apply andb_true_iff in Hq as [Hev Hq]. apply negb_true_iff in Hev.
    cbn [map app scan_events last_dimension].
    assert (Hstep : scan_event shared_strings st ev
                    = Ok ({| headers := headers st; max_row := max_row st;
                             dimension_ref :=
                               if is_dimension_start ev then attrib (snd ev) !! "ref"
                               else dimension_ref st |}, false)).
    { destruct ev as [[|] e]; cbn [is_row_end is_dimension_start snd] in *;
        unfold scan_event.
      - destruct (String.eqb (local_name (tag e)) "dimension"); [reflexivity|].
        now destruct st.
      - rewrite Hev. now destruct st. }
    rewrite Hstep. cbn [mbind result_bind]. now rewrite IH.
Qed.

(** Closing the first row puts the texts of its cells, ordered by
    column, in the headers. *)
Lemma scan_event_header_row (shared_strings : list string) (st : scan) (row : Element) :
  local_name (tag row) = "row" ->
  match attrib row !! "r" with
  | Some r => Py.int_of_str r = Ok 1
  | None => headers st = []
  end ->
  forallb (decodes shared_strings) (ET.findall row (main "c")) = true ->
  exists cells,
    Permutation cells (ET.findall row (main "c"))
    /\ scan_event shared_strings st (End, row)
       = Ok ({| headers := map (text_of shared_strings) cells;
                max_row := Z.max (max_row st) 1;
                dimension_ref := dimension_ref st |}, false).
Proof.
  intros Hrow Hr Hdec.
  destruct (sorted_spec cell_column_key column_of_ref (ET.findall row (main "c"))
              cell_column_key_spec) as (cells & Hsorted & Hperm & _).
  exists cells. split; [exact Hperm|].
  unfold scan_event. rewrite Hrow. cbn [String.eqb Ascii.eqb Bool.eqb].
  assert (Hidx : match attrib row !! "r" with
                 | Some r => Py.int_of_str r
                 | None => Ok (Py.len (headers st) + 1)
                 end = Ok 1).
  { destruct (attrib row !! "r"); [exact Hr|]. now rewrite Hr. }
  rewrite Hidx. cbn [mbind result_bind Z.eqb Pos.eqb].
  rewrite Hsorted. cbn [mbind result_bind].
  rewrite (mapM_ok _ (text_of shared_strings)); [reflexivity|].
  eapply Permutation_Forall; [symmetry; exact Hperm|].
  apply List.Forall_forall. intros c Hc.
  rewrite forallb_forall in Hdec. specialize (Hdec c Hc).
  unfold decodes in Hdec. unfold text_of.
  destruct (decode_cell c shared_strings); [reflexivity | discriminate].
Qed.

(** Without a dimension reference the extent is the row count of the scan
    and the column of the last header, column A when there is no header. *)
Lemma sheet_extent_without_dimension (st : scan) :
  truthy (dimension_ref st) = false ->
  exists width,
    sheet_extent st = Ok (headers st, max_row st, width)
    /\ match headers st with
       | [] => width = "A"
       | _ => col_index_to_letter (Py.len (headers st)) = Some width
       end.
Proof.
  intros Hnone. unfold sheet_extent.
  assert (Hdim : match dimension_ref st with
                 | Some ref =>
                     if negb (truthy (Some ref)) then Ok (None, max_row st) else
                     end_ref ← (if Py.contains ":" ref then Py.index (Py.split ":" ref) 1
                                 else Ok ref);
                     match match_letters_digits end_ref with
                     | Some (g1, g2) => n ← Py.int_of_str g2; Ok (Some g1, n)
                     | None => Ok (None, max_row st)
                     end
                 | None => Ok (None, max_row st)
                 end = Ok (@None string, max_row st)).
  { destruct (dimension_ref st); [|reflexivity]. now rewrite Hnone. }
  rewrite Hdim. cbn [mbind result_bind truthy negb andb].
  destruct (headers st) as [|h hs] eqn:Hh.
  - exists "A". split; reflexivity.
  - destruct (col_index_to_letter_loop_upper (Z.to_nat (Py.len (h :: hs)))
                (Py.len (h :: hs)) "")
      as (s & Hs & _ & Hempty); [unfold Py.len; lia | lia |].
    rewrite append_nil_r in Hs. fold (col_index_to_letter (Py.len (h :: hs))) in Hs.
    exists s. cbn [is_nil negb]. rewrite Hs. cbn [mbind result_bind].
    split; [|reflexivity].
    destruct s as [|c s]; [|reflexivity].
    destruct Hempty as [Hempty _]. specialize (Hempty eq_refl).
    unfold Py.len in Hempty. cbn [length] in Hempty. lia.
Qed.

(** A sheet that closes no row and declares no dimension has the empty
    extent: no headers, one row, column A. *)
Theorem parse_sheet_meta_empty_sheet (shared_strings : list string)
    (evs : list (event_kind * Element)) :
  forallb plain evs = true ->
  parse_sheet_meta_events (map Ok evs) shared_strings = Ok ([], 1, "A").
Proof.
  intros Hplain. unfold parse_sheet_meta_events.
  assert (Hq : forallb (fun ev => negb (is_row_end ev)) evs = true).
  { rewrite forallb_forall in *. intros ev Hev. specialize (Hplain ev Hev).
    unfold plain in Hplain. now apply andb_true_iff in Hplain as [-> _]. }
  assert (Hd : forall d, last_dimension evs d = d).
  { clear Hq. induction evs as [|ev evs IH]; intros d; [reflexivity|].
    cbn [forallb last_dimension] in *. apply andb_true_iff in Hplain as [Hev Hrest].
    unfold plain in Hev. apply andb_true_iff in Hev as [_ Hev].
    apply negb_true_iff in Hev. rewrite Hev. now apply IH. }
  rewrite <- (app_nil_r (map Ok evs)), scan_events_passed by exact Hq.
  cbn [scan_events mbind result_bind headers max_row dimension_ref].
  rewrite Hd. reflexivity.
Qed.

Lemma parse_sheet_meta_empty_sheet_witness :
  parse_sheet_meta_events
    (map Ok [(Start, Elem (main "worksheet") ∅ None []);
             (Start, Elem (main "sheetData") ∅ None []);
             (End, Elem (main "sheetData") ∅ None []);
             (End, Elem (main "worksheet") ∅ None [])]) ["alpha"]
  = Ok ([], 1, "A").
Proof. apply parse_sheet_meta_empty_sheet. reflexivity. Defined.

Lemma last_dimension_plain (evs : list (event_kind * Element)) :
  forallb plain evs = true -> forall d, last_dimension evs d = d.
Proof.
  induction evs as [|ev evs IH]; intros Hplain d; [reflexivity|].
  cbn [forallb last_dimension] in *. apply andb_true_iff in Hplain as [Hev Hrest].
  unfold plain in Hev. apply andb_true_iff in Hev as [_ Hev].
  apply negb_true_iff in Hev. rewrite Hev. now apply IH.
Qed.

Lemma plain_closes_no_row (evs : list (event_kind * Element)) :
  forallb plain evs = true -> forallb (fun ev => negb (is_row_end ev)) evs = true.
Proof.
  intros Hplain. rewrite forallb_forall in *. intros ev Hev.
  specialize (Hplain ev Hev). unfold plain in Hplain.
  now apply andb_true_iff in Hplain as [-> _].
Qed.

(** The scan of a sheet up to its header row, the events after it that
    close no row, and then either the end of the stream or the end of a
    row numbered 2 or more, with whatever follows that row. *)
Lemma parse_sheet_meta_after_header (shared_strings : list string)
    (pre : list (event_kind * Element)) (row : Element)
    (mid : list (event_kind * Element)) :
  forallb (fun ev => negb (is_row_end ev)) pre = true ->
  local_name (tag row) = "row" ->
  match attrib row !! "r" with
  | Some r => Py.int_of_str r = Ok 1
  | None => True
  end ->
  forallb (decodes shared_strings) (ET.findall row (main "c")) = true ->
  forallb (fun ev => negb (is_row_end ev)) mid = true ->
  exists cells,
    Permutation cells (ET.findall row (main "c"))
    /\ parse_sheet_meta_events (map Ok pre ++ Ok (End, row) :: map Ok mid) shared_strings
       = sheet_extent {| headers := map (text_of shared_strings) cells; max_row := 1;
                         dimension_ref := last_dimension mid (last_dimension pre None) |}
    /\ forall row2 r n rest,
         local_name (tag row2) = "row" ->
         attrib row2 !! "r" = Some r -> Py.int_of_str r = Ok n -> 2 <= n ->
         parse_sheet_meta_events
           (map Ok pre ++ Ok (End, row) :: map Ok mid ++ Ok (End, row2) :: rest)
           shared_strings
         = sheet_extent {| headers := map (text_of shared_strings) cells; max_row := n;
                           dimension_ref := last_dimension mid (last_dimension pre None) |}.
Proof.
  intros Hpre Hrow Hr Hdec Hmid.
  set (st1 := {| headers := []; max_row := 1;
                 dimension_ref := last_dimension pre None |}).
  destruct (scan_event_header_row shared_strings st1 row Hrow) as (cells & Hperm & Hstep).
  { destruct (attrib row !! "r"); [exact Hr | reflexivity]. }
  { exact Hdec. }
  exists cells. split; [exact Hperm|]. split.
  - unfold parse_sheet_meta_events. rewrite scan_events_passed by exact Hpre.
    cbn [headers max_row dimension_ref]. fold st1.
    cbn [scan_events]. rewrite Hstep. cbn [mbind result_bind].
    rewrite <- (app_nil_r (map Ok mid)), scan_events_passed by exact Hmid.
    reflexivity.
  - intros row2 r n rest Hrow2 Hr2 Hn Hge.
    unfold parse_sheet_meta_events. rewrite scan_events_passed by exact Hpre.
    cbn [headers max_row dimension_ref]. fold st1.
    cbn [scan_events]. rewrite Hstep. cbn [mbind result_bind].
    rewrite scan_events_passed by exact Hmid.
    cbn [scan_events headers max_row dimension_ref st1].
    unfold scan_event. rewrite Hrow2. cbn [String.eqb Ascii.eqb Bool.eqb].
    rewrite Hr2, Hn. cbn [mbind result_bind headers max_row dimension_ref].
    destruct (Z.eqb_spec n 1) as [->|_]; [lia|]. cbn [mbind result_bind].
    destruct (Z.leb_spec 2 n); [|lia].
    replace (Z.max (Z.max 1 1) n) with n by lia. reflexivity.
Qed.

(** A sheet with a header row, no dimension declaration and no further
    row: the scanner returns the headers, one row, and the column letters
    of the number of headers (column A for a row without cells). *)
Theorem parse_sheet_meta_header_only (shared_strings : list string)
    (pre : list (event_kind * Element)) (row : Element)
    (mid : list (event_kind * Element)) :
  forallb plain pre = true ->
  local_name (tag row) = "row" ->
  match attrib row !! "r" with
  | Some r => Py.int_of_str r = Ok 1
  | None => True
  end ->
  forallb (decodes shared_strings) (ET.findall row (main "c")) = true ->
  forallb plain mid = true ->
  exists cells width,
    Permutation cells (ET.findall row (main "c"))
    /\ parse_sheet_meta_events (map Ok pre ++ Ok (End, row) :: map Ok mid) shared_strings
       = Ok (map (text_of shared_strings) cells, 1, width)
    /\ match ET.findall row (main "c") with
       | [] => width = "A"
       | cs => col_index_to_letter (Py.len cs) = Some width
       end.
Proof.
  intros Hpre Hrow Hr Hdec Hmid.
  destruct (parse_sheet_meta_after_header shared_strings pre row mid)
    as (cells & Hperm & Hres & _);
    [now apply plain_closes_no_row | exact Hrow | exact Hr | exact Hdec
    | now apply plain_closes_no_row |].
  rewrite (last_dimension_plain mid Hmid), (last_dimension_plain pre Hpre) in Hres.
  destruct (sheet_extent_without_dimension
              {| headers := map (text_of shared_strings) cells; max_row := 1;
                 dimension_ref := None |}) as (width & Hext & Hwidth); [reflexivity|].
  exists cells, width. split; [exact Hperm|]. split; [now rewrite Hres, Hext|].
  cbn [headers] in Hwidth. pose proof (Permutation_length Hperm) as Hlen.
  destruct (ET.findall row (main "c")) as [|c cs];
    destruct cells as [|x xs]; try discriminate Hlen; [exact Hwidth|].
  cbn [map] in Hwidth. unfold Py.len in *. cbn [length] in *.
  rewrite length_map in Hwidth. now rewrite <- Hlen.
Qed.

Lemma parse_sheet_meta_header_only_witness :
  exists cells width,
    Permutation cells (ET.findall unordered_row (main "c"))
    /\ parse_sheet_meta_events
         (map Ok [(Start, unordered_row)] ++ Ok (End, unordered_row) :: map Ok []) []
       = Ok (map (text_of []) cells, 1, width)
    /\ match ET.findall unordered_row (main "c") with
       | [] => width = "A"
       | cs => col_index_to_letter (Py.len cs) = Some width
       end.
Proof.
  apply (parse_sheet_meta_header_only [] [(Start, unordered_row)] unordered_row []);
    reflexivity.
Defined.

(** Without a dimension declaration the row count that the scanner
    returns is the number of the second row it meets, whatever the sheet
    holds after that row. *)
Theorem parse_sheet_meta_second_row (shared_strings : list string)
    (pre : list (event_kind * Element)) (row : Element)
    (mid : list (event_kind * Element)) (row2 : Element) (r : string) (n : Z)
    (rest : list (result (event_kind * Element))) :
  forallb plain pre = true ->
  local_name (tag row) = "row" ->
  match attrib row !! "r" with
  | Some r1 => Py.int_of_str r1 = Ok 1
  | None => True
  end ->
  forallb (decodes shared_strings) (ET.findall row (main "c")) = true ->
  forallb plain mid = true ->
  local_name (tag row2) = "row" ->
  attrib row2 !! "r" = Some r -> Py.int_of_str r = Ok n -> 2 <= n ->
  exists cells width,
    Permutation cells (ET.findall row (main "c"))
    /\ parse_sheet_meta_events
         (map Ok pre ++ Ok (End, row) :: map Ok mid ++ Ok (End, row2) :: rest)
         shared_strings
       = Ok (map (text_of shared_strings) cells, n, width).
Proof.
  intros Hpre Hrow Hr Hdec Hmid Hrow2 Hr2 Hn Hge.
  destruct (parse_sheet_meta_after_header shared_strings pre row mid)
    as (cells & Hperm & _ & Hres);
    [now apply plain_closes_no_row | exact Hrow | exact Hr | exact Hdec
    | now apply plain_closes_no_row |].
  specialize (Hres row2 r n rest Hrow2 Hr2 Hn Hge).
  rewrite (last_dimension_plain mid Hmid), (last_dimension_plain pre Hpre) in Hres.
  destruct (sheet_extent_without_dimension
              {| headers := map (text_of shared_strings) cells; max_row := n;
                 dimension_ref := None |}) as (width & Hext & _); [reflexivity|].
  exists cells, width. split; [exact Hperm|]. now rewrite Hres, Hext.
Qed.

Lemma parse_sheet_meta_second_row_witness :
  exists cells width,
    Permutation cells (ET.findall unordered_row (main "c"))
    /\ parse_sheet_meta_events
         (map Ok [(Start, unordered_row)] ++ Ok (End, unordered_row)
            :: map Ok [(Start, fifth_row)] ++ Ok (End, fifth_row) :: [Raise ValueError])
         []
       = Ok (map (text_of []) cells, 5, width).
Proof.
  apply (parse_sheet_meta_second_row [] [(Start, unordered_row)] unordered_row
           [(Start, fifth_row)] fifth_row "5" 5 [Raise ValueError]);
    try reflexivity.
  lia.
Defined.

(** ** Sheet metadata scanner: the dimension declaration *)

Lemma split_from_two (sep : ascii) (a b : string) :
  Py.contains sep a = false -> Py.contains sep b = false ->
  forall cur, Py.split_from sep cur (a +:+ String sep b) = [cur +:+ a; b].
Proof.
  intros Ha Hb. induction a as [|x a IH]; intros cur; cbn [String.append Py.split_from].
  - rewrite Ascii.eqb_refl, append_nil_r. now rewrite split_from_no_sep.
  - cbn [Py.contains] in Ha. apply orb_false_iff in Ha as [Hx Ha].
    rewrite Hx, IH by exact Ha. now rewrite append_assoc.
Qed.

Lemma span_all (p : ascii -> bool) (s : string) :
  all_chars p s = true -> span p s = (s, "").
Proof.
  induction s as [|c s IH]; cbn [all_chars span]; [reflexivity|].
  intros Hs. apply andb_true_iff in Hs as [-> Hs]. now rewrite IH.
Qed.

Lemma no_colon (s : string) :
  all_chars (fun c => Py.is_upper_AZ c || Py.is_digit c) s = true ->
  Py.contains ":" s = false.
Proof.
  induction s as [|c s IH]; cbn [all_chars Py.contains]; [reflexivity|].
  intros Hs. apply andb_true_iff in Hs as [Hc Hs]. rewrite (IH Hs), orb_false_r.
  revert Hc. destruct c as [[] [] [] [] [] [] [] []]; intros Hc;
    try discriminate Hc; reflexivity.
Qed.

Lemma all_chars_weaken (p q : ascii -> bool) (s : string) :
  (forall c, p c = true -> q c = true) ->
  all_chars p s = true -> all_chars q s = true.
Proof.
  intros Hpq. induction s as [|c s IH]; cbn [all_chars]; [reflexivity|].
  intros Hs. apply andb_true_iff in Hs as [Hc Hs]. now rewrite (Hpq c Hc), IH.
Qed.

(** A dimension reference [letters digits], alone or after a first corner
    and a colon, gives the extent: the digits as the row count and the
    letters as the last column, whatever the scan saw; with more digits
    than [int] accepts it makes the call fail. *)
Lemma sheet_extent_from_dimension (st : scan) (ref letters digits : string) :
  letters <> "" -> all_chars Py.is_upper_AZ letters = true ->
  digits <> "" -> all_chars Py.is_digit digits = true ->
  dimension_ref st = Some ref ->
  (ref = letters +:+ digits
   \/ exists corner, Py.contains ":" corner = false
                     /\ ref = corner +:+ ":" +:+ letters +:+ digits) ->
  sheet_extent st
  = if 4300 <? Z.of_nat (String.length digits) then Raise ValueError
    else Ok (headers st, decimal digits, letters).
Proof.
  intros Hl Hlu Hd Hdd Hst Href.
  assert (Hcolon : Py.contains ":" (letters +:+ digits) = false).
  { apply no_colon. rewrite all_chars_app. apply andb_true_iff. split.
    - eapply all_chars_weaken; [|exact Hlu]. intros c ->. reflexivity.
    - eapply all_chars_weaken; [|exact Hdd]. intros c ->. apply orb_true_r. }
  assert (Hend : truthy (Some ref) = true
                 /\ (if Py.contains ":" ref then Py.index (Py.split ":" ref) 1 else Ok ref)
                    = Ok (letters +:+ digits)).
  { destruct Href as [->|(corner & Hc & ->)].
    - rewrite Hcolon. split; [|reflexivity]. destruct letters; [congruence | reflexivity].
    - split; [destruct corner; reflexivity|].
      rewrite contains_app. cbn [String.append Py.contains Ascii.eqb Bool.eqb orb].
      rewrite orb_true_r. unfold Py.split.
      rewrite split_from_two by assumption. reflexivity. }
  destruct Hend as [Htruthy Hend].
  unfold sheet_extent. rewrite Hst, Htruthy. cbn [negb]. rewrite Hend.
  cbn [mbind result_bind]. unfold match_letters_digits.
  rewrite span_app; [| exact Hlu |].
  - rewrite (span_all Py.is_digit digits Hdd). cbn [fst].
    pose proof (int_of_str_all_digits digits Hd Hdd) as Hint.
    fold (decimal digits) in Hint. unfold Py.int_max_str_digits in Hint.
    destruct letters as [|x letters]; [congruence|].
    destruct digits as [|y digits]; [congruence|].
    rewrite Hint. now destruct (4300 <? Z.of_nat (String.length (String y digits))).
  - destruct digits as [|y digits]; [congruence|].
    cbn [all_chars] in Hdd. apply andb_true_iff in Hdd as [Hy _].
    revert Hy. destruct y as [[] [] [] [] [] [] [] []]; intros Hy;
      try discriminate Hy; reflexivity.
Qed.

(** When the sheet declares its dimension, the row count and the last
    column that the scanner returns are those of the declaration, for a
    sheet that ends after its header row as for one with further rows,
    as long as the row count is written with at most 4300 digits; with
    more digits the scanner fails with [ValueError], the headers it has
    read notwithstanding. *)
Theorem parse_sheet_meta_prefers_dimension (shared_strings : list string)
    (pre : list (event_kind * Element)) (row : Element)
    (mid : list (event_kind * Element)) (ref letters digits : string) :
  forallb (fun ev => negb (is_row_end ev)) pre = true ->
  local_name (tag row) = "row" ->
  match attrib row !! "r" with
  | Some r => Py.int_of_str r = Ok 1
  | None => True
  end ->
  forallb (decodes shared_strings) (ET.findall row (main "c")) = true ->
  forallb (fun ev => negb (is_row_end ev)) mid = true ->
  last_dimension mid (last_dimension pre None) = Some ref ->
  letters <> "" -> all_chars Py.is_upper_AZ letters = true ->
  digits <> "" -> all_chars Py.is_digit digits = true ->
  (ref = letters +:+ digits
   \/ exists corner, Py.contains ":" corner = false
                     /\ ref = corner +:+ ":" +:+ letters +:+ digits) ->
  exists cells,
    Permutation cells (ET.findall row (main "c"))
    /\ parse_sheet_meta_events (map Ok pre ++ Ok (End, row) :: map Ok mid) shared_strings
       = (if 4300 <? Z.of_nat (String.length digits) then Raise ValueError
          else Ok (map (text_of shared_strings) cells, decimal digits, letters))
    /\ forall row2 r n rest,
         local_name (tag row2) = "row" ->
         attrib row2 !! "r" = Some r -> Py.int_of_str r = Ok n -> 2 <= n ->
         parse_sheet_meta_events
           (map Ok pre ++ Ok (End, row) :: map Ok mid ++ Ok (End, row2) :: rest)
           shared_strings
         = (if 4300 <? Z.of_nat (String.length digits) then Raise ValueError
            else Ok (map (text_of shared_strings) cells, decimal digits, letters)).
Proof.
  intros Hpre Hrow Hr Hdec Hmid Hdim Hl Hlu Hd Hdd Href.
  destruct (parse_sheet_meta_after_header shared_strings pre row mid
              Hpre Hrow Hr Hdec Hmid) as (cells & Hperm & Hone & Htwo).
  exists cells. split; [exact Hperm|]. split.
  - rewrite Hone.
    exact (sheet_extent_from_dimension
             {| headers := map (text_of shared_strings) cells; max_row := 1;
                dimension_ref := last_dimension mid (last_dimension pre None) |}
             ref letters digits Hl Hlu Hd Hdd Hdim Href).
  - intros row2 r n rest Hrow2 Hr2 Hn Hge.
    rewrite (Htwo row2 r n rest Hrow2 Hr2 Hn Hge).
    exact (sheet_extent_from_dimension
             {| headers := map (text_of shared_strings) cells; max_row := n;
                dimension_ref := last_dimension mid (last_dimension pre None) |}
             ref letters digits Hl Hlu Hd Hdd Hdim Href).
Qed.

Lemma parse_sheet_meta_prefers_dimension_witness :
  exists cells,
    Permutation cells (ET.findall unordered_row (main "c"))
    /\ parse_sheet_meta_events
         (map Ok [(Start, dimension_elem "A1:B6"); (Start, unordered_row)]
            ++ Ok (End, unordered_row) :: map Ok []) []
       = (if 4300 <? Z.of_nat (String.length "6") then Raise ValueError
          else Ok (map (text_of []) cells, decimal "6", "B"))
    /\ forall row2 r n rest,
         local_name (tag row2) = "row" ->
         attrib row2 !! "r" = Some r -> Py.int_of_str r = Ok n -> 2 <= n ->
         parse_sheet_meta_events
           (map Ok [(Start, dimension_elem "A1:B6"); (Start, unordered_row)]
              ++ Ok (End, unordered_row) :: map Ok [] ++ Ok (End, row2) :: rest) []
         = (if 4300 <? Z.of_nat (String.length "6") then Raise ValueError
            else Ok (map (text_of []) cells, decimal "6", "B")).
Proof.
  apply (parse_sheet_meta_prefers_dimension []
           [(Start, dimension_elem "A1:B6"); (Start, unordered_row)] unordered_row []
           "A1:B6" "B" "6"); try reflexivity; try discriminate.
  right. exists "A1". split; reflexivity.
Defined.

Example parse_sheet_meta_long_dimension :
  parse_sheet_meta_events
    [Ok (Start, dimension_elem ("B" +:+ run_of "0" 4299 +:+ "7")); Ok (End, unordered_row)] []
  = Ok (["Time"; "Week"], 7, "B")
  /\ parse_sheet_meta_events
       [Ok (Start, dimension_elem ("A1:B" +:+ run_of "1" 4301)); Ok (End, unordered_row)] []
     = Raise ValueError.
Proof. split; vm_compute; reflexivity. Qed.

(** ** Sheet metadata scanner: the early exit *)

(** Once a row numbered 2 or more is closed, nothing of what follows in
    the stream is looked at: the result is the same with any other
    continuation, a parser error included. *)
Theorem parse_sheet_meta_stops_at_second_row (shared_strings : list string)
    (before : list (result (event_kind * Element))) (row2 : Element)
    (r : string) (n : Z) (rest rest' : list (result (event_kind * Element))) :
  local_name (tag row2) = "row" ->
  attrib row2 !! "r" = Some r -> Py.int_of_str r = Ok n -> 2 <= n ->
  parse_sheet_meta_events (before ++ Ok (End, row2) :: rest) shared_strings
  = parse_sheet_meta_events (before ++ Ok (End, row2) :: rest') shared_strings.
Proof.
  intros Hrow2 Hr2 Hn Hge. unfold parse_sheet_meta_events. f_equal.
  generalize ({| headers := []; max_row := 1; dimension_ref := None |}) as st.
  induction before as [|[ev|e] before IH]; intros st; cbn [app scan_events].
  - unfold scan_event. rewrite Hrow2. cbn [String.eqb Ascii.eqb Bool.eqb].
    rewrite Hr2, Hn. cbn [mbind result_bind].
    destruct (Z.eqb_spec n 1) as [->|_]; [lia|]. cbn [mbind result_bind].
    destruct (Z.leb_spec 2 n); [reflexivity | lia].
  - destruct (scan_event shared_strings st ev) as [[st' stop]|e]; cbn; [|reflexivity].
    destruct stop; [reflexivity | apply IH].
  - reflexivity.
Qed.

Lemma parse_sheet_meta_stops_at_second_row_witness :
  parse_sheet_meta_events
    ([Ok (End, unordered_row)] ++ Ok (End, fifth_row) :: [Raise ValueError]) []
  = parse_sheet_meta_events
      ([Ok (End, unordered_row)] ++ Ok (End, fifth_row) :: []) [].
Proof.
  apply (parse_sheet_meta_stops_at_second_row [] [Ok (End, unordered_row)] fifth_row
           "5" 5); [reflexivity | reflexivity | reflexivity | lia].
Defined.

(** ** Row encoder: escaping composes and loses nothing *)

Lemma escape_chars_app (a b : string) :
  escape_chars (a +:+ b) = escape_chars a +:+ escape_chars b.
Proof.
  induction a as [|x a IH]; cbn [String.append escape_chars]; [reflexivity|].
  now rewrite IH, append_assoc.
Qed.

(** Escaping a concatenation is concatenating the escaped parts. *)
Theorem escape_app (a b : string) : escape (a +:+ b) = escape a +:+ escape b.
Proof. rewrite !escape_spec. apply escape_chars_app. Qed.

(** Two texts that escape to the same content are the same text. *)
Theorem escape_injective (a b : string) : escape a = escape b -> a = b.
Proof.
  intros H. rewrite !escape_spec in H.
  rewrite <- (unescape_escape_chars a), <- (unescape_escape_chars b). now rewrite H.
Qed.

Lemma escape_injective_witness : escape "a<b" = "a&lt;b" /\ "a<b" = "a<b".
Proof. split; [reflexivity|]. apply (escape_injective "a<b" "a<b"). reflexivity. Defined.

(** ** Sheet synthesizer: what is written *)

(** With no header the call raises [IndexError], and it does so after the
    file has been created and the XML declaration and the opening tag of
    the worksheet have been written to it. *)
Theorem write_table_sheet_without_headers
    (fs : gmap string bytes) (out_path : string)
    (rows : list (list value)) (num_flags : list bool) :
  write_table_sheet fs out_path [] rows num_flags
  = (<[out_path :=
         utf8 (("<?xml version=" +:+ Py.dquote +:+ "1.0" +:+ Py.dquote +:+ " encoding="
                  +:+ Py.dquote +:+ "UTF-8" +:+ Py.dquote +:+ "?>" +:+ Py.newline)
               +:+ ("<worksheet xmlns=" +:+ Py.dquote +:+ NS_MAIN +:+ Py.dquote
                      +:+ " xmlns:r=" +:+ Py.dquote +:+ NS_REL +:+ Py.dquote +:+ ">"))]> fs,
     Raise IndexError).
Proof. reflexivity. Qed.

(** The sheet declares the rectangle it holds: the dimension runs from A1
    to the letters of the number of headers and the row [1 + len(rows)],
    and the sheet data hold the header row and one row per data row,
    the [i]-th of them numbered [i + 2]. *)
Theorem write_table_sheet_dimension
    (fs : gmap string bytes) (out_path : string)
    (headers : list string) (rows : list (list value)) (num_flags : list bool) :
  headers <> [] ->
  exists col_letters last_letter writes,
    col_letters_for (length headers) = Ok col_letters
    /\ col_index_to_letter (Py.len headers) = Some last_letter
    /\ write_table_sheet fs out_path headers rows num_flags
       = (<[out_path := utf8 (String.concat "" writes)]> fs, Ok tt)
    /\ nth_error writes 2
       = Some ("<dimension ref=" +:+ Py.dquote +:+ "A1:" +:+ last_letter
                 +:+ Py.str_of_int (1 + Py.len rows) +:+ Py.dquote +:+ "/>")
    /\ nth_error writes 4
       = Some (build_row_xml 1 (map VStr headers) (map (fun _ => false) headers)
                 col_letters)
    /\ length writes = (6 + length rows)%nat
    /\ forall (i : nat) row,
         nth_error rows i = Some row ->
         nth_error writes (5 + i)
         = Some (build_row_xml (2 + Z.of_nat i) row num_flags col_letters).
Proof. apply write_table_sheet_structure. Qed.

Lemma write_table_sheet_dimension_witness :
  exists col_letters last_letter writes,
    col_letters_for (length ["Time"; "Week"]) = Ok col_letters
    /\ col_index_to_letter (Py.len ["Time"; "Week"]) = Some last_letter
    /\ write_table_sheet ∅ "week.xml" ["Time"; "Week"]
         [[VStr "W1"; VInt 1]; [VStr "W2"; VInt 2]; [VStr "W3"; VInt 3]] [false; true]
       = (<["week.xml" := utf8 (String.concat "" writes)]> ∅, Ok tt)
    /\ nth_error writes 2
       = Some ("<dimension ref=" +:+ Py.dquote +:+ "A1:" +:+ last_letter
                 +:+ Py.str_of_int (1 + Py.len [[VStr "W1"; VInt 1]; [VStr "W2"; VInt 2];
                                                [VStr "W3"; VInt 3]])
                 +:+ Py.dquote +:+ "/>")
    /\ nth_error writes 4
       = Some (build_row_xml 1 (map VStr ["Time"; "Week"])
                 (map (fun _ => false) ["Time"; "Week"]) col_letters)
    /\ length writes
       = (6 + length [[VStr "W1"; VInt 1]; [VStr "W2"; VInt 2]; [VStr "W3"; VInt 3]])%nat
    /\ forall (i : nat) row,
         nth_error [[VStr "W1"; VInt 1]; [VStr "W2"; VInt 2]; [VStr "W3"; VInt 3]] i
         = Some row ->
         nth_error writes (5 + i)
         = Some (build_row_xml (2 + Z.of_nat i) row [false; true] col_letters).
Proof.
  apply (write_table_sheet_dimension ∅ "week.xml" ["Time"; "Week"]
           [[VStr "W1"; VInt 1]; [VStr "W2"; VInt 2]; [VStr "W3"; VInt 3]] [false; true]).
  discriminate.
Defined.

Example write_table_sheet_three_rows :
  nth_error (fst (table_sheet_writes ["Time"; "Week"]
                    [[VStr "W1"; VInt 1]; [VStr "W2"; VInt 2]; [VStr "W3"; VInt 3]]
                    [false; true] ["A"; "B"])) 2
  = Some ("<dimension ref=" +:+ Py.dquote +:+ "A1:B4" +:+ Py.dquote +:+ "/>").
Proof. reflexivity. Qed.

(** ** Archive copy pass: replacement maps that do not fit, and duplicates *)

Section PatcherMore.

Variable arcname_of : string -> string.
Variable fs : gmap string bytes.
Variable src_zip : Zip.t.

(** The pass looks a replacement up only under the names of the members
    it copies. *)
Lemma copy_members_ext (r1 r2 : gmap string string) (items : list ZipMember) :
  (forall m, In m items -> r1 !! filename m = r2 !! filename m) ->
  forall out_zip,
    copy_members arcname_of fs src_zip r1 items out_zip
    = copy_members arcname_of fs src_zip r2 items out_zip.
Proof.
  induction items as [|m items IH]; intros Hagree out_zip; cbn [copy_members];
    [reflexivity|].
  assert (Hstep : copy_member arcname_of fs src_zip r1 out_zip m
                  = copy_member arcname_of fs src_zip r2 out_zip m).
  { unfold copy_member. now rewrite (Hagree m (or_introl eq_refl)). }
  rewrite Hstep.
  destruct (copy_member arcname_of fs src_zip r2 out_zip m); cbn [mbind result_bind];
    [|reflexivity].
  apply IH. intros m' Hm'. apply Hagree. now right.
Qed.

Lemma copy_members_missing (replacements : gmap string string)
    (items : list ZipMember) :
  (forall m, In m items -> exists d, Zip.read src_zip (filename m) = Ok d) ->
  Exists (replacement_missing fs replacements) items ->
  forall out_zip,
    copy_members arcname_of fs src_zip replacements items out_zip
    = Raise FileNotFoundError.
Proof.
  induction items as [|m items IH]; intros Hread Hbad out_zip;
    [inversion Hbad|].
  cbn [copy_members]. unfold copy_member, zip_write.
  destruct (replacements !! filename m) as [path|] eqn:Hrep.
  - destruct (fs !! path) as [d|] eqn:Hfile; [|reflexivity].
    cbn [mbind result_bind]. apply IH; [intros m' Hm'; apply Hread; now right|].
    inversion Hbad as [? ? (path' & Hp & Hnone)|]; subst; [|assumption].
    unfold bytes in *. congruence.
  - destruct (Hread m (or_introl eq_refl)) as (d & ->). cbn [mbind result_bind].
    apply IH; [intros m' Hm'; apply Hread; now right|].
    inversion Hbad as [? ? (path' & Hp & Hnone)|]; subst; [congruence | assumption].
Qed.

End PatcherMore.

Lemma read_present (zf : Zip.t) (m : ZipMember) :
  In m zf -> exists d, Zip.read zf (filename m) = Ok d.
Proof.
  induction zf as [|m0 zf IH]; cbn [In Zip.read]; [tauto|].
  intros [->|Hin].
  - destruct (Zip.read zf (filename m)); [eauto|]. rewrite String.eqb_refl. eauto.
  - destruct (IH Hin) as (d & ->). eauto.
Qed.

(** With an empty replacement map the pass copies an archive of unique
    names onto itself. *)
Theorem copy_pass_without_replacements
    (arcname_of : string -> string) (fs : gmap string bytes) (src_zip : Zip.t) :
  NoDup (Zip.namelist src_zip) ->
  copy_pass arcname_of fs src_zip ∅ = Ok src_zip.
Proof.
  intros Hnd. unfold copy_pass, Zip.infolist.
  rewrite copy_members_spec.
  - cbn [app]. f_equal. rewrite <- (map_id src_zip) at 2. apply map_ext.
    intros m. unfold patched. now rewrite lookup_empty.
  - intros m Hm. now apply read_member.
  - apply List.Forall_forall. intros m _ path Hpath.
    rewrite lookup_empty in Hpath. discriminate.
Qed.

Lemma copy_pass_without_replacements_witness :
  copy_pass (fun name => name) ∅ four_sheets ∅ = Ok four_sheets.
Proof.
  apply copy_pass_without_replacements.
  apply (bool_decide_unpack _). vm_compute. exact I.
Defined.

(** A replacement whose file is missing makes the whole pass fail with
    [FileNotFoundError]; no archive is returned. *)
Theorem copy_pass_missing_file
    (arcname_of : string -> string) (fs : gmap string bytes)
    (src_zip : Zip.t) (replacements : gmap string string) (m : ZipMember) (path : string) :
  In m src_zip ->
  replacements !! filename m = Some path ->
  fs !! path = None ->
  copy_pass arcname_of fs src_zip replacements = Raise FileNotFoundError.
Proof.
  intros Hin Hrep Hnone. unfold copy_pass, Zip.infolist.
  apply copy_members_missing.
  - intros m' Hm'. now apply read_present.
  - apply List.Exists_exists. exists m. split; [exact Hin|]. exists path. auto.
Qed.

Lemma copy_pass_missing_file_witness :
  copy_pass (fun name => name) ∅ four_sheets week_replacement = Raise FileNotFoundError.
Proof.
  apply (copy_pass_missing_file (fun name => name) ∅ four_sheets week_replacement
           {| filename := "xl/worksheets/sheet1.xml";
              data := utf8 "<worksheet>weeks</worksheet>" |}
           "Salida/_tmp_fake_excel/week.xml").
  - right. left. reflexivity.
  - reflexivity.
  - reflexivity.
Defined.

(** A replacement registered under a name that no member carries changes
    nothing: the pass neither fails nor adds a member. *)
Theorem copy_pass_ignores_unknown_name
    (arcname_of : string -> string) (fs : gmap string bytes)
    (src_zip : Zip.t) (replacements : gmap string string) (name path : string) :
  ~ In name (Zip.namelist src_zip) ->
  copy_pass arcname_of fs src_zip (<[name := path]> replacements)
  = copy_pass arcname_of fs src_zip replacements.
Proof.
  intros Hnot. unfold copy_pass, Zip.infolist. apply copy_members_ext.
  intros m Hm. apply lookup_insert_ne. intros ->.
  apply Hnot. unfold Zip.namelist. now apply in_map.
Qed.

Lemma copy_pass_ignores_unknown_name_witness :
  copy_pass (fun name => name) week_file four_sheets
    (<["xl/worksheets/sheet9.xml" := "nowhere.xml"]> week_replacement)
  = copy_pass (fun name => name) week_file four_sheets week_replacement.
Proof.
  apply copy_pass_ignores_unknown_name.
  vm_compute. intuition discriminate.
Defined.

Lemma read_last_named (zf : Zip.t) (name : string) (d : bytes) :
  Zip.read zf name = Ok d ->
  exists m, last_named zf name m /\ data m = d.
Proof.
  induction zf as [|m0 zf IH]; cbn [Zip.read]; [discriminate|].
  destruct (Zip.read zf name) as [d'|e] eqn:Hread.
  - intros [= <-]. destruct (IH eq_refl) as (m & (before & after & -> & Hname & Hnot) & Hd).
    exists m. split; [|exact Hd]. exists (m0 :: before), after. auto.
  - destruct (String.eqb_spec (filename m0) name) as [Hname|]; [|discriminate].
    intros [= <-]. exists m0. split; [|reflexivity].
    exists [], zf. repeat split; [exact Hname|].
    intros Hin. apply in_map_iff in Hin as (m & Hm & Hin).
    destruct (read_present zf m Hin) as (d & Hd). congruence.
Qed.

(** Whether or not names repeat in the source, the pass keeps the names
    and their order, and gives each member that is not replaced the bytes
    of the last source member of the same name. *)
Theorem copy_pass_last_of_name
    (arcname_of : string -> string) (fs : gmap string bytes)
    (src_zip : Zip.t) (replacements : gmap string string) :
  Forall (replacement_ready arcname_of fs replacements) src_zip ->
  exists out_zip,
    copy_pass arcname_of fs src_zip replacements = Ok out_zip
    /\ Zip.namelist out_zip = Zip.namelist src_zip
    /\ forall i m, nth_error src_zip i = Some m ->
                   replacements !! filename m = None ->
                   exists m', last_named src_zip (filename m) m'
                              /\ nth_error out_zip i
                                 = Some {| filename := filename m; data := data m' |}.
Proof.
  intros Hready.
  set (copy := fun m : ZipMember =>
                 match replacements !! filename m with
                 | Some path => {| filename := filename m; data := default [] (fs !! path) |}
                 | None => {| filename := filename m;
                              data := match Zip.read src_zip (filename m) with
                                      | Ok d => d
                                      | Raise _ => []
                                      end |}
                 end).
  assert (Hrun : forall items out_zip,
             (forall m, In m items -> In m src_zip) ->
             copy_members arcname_of fs src_zip replacements items out_zip
             = Ok (out_zip ++ map copy items)).
  { induction items as [|m items IH]; intros out_zip Hsub; cbn [copy_members map].
    - now rewrite app_nil_r.
    - assert (Hm : In m src_zip) by (apply Hsub; now left).
      assert (Hstep : copy_member arcname_of fs src_zip replacements out_zip m
                      = Ok (out_zip ++ [copy m])).
      { unfold copy_member, copy, zip_write.
        destruct (replacements !! filename m) as [path|] eqn:Hrep.
        - rewrite List.Forall_forall in Hready.
          destruct (Hready m Hm path Hrep) as [[d Hd] Hname]. unfold bytes in *.
          now rewrite Hd, Hname.
        - destruct (read_present src_zip m Hm) as (d & ->). reflexivity. }
      rewrite Hstep. cbn [mbind result_bind].
      rewrite IH by (intros m' Hm'; apply Hsub; now right).
      now rewrite <- app_assoc. }
  exists (map copy src_zip). split; [|split].
  - unfold copy_pass, Zip.infolist. now rewrite Hrun.
  - unfold Zip.namelist. rewrite map_map. apply map_ext.
    intros m. unfold copy. now destruct (replacements !! filename m).
  - intros i m Hi Hnone.
    destruct (read_present src_zip m (nth_error_In _ _ Hi)) as (d & Hd).
    destruct (read_last_named src_zip (filename m) d Hd) as (m' & Hlast & Hdata).
    exists m'. split; [exact Hlast|].
    rewrite nth_error_map, Hi. cbn. unfold copy. now rewrite Hnone, Hd, Hdata.
Qed.

Lemma copy_pass_last_of_name_witness :
  exists out_zip,
    copy_pass (fun name => name) ∅
      [ {| filename := "a"; data := utf8 "1" |}; {| filename := "a"; data := utf8 "2" |} ] ∅
    = Ok out_zip
    /\ Zip.namelist out_zip
       = Zip.namelist
           [ {| filename := "a"; data := utf8 "1" |}; {| filename := "a"; data := utf8 "2" |} ]
    /\ forall i m,
         nth_error
           [ {| filename := "a"; data := utf8 "1" |}; {| filename := "a"; data := utf8 "2" |} ]
           i = Some m ->
         (∅ : gmap string string) !! filename m = None ->
         exists m',
           last_named
             [ {| filename := "a"; data := utf8 "1" |}; {| filename := "a"; data := utf8 "2" |} ]
             (filename m) m'
           /\ nth_error out_zip i = Some {| filename := filename m; data := data m' |}.
Proof.
  apply (copy_pass_last_of_name (fun name => name) ∅
           [ {| filename := "a"; data := utf8 "1" |}; {| filename := "a"; data := utf8 "2" |} ]
           ∅).
  repeat (constructor; [intros path Hpath; rewrite lookup_empty in Hpath; discriminate|]).
  constructor.
Defined.

(** ** Sheet resolution *)

Lemma prefix_xl_first (t : string) :
  String.prefix "xl/" t = true -> lstrip_char "/" t = t.
Proof.
  destruct t as [|c t]; [discriminate|]. cbn [String.prefix].
  destruct (ascii_dec "x" c) as [<-|]; [reflexivity | discriminate].
Qed.

Lemma prefix_xl_app (t : string) : String.prefix "xl/" ("xl/" +:+ t) = true.
Proof. cbn. now destruct t. Qed.

(** The member path of a sheet always starts with [xl/]; slashes in front
    of the relationship target make no difference; and a path that is
    already resolved resolves to itself. *)
Theorem sheet_path_normal_form (rel_target : string) :
  String.prefix "xl/" (sheet_path_of_target rel_target) = true
  /\ sheet_path_of_target (String "/" rel_target) = sheet_path_of_target rel_target
  /\ sheet_path_of_target (sheet_path_of_target rel_target)
     = sheet_path_of_target rel_target.
Proof.
  assert (Hprefix : String.prefix "xl/" (sheet_path_of_target rel_target) = true).
  { unfold sheet_path_of_target.
    destruct (String.prefix "xl/" (lstrip_char "/" rel_target)) eqn:Hp;
      [exact Hp | apply prefix_xl_app]. }
  repeat split; [exact Hprefix|].
  set (r := sheet_path_of_target rel_target) in *.
  unfold sheet_path_of_target at 1. rewrite (prefix_xl_first r Hprefix).
  now rewrite Hprefix.
Qed.

(** The absolute target [/xl/p] and the target [p], relative to [xl/],
    resolve to the same member path [xl/p]. *)
Theorem sheet_path_absolute_relative (p : string) :
  lstrip_char "/" p = p ->
  String.prefix "xl/" p = false ->
  sheet_path_of_target ("/xl/" +:+ p) = "xl/" +:+ p
  /\ sheet_path_of_target p = "xl/" +:+ p.
Proof.
  intros Hp Hrel. split.
  - unfold sheet_path_of_target.
    change (lstrip_char "/" ("/xl/" +:+ p)) with ("xl/" +:+ p).
    now rewrite prefix_xl_app.
  - unfold sheet_path_of_target. now rewrite Hp, Hrel.
Qed.

Lemma sheet_path_absolute_relative_witness :
  sheet_path_of_target ("/xl/" +:+ "worksheets/sheet1.xml") = "xl/" +:+ "worksheets/sheet1.xml"
  /\ sheet_path_of_target "worksheets/sheet1.xml" = "xl/" +:+ "worksheets/sheet1.xml".
Proof. apply (sheet_path_absolute_relative "worksheets/sheet1.xml"); reflexivity. Defined.

Example sheet_path_ex :
  sheet_path {["rId1" := "/xl/worksheets/sheet1.xml"]} "rId1" = Ok "xl/worksheets/sheet1.xml"
  /\ sheet_path {["rId1" := "worksheets/sheet1.xml"]} "rId1" = Ok "xl/worksheets/sheet1.xml"
  /\ sheet_path {["rId1" := "worksheets/sheet1.xml"]} "rId2" = Raise KeyError.
Proof. repeat split; reflexivity. Qed.

(** ** Year from the [Time] text: range, missing date, long years *)

Lemma digit_value_nonneg (c : ascii) (d : Z) : Py.digit_value c = Some d -> 0 <= d.
Proof.
  unfold Py.digit_value.
  destruct ((48 <=? Py.ord c) && (Py.ord c <=? 57)) eqn:H; [|discriminate].
  intros [= <-]. apply andb_true_iff in H as [H _]. apply Z.leb_le in H. lia.
Qed.

Lemma int_digits_nonneg (s : string) :
  (forall acc n rest, 0 <= acc -> Py.int_digits acc s = Some (n, rest) -> 0 <= n)
  /\ match s with
     | String _ t =>
         forall acc n rest, 0 <= acc -> Py.int_digits acc t = Some (n, rest) -> 0 <= n
     | EmptyString => True
     end.
Proof.
  induction s as [|c s [IH1 IH2]]; split; try exact I.
  - intros acc n rest Hacc [= <- _]. exact Hacc.
  - intros acc n rest Hacc. cbn [Py.int_digits].
    destruct (Py.digit_value c) as [d|] eqn:Hd.
    + apply IH1. pose proof (digit_value_nonneg c d Hd). lia.
    + destruct (Ascii.eqb c "_"); [|intros [= <- _]; exact Hacc].
      destruct s as [|c2 s'']; [discriminate|].
      destruct (Py.digit_value c2) as [d|] eqn:Hd2; [|discriminate].
      apply IH2. pose proof (digit_value_nonneg c2 d Hd2). lia.
  - exact IH1.
Qed.

Lemma int_unsigned_nonneg (s : string) (n : Z) : Py.int_unsigned s = Ok n -> 0 <= n.
Proof.
  unfold Py.int_unsigned. destruct s as [|c s]; [discriminate|].
  destruct (Py.digit_value c) as [d|] eqn:Hd; [|discriminate].
  destruct (Py.int_digits d s) as [[m rest]|] eqn:Hm; [|discriminate].
  destruct (Py.skip_int_space rest); [|discriminate].
  destruct (Py.int_max_str_digits <? Py.count_digits (String c s)); [discriminate|].
  intros [= <-].
  apply (proj1 (int_digits_nonneg s) d m rest); [|exact Hm].
  now apply (digit_value_nonneg c).
Qed.

Lemma skip_int_space_contains (c : ascii) (s : string) :
  Py.contains c s = false -> Py.contains c (Py.skip_int_space s) = false.
Proof.
  induction s as [|x s IH]; cbn [Py.contains Py.skip_int_space]; [reflexivity|].
  intros H. destruct (Py.int_space x); [|exact H].
  apply orb_false_iff in H as [_ H]. now apply IH.
Qed.

(** [int] of a text without a minus sign is never negative. *)
Lemma int_of_str_nonneg (s : string) (n : Z) :
  Py.contains "-" s = false -> Py.int_of_str s = Ok n -> 0 <= n.
Proof.
  intros Hdash. apply (skip_int_space_contains "-") in Hdash.
  unfold Py.int_of_str. destruct (Py.skip_int_space s) as [|c t]; [discriminate|].
  cbn [Py.contains] in Hdash. apply orb_false_iff in Hdash as [Hc _]. rewrite Hc.
  destruct (Ascii.eqb c "+"); apply int_unsigned_nonneg.
Qed.

Lemma split_from_pieces (sep : ascii) (s : string) :
  forall cur, Py.contains sep cur = false ->
              Forall (fun p => Py.contains sep p = false) (Py.split_from sep cur s).
Proof.
  induction s as [|c s IH]; intros cur Hcur; cbn [Py.split_from].
  - repeat constructor. exact Hcur.
  - destruct (Ascii.eqb c sep) eqn:Hc.
    + constructor; [exact Hcur | now apply IH].
    + apply IH. rewrite contains_app. cbn [Py.contains]. now rewrite Hcur, Hc.
Qed.

Lemma last_Forall {A} (P : A -> Prop) (l : list A) (d : A) :
  P d -> Forall P l -> P (List.last l d).
Proof.
  intros Hd. induction 1 as [|x l Hx Hl IH]; [exact Hd|].
  destruct l; [exact Hx | exact IH].
Qed.

(** Every year that the rule infers is 1950 or later: a year below 50
    goes to 2000-2049, any other to 1950 and beyond. *)
Theorem year_from_time_at_least_1950 (val : string) (y : Z) :
  DataQuality.year_from_time val = Some y -> 1950 <= y.
Proof.
  unfold DataQuality.year_from_time.
  destruct (List.find (Py.contains "-") (rev (Py.split_ws (Py.strip val))))
    as [candidate|]; [|discriminate].
  destruct (Py.int_of_str (List.last (Py.split "-" candidate) "")) as [yy|] eqn:Hyy;
    [|discriminate].
  assert (0 <= yy).
  { apply (int_of_str_nonneg _ _ (last_Forall _ _ "" eq_refl
                                   (split_from_pieces "-" candidate "" eq_refl)) Hyy). }
  intros [= <-]. destruct (Z.ltb_spec yy 50); lia.
Qed.

Lemma year_from_time_at_least_1950_witness :
  DataQuality.year_from_time "Week Ending 01-05-25" = Some 2025 /\ 1950 <= 2025.
Proof.
  split; [reflexivity|].
  apply (year_from_time_at_least_1950 "Week Ending 01-05-25" 2025). reflexivity.
Defined.

Lemma lstrip_contains (c : ascii) (s : string) :
  Py.contains c s = false -> Py.contains c (Py.lstrip s) = false.
Proof.
  induction s as [|x s IH]; cbn [Py.contains Py.lstrip]; [reflexivity|].
  intros H. destruct (Py.isspace x); [|exact H].
  apply orb_false_iff in H as [_ H]. now apply IH.
Qed.

Lemma rstrip_contains (c : ascii) (s : string) :
  Py.contains c s = false -> Py.contains c (Py.rstrip s) = false.
Proof.
  induction s as [|x s IH]; cbn [Py.contains Py.rstrip]; [reflexivity|].
  intros H. apply orb_false_iff in H as [Hx H]. specialize (IH H).
  destruct (Py.rstrip s) as [|y r].
  - destruct (Py.isspace x); cbn [Py.contains]; [reflexivity | now rewrite Hx].
  - cbn [Py.contains] in *. now rewrite Hx, IH.
Qed.

Lemma split_ws_from_pieces (c : ascii) (s : string) :
  Py.contains c s = false ->
  forall cur, Py.contains c cur = false ->
              Forall (fun p => Py.contains c p = false) (Py.split_ws_from cur s).
Proof.
  induction s as [|x s IH]; cbn [Py.contains Py.split_ws_from]; intros Hs cur Hcur.
  - destruct cur; repeat constructor. exact Hcur.
  - apply orb_false_iff in Hs as [Hx Hs]. destruct (Py.isspace x).
    + destruct cur; [now apply IH|]. constructor; [exact Hcur | now apply IH].
    + apply IH; [exact Hs|]. rewrite contains_app. cbn [Py.contains].
      now rewrite Hcur, Hx.
Qed.

(** A text without any hyphen gives no year. *)
Theorem year_from_time_without_hyphen (val : string) :
  Py.contains "-" val = false -> DataQuality.year_from_time val = None.
Proof.
  intros Hval. unfold DataQuality.year_from_time.
  assert (Hparts : Forall (fun p => Py.contains "-" p = false)
                          (rev (Py.split_ws (Py.strip val)))).
  { apply List.Forall_rev. unfold Py.split_ws, Py.strip.
    apply split_ws_from_pieces; [|reflexivity].
    now apply rstrip_contains, lstrip_contains. }
  induction Hparts as [|p parts Hp _ IH]; [reflexivity|].
  cbn [List.find]. now rewrite Hp.
Qed.

Lemma year_from_time_without_hyphen_witness :
  DataQuality.year_from_time "Week Ending 01/05/25" = None.
Proof. apply year_from_time_without_hyphen. reflexivity. Defined.

(** The rule does not check that the year has two digits: whatever
    number the last field writes is taken as the two-digit year, so a
    four-digit year such as 2025 is resolved to 3925.  The only bound is
    the one of [int]: a field of more than 4300 digits makes [int] raise,
    the [except] clause catches it, and the text gives no year. *)
Theorem year_from_time_any_length (mm dd yy : string) :
  all_chars Py.is_digit mm = true ->
  all_chars Py.is_digit dd = true ->
  yy <> "" -> all_chars Py.is_digit yy = true ->
  DataQuality.year_from_time ("Week Ending " +:+ mm +:+ "-" +:+ dd +:+ "-" +:+ yy)
  = if 4300 <? Z.of_nat (String.length yy) then None
    else Some (if decimal yy <? 50 then 2000 + decimal yy else 1900 + decimal yy).
Proof.
  intros Hmm Hdd Hne Hyy.
  set (date := mm +:+ "-" +:+ dd +:+ "-" +:+ yy).
  assert (Hdate : all_chars not_space date = true).
  { unfold date. rewrite !all_chars_app.
    now rewrite (digits_not_space mm Hmm), (digits_not_space dd Hdd),
      (digits_not_space yy Hyy). }
  assert (Hdne : date <> "").
  { unfold date. destruct mm; cbn; congruence. }
  assert (Hnodash : Py.contains "-" yy = false).
  { clear -Hyy. induction yy as [|c yy IH]; [reflexivity|].
    cbn [all_chars Py.contains] in *. apply andb_true_iff in Hyy as [Hc Hyy].
    destruct (digit_not_space_dash c Hc) as [_ ->]. now apply IH. }
  unfold DataQuality.year_from_time.
  assert (Hstrip : Py.strip ("Week Ending " +:+ date) = "Week Ending " +:+ date).
  { unfold Py.strip. cbn [String.append Py.lstrip].
    change (Py.isspace "W") with false. cbn iota.
    apply (rstrip_app "Week Ending " date Hdne), rstrip_not_space, Hdate. }
  rewrite Hstrip.
  assert (Hsplit : Py.split_ws ("Week Ending " +:+ date) = ["Week"; "Ending"; date]).
  { unfold Py.split_ws. cbn.
    now rewrite (split_ws_from_not_space date Hdate "" Hdne). }
  rewrite Hsplit. cbn [rev app List.find].
  assert (Hdash : Py.contains "-" date = true).
  { unfold date. rewrite contains_app. cbn. apply orb_true_r. }
  rewrite Hdash.
  assert (Hlast : List.last (Py.split "-" date) "" = yy).
  { unfold Py.split, date. cbn [String.append].
    rewrite !split_from_last_app. now rewrite split_from_no_sep. }
  rewrite Hlast, (int_of_str_all_digits yy Hne Hyy). unfold Py.int_max_str_digits.
  now destruct (4300 <? Z.of_nat (String.length yy)).
Qed.

Lemma year_from_time_any_length_witness :
  DataQuality.year_from_time ("Week Ending " +:+ "01" +:+ "-" +:+ "05" +:+ "-" +:+ "2025")
  = (if 4300 <? Z.of_nat (String.length "2025") then None
     else Some (if decimal "2025" <? 50 then 2000 + decimal "2025"
                else 1900 + decimal "2025"))
  /\ DataQuality.year_from_time
       ("Week Ending " +:+ "01" +:+ "-" +:+ "05" +:+ "-" +:+ run_of "7" 4301)
     = (if 4300 <? Z.of_nat (String.length (run_of "7" 4301)) then None
        else Some (if decimal (run_of "7" 4301) <? 50 then 2000 + decimal (run_of "7" 4301)
                   else 1900 + decimal (run_of "7" 4301))).
Proof.
  split.
  - apply (year_from_time_any_length "01" "05" "2025"); try reflexivity. discriminate.
  - apply (year_from_time_any_length "01" "05" (run_of "7" 4301));
      [reflexivity | reflexivity | | vm_compute; reflexivity].
    intros H. apply (f_equal String.length) in H. vm_compute in H. discriminate H.
Defined.

Example year_from_time_four_digits :
  DataQuality.year_from_time "Week Ending 01-05-2025" = Some 3925
  /\ DataQuality.year_from_time "Week Ending 01-05-5" = Some 2005.
Proof. split; reflexivity. Qed.

(** ** Column order after the calendar columns are added *)

Lemma name_in_In (name : string) (names : list string) :
  name_in name names = true <-> In name names.
Proof.
  unfold name_in. rewrite existsb_exists. split.
  - intros (x & Hx & Heq). apply String.eqb_eq in Heq. now subst.
  - intros H. exists name. split; [exact H | apply String.eqb_refl].
Qed.

Section ColumnOrder.

Variable time_col : string.
Variable new_cols : list string.

Abbreviation place := (TransformarWeeks.place time_col new_cols).
Abbreviation keep := TransformarWeeks.keep.

Lemma place_other (cols : list string) :
  ~ In time_col cols -> forall acc, fold_left place cols acc = acc ++ cols.
Proof.
  induction cols as [|c cols IH]; intros Hnot acc; cbn [fold_left].
  - now rewrite app_nil_r.
  - unfold TransformarWeeks.place at 2.
    destruct (String.eqb_spec c time_col) as [->|_]; [exfalso; apply Hnot; now left|].
    rewrite IH by (intros H; apply Hnot; now right). now rewrite <- app_assoc.
Qed.

Lemma place_sublist (cols : list string) :
  forall acc, (acc ++ cols) `sublist_of` fold_left place cols acc.
Proof.
  induction cols as [|c cols IH]; intros acc; cbn [fold_left].
  - now rewrite app_nil_r.
  - etransitivity; [|apply IH].
    replace (acc ++ c :: cols) with ((acc ++ [c]) ++ cols) by now rewrite <- app_assoc.
    apply sublist_app; [|reflexivity].
    unfold TransformarWeeks.place. destruct (String.eqb c time_col); [|reflexivity].
    apply sublist_inserts_r. reflexivity.
Qed.

Lemma keep_present (cols : list string) :
  forall acc, (forall c, In c cols -> In c acc) -> fold_left keep cols acc = acc.
Proof.
  induction cols as [|c cols IH]; intros acc Hall; cbn [fold_left]; [reflexivity|].
  unfold TransformarWeeks.keep at 2.
  rewrite (proj2 (name_in_In c acc)) by (apply Hall; now left). cbn [negb].
  apply IH. intros c' Hc'. apply Hall. now right.
Qed.

Lemma keep_grows (cols : list string) :
  forall acc,
    acc `sublist_of` fold_left keep cols acc
    /\ forall c, In c acc \/ In c cols -> In c (fold_left keep cols acc).
Proof.
  induction cols as [|c cols IH]; intros acc; cbn [fold_left].
  - split; [reflexivity|]. intros c [H|[]]. exact H.
  - destruct (IH (keep acc c)) as [Hsub Hin].
    assert (Hstep : acc `sublist_of` keep acc c /\ In c (keep acc c)
                    /\ forall x, In x acc -> In x (keep acc c)).
    { unfold TransformarWeeks.keep. destruct (name_in c acc) eqn:Hc; cbn [negb].
      - apply name_in_In in Hc. auto.
      - repeat split.
        + apply sublist_inserts_r. reflexivity.
        + apply in_or_app. right. now left.
        + intros x Hx. apply in_or_app. now left. }
    destruct Hstep as (Hs1 & Hc & Hold). split; [now transitivity (keep acc c)|].
    intros x [Hx|[<-|Hx]]; apply Hin; auto.
Qed.

End ColumnOrder.

(** When the input frame has the time column once and the calendar
    columns have been attached after its own columns, the selected order
    is: the columns before the time column, the time column, the five
    calendar columns, the columns after it. *)
Theorem ordered_cols_inserts_after_time (before after : list string) (time_col : string) :
  ~ In time_col before -> ~ In time_col after ->
  TransformarWeeks.ordered_cols (before ++ time_col :: after)
    ((before ++ time_col :: after) ++ TransformarWeeks.NEW_COLS) time_col
  = Ok (before ++ time_col :: TransformarWeeks.NEW_COLS ++ after).
Proof.
  intros Hb Ha. unfold TransformarWeeks.ordered_cols.
  rewrite (proj2 (name_in_In time_col (before ++ time_col :: after)))
    by (apply in_or_app; right; now left).
  cbn [negb].
  assert (Hnew : List.filter
                   (fun c => name_in c ((before ++ time_col :: after)
                                          ++ TransformarWeeks.NEW_COLS))
                   TransformarWeeks.NEW_COLS = TransformarWeeks.NEW_COLS).
  { assert (Hin : forall c, In c TransformarWeeks.NEW_COLS ->
                            name_in c ((before ++ time_col :: after)
                                         ++ TransformarWeeks.NEW_COLS) = true).
    { intros c Hc. apply name_in_In, in_or_app. now right. }
    unfold TransformarWeeks.NEW_COLS in *. cbn [List.filter].
    rewrite !Hin by (cbn; tauto). reflexivity. }
  cbv zeta. rewrite Hnew.
  assert (Hord : fold_left (TransformarWeeks.place time_col TransformarWeeks.NEW_COLS)
                           (before ++ time_col :: after) []
                 = before ++ time_col :: TransformarWeeks.NEW_COLS ++ after).
  { rewrite fold_left_app, (place_other time_col _ before Hb). cbn [fold_left app].
    unfold TransformarWeeks.place at 2.
    rewrite String.eqb_refl, (place_other time_col _ after Ha).
    rewrite <- !app_assoc. reflexivity. }
  rewrite Hord, keep_present; [reflexivity|].
  intros c Hc. rewrite !in_app_iff in Hc. cbn [In] in Hc.
  rewrite in_app_iff. cbn [In]. rewrite in_app_iff. tauto.
Qed.

Lemma ordered_cols_inserts_after_time_witness :
  TransformarWeeks.ordered_cols (["Product"; "Geography"] ++ "Time" :: ["Dollar Sales"])
    ((["Product"; "Geography"] ++ "Time" :: ["Dollar Sales"]) ++ TransformarWeeks.NEW_COLS)
    "Time"
  = Ok (["Product"; "Geography"] ++ "Time" :: TransformarWeeks.NEW_COLS ++ ["Dollar Sales"]).
Proof.
  apply (ordered_cols_inserts_after_time ["Product"; "Geography"] ["Dollar Sales"] "Time");
    cbn; intuition discriminate.
Defined.

(** A frame without the time column is refused with [KeyError]; with it,
    no column is lost: the original columns keep their relative order in
    the selected order, and every column of the attached frame is in it. *)
Theorem ordered_cols_keeps_columns (original_cols df_out_columns : list string)
    (time_col : string) :
  (~ In time_col original_cols ->
   TransformarWeeks.ordered_cols original_cols df_out_columns time_col = Raise KeyError)
  /\ (In time_col original_cols ->
      exists ordered,
        TransformarWeeks.ordered_cols original_cols df_out_columns time_col = Ok ordered
        /\ original_cols `sublist_of` ordered
        /\ forall c, In c df_out_columns -> In c ordered).
Proof.
  unfold TransformarWeeks.ordered_cols. split; intros Htime.
  - destruct (name_in time_col original_cols) eqn:H; [|reflexivity].
    apply name_in_In in H. contradiction.
  - rewrite (proj2 (name_in_In _ _) Htime). cbn [negb]. cbv zeta.
    eexists. split; [reflexivity|].
    match goal with
    | |- _ `sublist_of` fold_left _ _ ?acc /\ _ =>
        destruct (keep_grows df_out_columns acc) as [Hsub Hin]
    end.
    split.
    + etransitivity; [|exact Hsub]. apply (place_sublist time_col _ original_cols []).
    + intros c Hc. apply Hin. now right.
Qed.

Lemma ordered_cols_keeps_columns_witness :
  TransformarWeeks.ordered_cols ["Product"] ["Product"; "Week"] "Time" = Raise KeyError
  /\ exists ordered,
       TransformarWeeks.ordered_cols ["Week"; "Time"] ["Week"; "Time"; "Week"; "Year"] "Time"
       = Ok ordered
       /\ ["Week"; "Time"] `sublist_of` ordered
       /\ forall c, In c ["Week"; "Time"; "Week"; "Year"] -> In c ordered.
Proof.
  split.
  - apply (ordered_cols_keeps_columns ["Product"] ["Product"; "Week"] "Time").
    cbn. intuition discriminate.
  - apply (ordered_cols_keeps_columns ["Week"; "Time"] ["Week"; "Time"; "Week"; "Year"]
             "Time"). cbn. tauto.
Defined.

(** ** The week dictionary *)

Lemma mapM_option_total {A B} (f : A -> option B) (l : list A) :
  (forall x, In x l -> is_Some (f x)) ->
  exists out,
    mapM f l = Some out
    /\ length out = length l
    /\ forall k x, nth_error l k = Some x ->
                   exists y, f x = Some y /\ nth_error out k = Some y.
Proof.
  induction l as [|a l IH]; intros Hall.
  - exists []. repeat split. intros [|k] x; discriminate.
  - destruct (Hall a (or_introl eq_refl)) as [b Hb].
    destruct IH as (out & Hout & Hlen & Hnth); [intros x Hx; apply Hall; now right|].
    exists (b :: out). split; [|split].
    + cbn [mapM]. rewrite Hb. cbn. rewrite Hout. reflexivity.
    + cbn. now rewrite Hlen.
    + intros [|k] x; cbn [nth_error].
      * intros [= <-]. eauto.
      * apply Hnth.
Qed.

Lemma range_nth (count : Z) (k : nat) (i : Z) :
  nth_error (range count) k = Some i -> i = Z.of_nat k /\ 0 <= i < count.
Proof.
  unfold range. rewrite nth_error_map, nth_error_seq.
  destruct (Nat.ltb_spec k (Z.to_nat count)); [|discriminate].
  cbn. intros [= <-]. lia.
Qed.

Lemma toordinal_base_date : Datetime.toordinal base_date = 739256.
Proof. reflexivity. Qed.

(** The dates of the weeks: the week of index [i] has one exactly up to
    index 416114, whose week ends on 9999-12-26. *)
Lemma week_ending_range (i : Z) :
  0 <= i ->
  if i <=? 416114 then is_Some (week_ending (7 * i)) else week_ending (7 * i) = None.
Proof.
  intros Hi. unfold week_ending, Datetime.add_days. rewrite toordinal_base_date.
  unfold Datetime.MAXORDINAL.
  destruct (Z.leb_spec i 416114).
  - destruct (Z.ltb_spec 999999999 (Z.abs (7 * i))); [lia|].
    destruct (Z.ltb_spec 0 (739256 + 7 * i)); [|lia].
    destruct (Z.leb_spec (739256 + 7 * i) 3652059); [|lia]. cbn. eauto.
  - destruct (Z.ltb_spec 999999999 (Z.abs (7 * i))); [reflexivity|].
    destruct (Z.ltb_spec 0 (739256 + 7 * i)); [|reflexivity].
    destruct (Z.leb_spec (739256 + 7 * i) 3652059); [lia | reflexivity].
Qed.

(** The synthetic week sheet is sized like the original as far as dates
    go.  For an original sheet of [max_row] rows, from 1 to 416116, the
    week sheet gets [max_row - 1] data rows, the [i]-th with the date of
    the week [i] and the week number [i + 1], and its dimension declares
    [max_row] rows.  From 416117 rows on the date of the last week is
    past the year 9999: the date arithmetic raises [OverflowError] and no
    sheet is written. *)
Theorem write_week_sheet_sized_like_original
    (fs : gmap string bytes)
    (week_sheet_path : string) (week_headers : list string) (max_row_ : Z) :
  week_headers <> [] ->
  1 <= max_row_ ->
  (max_row_ <= 416116 ->
   exists rows last_letter writes,
     week_rows max_row_ = Some rows
     /\ Py.len rows = max_row_ - 1
     /\ (forall (i : nat) row,
           nth_error rows i = Some row ->
           exists d, week_ending (7 * Z.of_nat i) = Some d
                     /\ row = [VStr ("Week Ending " +:+ d); VInt (Z.of_nat i + 1)])
     /\ col_index_to_letter (Py.len week_headers) = Some last_letter
     /\ write_week_sheet fs week_sheet_path week_headers max_row_
        = Some (<[week_sheet_path := utf8 (String.concat "" writes)]> fs, Ok tt)
     /\ nth_error writes 2
        = Some ("<dimension ref=" +:+ Py.dquote +:+ "A1:" +:+ last_letter
                  +:+ Py.str_of_int max_row_ +:+ Py.dquote +:+ "/>"))
  /\ (416117 <= max_row_ ->
      week_rows max_row_ = None
      /\ write_week_sheet fs week_sheet_path week_headers max_row_ = None).
Proof.
  intros Hne Hmax.
  set (f := fun i => d ← week_ending (7 * i);
                     Some {| w_time := "Week Ending " +:+ d; w_week := i + 1 |}).
  split.
  - intros Hle.
    destruct (mapM_option_total f (range (Z.max (max_row_ - 1) 0)))
      as (week_data & Hdata & Hlen & Hnth).
    { intros i Hi. apply In_nth_error in Hi as [k Hk].
      apply range_nth in Hk as [_ Hi]. unfold f.
      pose proof (week_ending_range i (proj1 Hi)) as Hd.
      destruct (Z.leb_spec i 416114); [|lia].
      destruct Hd as [d ->]. cbn. eauto. }
    set (rows := map (fun row => [VStr (w_time row); VInt (w_week row)]) week_data).
    assert (Hrows : week_rows max_row_ = Some rows).
    { unfold week_rows, make_week_rows. fold f. rewrite Hdata. reflexivity. }
    assert (Hcount : Py.len rows = max_row_ - 1).
    { unfold Py.len, rows. rewrite length_map, Hlen. unfold range.
      rewrite length_map, length_seq. lia. }
    destruct (write_table_sheet_structure fs week_sheet_path week_headers rows
                [false; true] Hne)
      as (col_letters & last_letter & writes & _ & Hlast & Hwrite & Hdim & _).
    exists rows, last_letter, writes. repeat split.
    + exact Hrows.
    + exact Hcount.
    + intros i row Hrow. unfold rows in Hrow. rewrite nth_error_map in Hrow.
      destruct (nth_error week_data i) as [w|] eqn:Hw; [|discriminate].
      cbn in Hrow. injection Hrow as <-.
      assert (Hk : exists x, nth_error (range (Z.max (max_row_ - 1) 0)) i = Some x).
      { destruct (nth_error (range (Z.max (max_row_ - 1) 0)) i) eqn:Hx; [eauto|].
        apply nth_error_None in Hx.
        assert (i < length week_data)%nat by (apply nth_error_Some; congruence). lia. }
      destruct Hk as (x & Hx). destruct (Hnth i x Hx) as (y & Hy & Hout).
      apply range_nth in Hx as [-> _]. unfold f in Hy.
      destruct (week_ending (7 * Z.of_nat i)) as [d|]; [|discriminate].
      cbn in Hy. injection Hy as <-. rewrite Hw in Hout. injection Hout as ->.
      cbn. eauto.
    + exact Hlast.
    + unfold write_week_sheet. rewrite Hrows. cbn. now rewrite Hwrite.
    + rewrite Hdim. replace (1 + Py.len rows) with max_row_ by lia. reflexivity.
  - intros Hge.
    assert (Hrows : week_rows max_row_ = None).
    { unfold week_rows, make_week_rows. fold f.
      rewrite (mapM_None_2 f); [reflexivity|].
      apply List.Exists_exists. exists 416115. split.
      - unfold range. apply in_map_iff. exists (Z.to_nat 416115).
        split; [apply Z2Nat.id; lia|]. apply in_seq. lia.
      - unfold f. pose proof (week_ending_range 416115 ltac:(lia)) as Hd.
        cbn [Z.leb Z.compare Pos.compare Pos.compare_cont] in Hd.
        now rewrite Hd. }
    split; [exact Hrows|]. unfold write_week_sheet. now rewrite Hrows.
Qed.

Lemma write_week_sheet_sized_like_original_witness :
  (6 <= 416116 ->
   exists rows last_letter writes,
     week_rows 6 = Some rows
     /\ Py.len rows = 6 - 1
     /\ (forall (i : nat) row,
           nth_error rows i = Some row ->
           exists d, week_ending (7 * Z.of_nat i) = Some d
                     /\ row = [VStr ("Week Ending " +:+ d); VInt (Z.of_nat i + 1)])
     /\ col_index_to_letter (Py.len ["Time"; "Week"]) = Some last_letter
     /\ write_week_sheet ∅ "week.xml" ["Time"; "Week"] 6
        = Some (<["week.xml" := utf8 (String.concat "" writes)]> ∅, Ok tt)
     /\ nth_error writes 2
        = Some ("<dimension ref=" +:+ Py.dquote +:+ "A1:" +:+ last_letter
                  +:+ Py.str_of_int 6 +:+ Py.dquote +:+ "/>"))
  /\ (416117 <= 6 ->
      week_rows 6 = None /\ write_week_sheet ∅ "week.xml" ["Time"; "Week"] 6 = None).
Proof.
  apply (write_week_sheet_sized_like_original ∅ "week.xml" ["Time"; "Week"] 6);
    [discriminate | lia].
Defined.

Example week_rows_ex :
  week_rows 4
  = Some [[VStr "Week Ending 01-05-25"; VInt 1]; [VStr "Week Ending 01-12-25"; VInt 2];
          [VStr "Week Ending 01-19-25"; VInt 3]]
  /\ week_ending (7 * 51) = Some "12-28-25"
  /\ week_ending (7 * 52) = Some "01-04-26"
  /\ week_ending (7 * 416114) = Some "12-26-99"
  /\ week_ending (7 * 416115) = None.
Proof. repeat split; vm_compute; reflexivity. Qed.

Example fromordinal_ex :
  Datetime.fromordinal 1 = {| Datetime.year := 1; Datetime.month := 1; Datetime.day := 1 |}
  /\ Datetime.fromordinal 730120
     = {| Datetime.year := 2000; Datetime.month := 1; Datetime.day := 1 |}
  /\ Datetime.fromordinal 730179
     = {| Datetime.year := 2000; Datetime.month := 2; Datetime.day := 29 |}
  /\ Datetime.fromordinal 693960
     = {| Datetime.year := 1900; Datetime.month := 12; Datetime.day := 31 |}
  /\ Datetime.fromordinal Datetime.MAXORDINAL
     = {| Datetime.year := 9999; Datetime.month := 12; Datetime.day := 31 |}.
Proof. repeat split; vm_compute; reflexivity. Qed.

(** ** Brand and category dictionaries *)

Lemma string_of_uint_no_blank (d : Decimal.uint) :
  Py.contains " " (NilEmpty.string_of_uint d) = false.
Proof. induction d; cbn; auto. Qed.

Lemma str_of_int_no_blank (n : Z) : Py.contains " " (Py.str_of_int n) = false.
Proof.
  assert (Hu : forall d, Py.contains " " (NilZero.string_of_uint d) = false).
  { intros d. destruct d; try reflexivity;
      unfold NilZero.string_of_uint; apply string_of_uint_no_blank. }
  unfold Py.str_of_int.
  destruct (Z.to_int n) as [d|d]; cbn [NilZero.string_of_int Py.contains]; [apply Hu|].
  rewrite Hu. reflexivity.
Qed.

Lemma to_int_not_nil (n : Z) :
  Z.to_int n <> Decimal.Pos Decimal.Nil /\ Z.to_int n <> Decimal.Neg Decimal.Nil.
Proof.
  destruct n as [|p|p]; cbn [Z.to_int]; split; try discriminate;
    intros [= Hp]; exact (DecimalPos.Unsigned.to_uint_nonnil p Hp).
Qed.

Lemma str_of_int_inj (a b : Z) : Py.str_of_int a = Py.str_of_int b -> a = b.
Proof.
  unfold Py.str_of_int. intros Hab. apply DecimalZ.to_int_inj.
  destruct (to_int_not_nil a) as [Ha1 Ha2], (to_int_not_nil b) as [Hb1 Hb2].
  pose proof (NilZero.isi _ Ha1 Ha2) as Ha. pose proof (NilZero.isi _ Hb1 Hb2) as Hb.
  rewrite Hab in Ha. congruence.
Qed.

(** The barcode is what a product name ends with, whatever the brand,
    the subcategory and the size hold. *)
Lemma barcode_of_product (brand subcat size : string) (n : Z) :
  barcode_of (brand +:+ " " +:+ subcat +:+ " " +:+ size +:+ " - " +:+ Py.str_of_int n)
  = Py.str_of_int n.
Proof.
  unfold barcode_of, Py.split.
  replace (brand +:+ " " +:+ subcat +:+ " " +:+ size +:+ " - " +:+ Py.str_of_int n)
    with ((brand +:+ " " +:+ subcat +:+ " " +:+ size +:+ " -")
            +:+ String " " (Py.str_of_int n)).
  - rewrite split_from_last_app.
    now rewrite split_from_no_sep by apply str_of_int_no_blank.
  - rewrite ?append_assoc. reflexivity.
Qed.

Lemma categories_get_key (category : string) :
  In category (map fst CATEGORIES) ->
  exists subcats, categories_get CATEGORIES category = Ok subcats /\ subcats <> [].
Proof.
  cbn [map fst CATEGORIES]. intros Hin.
  repeat (destruct Hin as [<-|Hin];
          [eexists; split; [vm_compute; reflexivity | discriminate]|]).
  destruct Hin.
Qed.

Section RandomFacts.

Variable rng : Type.
Variable randbelow : rng -> Z -> Z * rng.

Lemma index_raises {A} (l : list A) (i : Z) (e : exn) :
  Py.index l i = Raise e -> e = IndexError.
Proof.
  unfold Py.index.
  destruct ((0 <=? _) && _); [destruct (nth_error l _)|]; congruence.
Qed.

(** Whatever the generator draws, [random.choice] returns a member of
    the sequence or raises [IndexError]. *)
Lemma choice_cases {A} (seq : list A) (g : rng) :
  (exists a g', choice randbelow seq g = Ok (a, g') /\ In a seq)
  \/ choice randbelow seq g = Raise IndexError.
Proof.
  unfold choice. destruct seq as [|x seq]; [now right|].
  destruct (randbelow g (Py.len (x :: seq))) as [k g'].
  destruct (Py.index (x :: seq) k) as [a|e] eqn:Hidx; cbn [mbind result_bind].
  - left. exists a, g'. split; [reflexivity | exact (index_In _ _ _ Hidx)].
  - right. now rewrite (index_raises _ _ _ Hidx).
Qed.

Section InRange.

(** What [_randbelow(n)] guarantees: a number of [range(n)]. *)
Hypothesis randbelow_range : forall g n, 0 < n -> 0 <= fst (randbelow g n) < n.

Lemma choice_in {A} (seq : list A) (g : rng) :
  seq <> [] -> exists a g', choice randbelow seq g = Ok (a, g') /\ In a seq.
Proof.
  intros Hne. destruct (choice_cases seq g) as [H|H]; [exact H|]. exfalso.
  revert H. unfold choice. destruct seq as [|x seq]; [congruence|].
  assert (Hlen : 0 < Py.len (x :: seq)) by (unfold Py.len; cbn [length]; lia).
  pose proof (randbelow_range g _ Hlen) as Hr.
  destruct (randbelow g (Py.len (x :: seq))) as [k g']. cbn [fst] in Hr.
  unfold Py.index.
  destruct (Z.ltb_spec k 0); [lia|].
  destruct (Z.leb_spec 0 k); [|lia].
  destruct (Z.ltb_spec k (Py.len (x :: seq))); [|lia]. cbn [andb].
  destruct (nth_error (x :: seq) (Z.to_nat k)) eqn:Hn; [discriminate|].
  apply nth_error_None in Hn. unfold Py.len in *. lia.
Qed.

Lemma make_category_rows_loop_ok (brands : list brand_row) (n : nat) :
  brands <> [] ->
  forall i g,
    exists rows g',
      make_category_rows_loop randbelow n i brands g = Ok (rows, g')
      /\ length rows = n
      /\ forall k row, nth_error rows k = Some row ->
           (exists brand size,
               In brand brands /\ In size SIZES
               /\ c_product row
                  = b_brand brand +:+ " " +:+ c_subcategory row +:+ " " +:+ size
                      +:+ " - " +:+ Py.str_of_int (7600000000000 + (i + Z.of_nat k)))
           /\ exists subcats,
               categories_get CATEGORIES (c_category row) = Ok subcats
               /\ In (c_subcategory row) subcats.
Proof.
  intros Hb. induction n as [|n IH]; intros i g; cbn [make_category_rows_loop].
  - exists [], g. split; [reflexivity|]. split; [reflexivity|].
    intros [|k] row; discriminate.
  - destruct (choice_in (map fst CATEGORIES) g) as (category & g1 & -> & Hcat);
      [discriminate|].
    cbn [mbind result_bind].
    destruct (categories_get_key category Hcat) as (subcats & Hget & Hne).
    rewrite Hget. cbn [mbind result_bind].
    destruct (choice_in subcats g1 Hne) as (subcat & g2 & -> & Hsub).
    cbn [mbind result_bind].
    destruct (choice_in brands g2 Hb) as (brand & g3 & -> & Hbrand).
    cbn [mbind result_bind].
    destruct (choice_in SIZES g3) as (size & g4 & -> & Hsize); [discriminate|].
    cbn [mbind result_bind].
    destruct (IH (i + 1) g4) as (rows & g5 & -> & Hlen & Hrows).
    cbn [mbind result_bind].
    eexists _, g5. split; [reflexivity|]. split; [cbn [length]; now rewrite Hlen|].
    intros [|k] row; cbn [nth_error].
    + intros [= <-]. cbn [c_product c_category c_subcategory]. split.
      * exists brand, size. repeat split; try assumption.
        now rewrite Z.add_0_r.
      * now exists subcats.
    + intros Hk. destruct (Hrows k row Hk) as [(b & s & Hb' & Hs' & Hp) Hc].
      split; [|exact Hc]. exists b, s. repeat split; try assumption.
      rewrite Hp. do 8 f_equal. lia.
Qed.

(** With at least one brand to choose from, [make_category_rows]
    returns [max(count, 0)] rows.  The product of the row at position
    [k] is made of the [Brand] of one of the given brands, the row's
    subcategory, one of the sizes and the barcode [7600000000000 + k],
    which is what follows the last blank of the product; the row's
    subcategory is one of those that [CATEGORIES] lists under the row's
    category; and no two rows have the same product. *)
Theorem make_category_rows_distinct_products
    (count : Z) (brands : list brand_row) (g : rng) :
  brands <> [] ->
  exists rows g',
    make_category_rows randbelow count brands g = Ok (rows, g')
    /\ Py.len rows = Z.max count 0
    /\ List.NoDup (map c_product rows)
    /\ forall k row, nth_error rows k = Some row ->
         barcode_of (c_product row) = Py.str_of_int (7600000000000 + Z.of_nat k)
         /\ (exists brand size,
                In brand brands /\ In size SIZES
                /\ c_product row
                   = b_brand brand +:+ " " +:+ c_subcategory row +:+ " " +:+ size
                       +:+ " - " +:+ barcode_of (c_product row))
         /\ exists subcats,
             categories_get CATEGORIES (c_category row) = Ok subcats
             /\ In (c_subcategory row) subcats.
Proof.
  intros Hb. unfold make_category_rows.
  destruct (make_category_rows_loop_ok brands (Z.to_nat count) Hb 0 g)
    as (rows & g' & Hrun & Hlen & Hrows).
  assert (Hbar : forall k row, nth_error rows k = Some row ->
            barcode_of (c_product row) = Py.str_of_int (7600000000000 + Z.of_nat k)).
  { intros k row Hk. destruct (Hrows k row Hk) as [(b & s & _ & _ & Hp) _].
    rewrite Hp. apply barcode_of_product. }
  exists rows, g'. split; [exact Hrun|]. split; [unfold Py.len; lia|]. split.
  - apply List.NoDup_nth_error. intros j k Hj Hjk.
    rewrite length_map in Hj. rewrite !nth_error_map in Hjk.
    destruct (nth_error rows j) as [rj|] eqn:Hrj;
      [|apply nth_error_None in Hrj; lia].
    destruct (nth_error rows k) as [rk|] eqn:Hrk; [|discriminate].
    cbn in Hjk. injection Hjk as Hjk.
    pose proof (Hbar j rj Hrj) as Hbj. pose proof (Hbar k rk Hrk) as Hbk.
    rewrite Hjk, Hbk in Hbj. apply str_of_int_inj in Hbj. lia.
  - intros k row Hk. split; [exact (Hbar k row Hk)|].
    destruct (Hrows k row Hk) as [(b & s & Hb' & Hs' & Hp) Hc].
    split; [|exact Hc]. exists b, s. repeat split; try assumption.
    rewrite (Hbar k row Hk). exact Hp.
Qed.

End InRange.

End RandomFacts.


Lemma make_category_rows_distinct_products_witness :
  exists rows g',
    make_category_rows counter_randbelow 3
      [{| b_brand := "MESA FOODS"; b_name := "Mesa Foods" |}] 5 = Ok (rows, g')
    /\ Py.len rows = Z.max 3 0
    /\ List.NoDup (map c_product rows)
    /\ forall k row, nth_error rows k = Some row ->
         barcode_of (c_product row) = Py.str_of_int (7600000000000 + Z.of_nat k)
         /\ (exists brand size,
                In brand [{| b_brand := "MESA FOODS"; b_name := "Mesa Foods" |}]
                /\ In size SIZES
                /\ c_product row
                   = b_brand brand +:+ " " +:+ c_subcategory row +:+ " " +:+ size
                       +:+ " - " +:+ barcode_of (c_product row))
         /\ exists subcats,
             categories_get CATEGORIES (c_category row) = Ok subcats
             /\ In (c_subcategory row) subcats.
Proof.
  apply (make_category_rows_distinct_products Z counter_randbelow).
  - intros g n Hn. cbn [counter_randbelow fst]. apply Z.mod_pos_bound. exact Hn.
  - discriminate.
Defined.

Section DictionaryFacts.

Variable rng : Type.
Variable randbelow : rng -> Z -> Z * rng.

(** When the brand sheet of the original has no data row
    ([max_row <= 1]) and the category sheet has at least one
    ([max_row >= 2]), building the dictionaries raises [IndexError],
    whatever the generator draws: [brand_data] is empty, and the first
    category row chooses a brand from it. *)
Theorem make_dictionaries_without_brands
    (brand_max_row category_max_row : Z) (g : rng) :
  brand_max_row <= 1 ->
  2 <= category_max_row ->
  make_dictionaries randbelow brand_max_row category_max_row g = Raise IndexError.
Proof.
  intros Hb Hc. unfold make_dictionaries, make_brand_rows, make_category_rows.
  replace (Z.to_nat (Z.max (brand_max_row - 1) 0)) with O by lia.
  cbn [make_brand_rows_loop mbind result_bind].
  destruct (Z.to_nat (Z.max (category_max_row - 1) 0)) as [|n] eqn:Hn; [lia|].
  cbn [make_category_rows_loop].
  destruct (choice_cases rng randbelow (map fst CATEGORIES) g)
    as [(category & g1 & -> & Hcat)| ->]; [|reflexivity].
  cbn [mbind result_bind].
  destruct (categories_get_key category Hcat) as (subcats & -> & _).
  cbn [mbind result_bind].
  destruct (choice_cases rng randbelow subcats g1)
    as [(subcat & g2 & -> & _)| ->]; reflexivity.
Qed.

Section BrandRows.

Hypothesis randbelow_range : forall g n, 0 < n -> 0 <= fst (randbelow g n) < n.

Lemma make_brand_rows_loop_ok (n : nat) :
  forall g,
    exists rows g',
      make_brand_rows_loop randbelow n g = Ok (rows, g')
      /\ length rows = n
      /\ Forall (fun row => In (b_name row) brand_pool
                            /\ b_brand row = map_string to_upper (b_name row)) rows.
Proof.
  induction n as [|n IH]; intros g; cbn [make_brand_rows_loop].
  - exists [], g. split; [reflexivity|]. split; [reflexivity | constructor].
  - destruct (choice_in rng randbelow randbelow_range brand_names g)
      as (name & g1 & -> & Hname); [discriminate|].
    cbn [mbind result_bind].
    destruct (choice_in rng randbelow randbelow_range brand_suffixes g1)
      as (suffix & g2 & -> & Hsuffix); [discriminate|].
    cbn [mbind result_bind].
    destruct (IH g2) as (rows & g3 & -> & Hlen & Hrows).
    cbn [mbind result_bind].
    eexists _, g3. split; [reflexivity|]. split; [cbn [length]; now rewrite Hlen|].
    constructor; [|exact Hrows]. cbn [b_name b_brand]. split; [|reflexivity].
    unfold brand_pool. apply in_flat_map. exists name. split; [exact Hname|].
    apply in_map_iff. now exists suffix.
Qed.

(** With a generator that draws in range, [make_brand_rows] returns
    [max(count, 0)] rows; each has as [Name] one of the forty
    combinations of a name and a suffix and as [Brand] that name in
    upper case.  So a brand dictionary of more than forty rows always
    holds the same row twice. *)
Theorem make_brand_rows_at_most_forty (count : Z) (g : rng) :
  exists rows g',
    make_brand_rows randbelow count g = Ok (rows, g')
    /\ Py.len rows = Z.max count 0
    /\ (forall row, In row rows ->
          In (b_name row) brand_pool
          /\ b_brand row = map_string to_upper (b_name row))
    /\ (40 < count -> ~ List.NoDup rows).
Proof.
  unfold make_brand_rows.
  destruct (make_brand_rows_loop_ok (Z.to_nat count) g)
    as (rows & g' & -> & Hlen & Hrows).
  rewrite List.Forall_forall in Hrows.
  exists rows, g'. split; [reflexivity|]. split; [unfold Py.len; lia|].
  split; [exact Hrows|]. intros Hcount Hnodup.
  assert (Hnames : List.NoDup (map b_name rows)).
  { apply NoDup_map_NoDup_ForallPairs; [|exact Hnodup].
    intros [b1 n1] [b2 n2] H1 H2. cbn [b_name]. intros <-.
    destruct (Hrows _ H1) as [_ E1], (Hrows _ H2) as [_ E2].
    cbn [b_name b_brand] in E1, E2. now rewrite E1, E2. }
  assert (Hincl : incl (map b_name rows) brand_pool).
  { intros x Hx. apply in_map_iff in Hx as (row & <- & Hrow).
    exact (proj1 (Hrows row Hrow)). }
  pose proof (NoDup_incl_length Hnames Hincl) as Hle.
  rewrite length_map in Hle. change (length brand_pool) with 40%nat in Hle. lia.
Qed.

End BrandRows.

End DictionaryFacts.

Lemma make_dictionaries_without_brands_witness :
  make_dictionaries counter_randbelow 1 3 0 = Raise IndexError.
Proof.
  apply (make_dictionaries_without_brands Z counter_randbelow 1 3 0); lia.
Defined.

Lemma make_brand_rows_at_most_forty_witness :
  exists rows g',
    make_brand_rows counter_randbelow 41 7 = Ok (rows, g')
    /\ Py.len rows = Z.max 41 0
    /\ (forall row, In row rows ->
          In (b_name row) brand_pool
          /\ b_brand row = map_string to_upper (b_name row))
    /\ (40 < 41 -> ~ List.NoDup rows).
Proof.
  apply (make_brand_rows_at_most_forty Z counter_randbelow).
  intros g n Hn. cbn [counter_randbelow fst]. apply Z.mod_pos_bound. exact Hn.
Defined.
